(** * Verification of the typed configuration accessors of driver/config/config.go

    The accessors of [config.go] are embedded as Rocq functions over
    - a model of the Go values, strings and machine integers they compute with,
    - a model of the functions of Go's [net/url] that they call,
    - an interface ([Provider]) for the configuration source ([configx.Provider]),
      which is an external collaborator of the package, with the laws
      ([ProviderLaws]) the accessors rely on,
    - an interface ([Codec]) for the JSON helpers ([gjson], [encoding/json]).

    The properties of the accessors hold for every implementation of the
    interfaces. A reference in-memory source ([MemSource]) implements them, so
    that every accessor can be run on a concrete document.

    Entries written to the log below the fatal level do not change what an
    accessor returns and are left out; a fatal entry ends the process and is
    the outcome [Fatal]. *)

From Stdlib Require Import ZArith NArith List String Ascii Bool Lia.
From Stdlib Require Import DecimalString.
Import ListNotations.

Open Scope string_scope.
Open Scope Z_scope.

Set Warnings "-register-all".

(** ** Results of fallible calls *)

(** A Go call returning [(value, error)]. *)
Inductive result (E A : Type) : Type :=
| Ok (a : A)
| Err (e : E).
Arguments Ok {E A} a.
Arguments Err {E A} e.

(** An accessor either returns, or logs at level fatal: [Fatalf] writes the
    entry and exits the process, so nothing after it runs. *)
Inductive Outcome (A : Type) : Type :=
| Returns (a : A)
| Fatal (msg : string).
Arguments Returns {A} a.
Arguments Fatal {A} msg.

(** ** Go strings: byte sequences *)

Module GoString.

Definition byte_le (a b : ascii) : bool := (N_of_ascii a <=? N_of_ascii b)%N.

Definition between (lo hi c : ascii) : bool := byte_le lo c && byte_le c hi.

Definition is_lower (c : ascii) : bool := between "a" "z" c.
Definition is_upper (c : ascii) : bool := between "A" "Z" c.
Definition is_digit (c : ascii) : bool := between "0" "9" c.
Definition is_letter (c : ascii) : bool := is_lower c || is_upper c.
Definition is_alnum (c : ascii) : bool := is_letter c || is_digit c.

(** [c] is one of the bytes of [l] (a Go [switch c { case ... }]). *)
Definition one_of (l : list ascii) (c : ascii) : bool :=
  existsb (Ascii.eqb c) l.

Fixpoint all_bytes (P : ascii -> bool) (s : string) : bool :=
  match s with
  | EmptyString => true
  | String c r => P c && all_bytes P r
  end.

Fixpoint any_byte (P : ascii -> bool) (s : string) : bool :=
  match s with
  | EmptyString => false
  | String c r => P c || any_byte P r
  end.

(** [c] is a byte other than [sep]. *)
Definition is_not (sep c : ascii) : bool := negb (Ascii.eqb c sep).

Definition is_empty (s : string) : bool :=
  match s with EmptyString => true | _ => false end.

(** [strings.IndexByte(s, c)], [None] standing for -1. *)
Fixpoint index_byte (c : ascii) (s : string) : option nat :=
  match s with
  | EmptyString => None
  | String b r =>
      if Ascii.eqb b c then Some 0%nat
      else option_map S (index_byte c r)
  end.

(** [Some (s[:i], s[i+1:])] for [i] the first index of [sep] in [s]. *)
Fixpoint cut (sep : ascii) (s : string) : option (string * string) :=
  match s with
  | EmptyString => None
  | String b r =>
      if Ascii.eqb b sep then Some (EmptyString, r)
      else match cut sep r with
           | Some (pre, post) => Some (String b pre, post)
           | None => None
           end
  end.

(** [Some (s[:i], s[i+1:])] for [i] the last index of [sep] in [s]
    ([strings.LastIndex] with a one-byte separator). *)
Fixpoint cut_last (sep : ascii) (s : string) : option (string * string) :=
  match s with
  | EmptyString => None
  | String b r =>
      match cut_last sep r with
      | Some (pre, post) => Some (String b pre, post)
      | None => if Ascii.eqb b sep then Some (EmptyString, r) else None
      end
  end.

(** [strings.Count(s, c)] for a one-byte [c]. *)
Fixpoint count_byte (c : ascii) (s : string) : nat :=
  match s with
  | EmptyString => 0%nat
  | String b r => ((if Ascii.eqb b c then 1 else 0) + count_byte c r)%nat
  end.

(** [strings.HasPrefix(s, pre)]. *)
Fixpoint has_prefix (s pre : string) {struct pre} : bool :=
  match pre with
  | EmptyString => true
  | String c pre' =>
      match s with
      | String d s' => Ascii.eqb c d && has_prefix s' pre'
      | EmptyString => false
      end
  end.

Definition has_suffix (s suf : string) : bool :=
  (String.length suf <=? String.length s)%nat
  && String.eqb (substring (String.length s - String.length suf) (String.length suf) s) suf.

(** [s[:len(s)-1]]. *)
Definition drop_last (s : string) : string :=
  substring 0 (String.length s - 1) s.

(** [s[i:]]. *)
Definition from (i : nat) (s : string) : string :=
  substring i (String.length s - i) s.

Definition lower_byte (c : ascii) : ascii :=
  if is_upper c then ascii_of_N (N_of_ascii c + 32) else c.

(** [strings.ToLower] on ASCII text. *)
Fixpoint to_lower (s : string) : string :=
  match s with
  | EmptyString => EmptyString
  | String c r => String (lower_byte c) (to_lower r)
  end.

(** The verb [%d] of [fmt.Sprintf] on an [int]. *)
Definition itoa (n : Z) : string := NilEmpty.string_of_int (Z.to_int n).

(** [fmt.Sprintf("%s:%d", host, port)]. *)
Definition host_port (host : string) (port : Z) : string :=
  host ++ ":" ++ itoa port.

End GoString.

(** ** Go machine integers *)

Module GoInt.

(** Conversion to [uint8] and [uint32]: the low bits are kept. *)
Definition to_uint8 (n : Z) : Z := n mod 2 ^ 8.
Definition to_uint32 (n : Z) : Z := n mod 2 ^ 32.

(** [int] is 64 bits wide, two's complement. *)
Definition to_int (n : Z) : Z := (n + 2 ^ 63) mod 2 ^ 64 - 2 ^ 63.

End GoInt.

(** ** Go's net/url: the functions config.go calls

    [ParseRequestURI] is [parse(rawurl, viaRequest = true)]; [URL_String] is
    the method [String] of a URL. The model follows the library function by
    function; a URL is the struct with the fields both functions read or
    write. *)

Module NetURL.
Import GoString.

Record Userinfo : Type := {
  username : string;
  password : string;
  passwordSet : bool
}.

Record URL : Type := {
  Scheme : string;
  Opaque : string;
  User : option Userinfo;
  Host : string;
  Path : string;
  RawPath : string;
  ForceQuery : bool;
  RawQuery : string;
  Fragment : string
}.

Inductive Error : Type :=
| InvalidControlCharacter
| EmptyURL
| MissingProtocolScheme
| InvalidURIForRequest
| MissingBracketInHost
| InvalidPort (colonPort : string)
| InvalidUserinfo
| EscapeError (s : string)
| InvalidHostError (s : string).

Inductive encoding : Type :=
| encodePath
| encodePathSegment
| encodeHost
| encodeZone
| encodeUserPassword
| encodeQueryComponent
| encodeFragment.

Definition is_host_or_zone (mode : encoding) : bool :=
  match mode with encodeHost | encodeZone => true | _ => false end.

Definition quote : ascii := "034"%char.

Definition ishex (c : ascii) : bool :=
  is_digit c || between "a" "f" c || between "A" "F" c.

Definition unhex (c : ascii) : N :=
  if is_digit c then (N_of_ascii c - 48)%N
  else if between "a" "f" c then (N_of_ascii c - 97 + 10)%N
  else if between "A" "F" c then (N_of_ascii c - 65 + 10)%N
  else 0%N.

Definition upperhex (n : N) : ascii :=
  nth (N.to_nat n)
    ["0"; "1"; "2"; "3"; "4"; "5"; "6"; "7"; "8"; "9"; "A"; "B"; "C"; "D"; "E"; "F"]%char
    "0"%char.

(** The byte written as [%XY]. *)
Definition unhex2 (a b : ascii) : ascii :=
  ascii_of_N (N.lor (N.shiftl (unhex a) 4) (unhex b) mod 256).

(** [shouldEscape(c, mode)]. *)
Definition shouldEscape (c : ascii) (mode : encoding) : bool :=
  if is_alnum c then false
  else if is_host_or_zone mode
          && one_of ["!"; "$"; "&"; "'"; "("; ")"; "*"; "+"; ","; ";"; "="; ":";
                     "["; "]"; "<"; ">"; quote]%char c
  then false
  else if one_of ["-"; "_"; "."; "~"]%char c then false
  else if one_of ["$"; "&"; "+"; ","; "/"; ":"; ";"; "="; "?"; "@"]%char c
          && match mode with
             | encodePath | encodePathSegment | encodeUserPassword
             | encodeQueryComponent | encodeFragment => true
             | _ => false
             end
  then match mode with
       | encodePath => Ascii.eqb c "?"
       | encodePathSegment => one_of ["/"; ";"; ","; "?"]%char c
       | encodeUserPassword => one_of ["@"; "/"; "?"; ":"]%char c
       | encodeQueryComponent => true
       | _ => false
       end
  else if match mode with encodeFragment => one_of ["!"; "("; ")"; "*"]%char c | _ => false end
  then false
  else true.

(** The bytes that [escape] leaves as they are in a host. *)
Definition unescaped_in_host (c : ascii) : bool := negb (shouldEscape c encodeHost).
(** [escape(s, mode)]. *)
Fixpoint escape (s : string) (mode : encoding) : string :=
  match s with
  | EmptyString => EmptyString
  | String c r =>
      if Ascii.eqb c " " && match mode with encodeQueryComponent => true | _ => false end
      then String "+" (escape r mode)
      else if shouldEscape c mode
      then String "%" (String (upperhex (N.shiftr (N_of_ascii c) 4))
                         (String (upperhex (N.land (N_of_ascii c) 15)) (escape r mode)))
      else String c (escape r mode)
  end.

(** First loop of [unescape]: the escapes are well formed. *)
Fixpoint unescape_check (s : string) (mode : encoding) : option Error :=
  match s with
  | EmptyString => None
  | String c r =>
      if Ascii.eqb c "%" then
        match r with
        | String a (String b r') =>
            if negb (ishex a && ishex b) then Some (EscapeError (String c (String a (String b ""))))
            else if match mode with encodeHost => true | _ => false end
                    && (unhex a <? 8)%N
                    && negb (String.eqb (String c (String a (String b ""))) "%25")
            then Some (EscapeError (String c (String a (String b ""))))
            else if match mode with encodeZone => true | _ => false end
                    && negb (String.eqb (String c (String a (String b ""))) "%25")
                    && negb (Ascii.eqb (unhex2 a b) " ")
                    && shouldEscape (unhex2 a b) encodeHost
            then Some (EscapeError (String c (String a (String b ""))))
            else unescape_check r' mode
        | _ => Some (EscapeError s)
        end
      else if Ascii.eqb c "+" then unescape_check r mode
      else if is_host_or_zone mode && negb (byte_le "128" c) && shouldEscape c encodeHost
      then Some (InvalidHostError (String c ""))
      else unescape_check r mode
  end.

(** Second loop of [unescape], run on a string the first loop accepted. *)
Fixpoint unescape_decode (s : string) (mode : encoding) : string :=
  match s with
  | EmptyString => EmptyString
  | String c r =>
      if Ascii.eqb c "%" then
        match r with
        | String a (String b r') => String (unhex2 a b) (unescape_decode r' mode)
        | _ => EmptyString
        end
      else if Ascii.eqb c "+" then
        String (match mode with encodeQueryComponent => " "%char | _ => "+"%char end)
               (unescape_decode r mode)
      else String c (unescape_decode r mode)
  end.

Definition unescape (s : string) (mode : encoding) : result Error string :=
  match unescape_check s mode with
  | Some e => Err e
  | None => Ok (unescape_decode s mode)
  end.

(** [validEncoded(s, mode)]. *)
Definition validEncoded (s : string) (mode : encoding) : bool :=
  all_bytes (fun c =>
    one_of ["!"; "$"; "&"; "'"; "("; ")"; "*"; "+"; ","; ";"; "="; ":"; "@";
            "["; "]"; "%"]%char c
    || negb (shouldEscape c mode)) s.

(** [validOptionalPort(port)]. *)
Definition validOptionalPort (port : string) : bool :=
  match port with
  | EmptyString => true
  | String c r => Ascii.eqb c ":" && all_bytes is_digit r
  end.

(** [validUserinfo(s)]. *)
Definition validUserinfo (s : string) : bool :=
  all_bytes (fun c =>
    is_alnum c
    || one_of ["-"; "."; "_"; ":"; "~"; "!"; "$"; "&"; "'"; "("; ")"; "*"; "+";
               ","; ";"; "="; "%"; "@"]%char c) s.

(** [split(s, sep, cutc)]. *)
Definition split (s : string) (sep : ascii) (cutc : bool) : string * string :=
  match cut sep s with
  | None => (s, EmptyString)
  | Some (pre, post) => if cutc then (pre, post) else (pre, String sep post)
  end.

(** [getScheme]: [Some (scheme, rest)] when the text up to the first colon is
    a scheme, [None] when the URL has no scheme. *)
Fixpoint getScheme_from (first : bool) (s : string)
  : result Error (option (string * string)) :=
  match s with
  | EmptyString => Ok None
  | String c r =>
      let continue :=
        match getScheme_from false r with
        | Ok (Some (scheme, rest)) => Ok (Some (String c scheme, rest))
        | other => other
        end in
      if is_letter c then continue
      else if is_digit c || one_of ["+"; "-"; "."]%char c then
        if first then Ok None else continue
      else if Ascii.eqb c ":" then
        if first then Err MissingProtocolScheme else Ok (Some (EmptyString, r))
      else Ok None
  end.

Definition getScheme (rawurl : string) : result Error (string * string) :=
  match getScheme_from true rawurl with
  | Ok (Some sr) => Ok sr
  | Ok None => Ok (EmptyString, rawurl)
  | Err e => Err e
  end.

Definition stringContainsCTLByte (s : string) : bool :=
  any_byte (fun b => negb (byte_le " " b) || Ascii.eqb b "127") s.

Definition bind {E A B : Type} (r : result E A) (k : A -> result E B) : result E B :=
  match r with
  | Ok a => k a
  | Err e => Err e
  end.

Notation "x <- r ;; k" := (bind r (fun x => k))
  (at level 61, r at next level, right associativity).

(** [parseHost(host)]. *)
Definition parseHost (host : string) : result Error string :=
  if has_prefix host "[" then
    match cut_last "]" host with
    | None => Err MissingBracketInHost
    | Some (literal, colonPort) =>
        if negb (validOptionalPort colonPort) then Err (InvalidPort colonPort)
        else
          match String.index 0 "%25" literal with
          | Some zone =>
              host1 <- unescape (substring 0 zone literal) encodeHost ;;
              host2 <- unescape (from zone literal) encodeZone ;;
              host3 <- unescape (String "]" colonPort) encodeHost ;;
              Ok (host1 ++ host2 ++ host3)
          | None => unescape host encodeHost
          end
    end
  else
    match cut_last ":" host with
    | Some (_, port) =>
        if negb (validOptionalPort (String ":" port)) then Err (InvalidPort (String ":" port))
        else unescape host encodeHost
    | None => unescape host encodeHost
    end.

(** [parseAuthority(authority)]. *)
Definition parseAuthority (authority : string)
  : result Error (option Userinfo * string) :=
  match cut_last "@" authority with
  | None =>
      host <- parseHost authority ;;
      Ok (None, host)
  | Some (userinfo, hostpart) =>
      host <- parseHost hostpart ;;
      if negb (validUserinfo userinfo) then Err InvalidUserinfo
      else if negb (any_byte (Ascii.eqb ":") userinfo) then
        name <- unescape userinfo encodeUserPassword ;;
        Ok (Some {| username := name; password := ""; passwordSet := false |}, host)
      else
        let (name, pass) := split userinfo ":" true in
        name <- unescape name encodeUserPassword ;;
        pass <- unescape pass encodeUserPassword ;;
        Ok (Some {| username := name; password := pass; passwordSet := true |}, host)
  end.

(** [parse(rawurl, true)], as [ParseRequestURI] calls it. *)
Definition ParseRequestURI (rawurl : string) : result Error URL :=
  if stringContainsCTLByte rawurl then Err InvalidControlCharacter
  else if is_empty rawurl then Err EmptyURL
  else if String.eqb rawurl "*" then
    Ok {| Scheme := ""; Opaque := ""; User := None; Host := ""; Path := "*";
          RawPath := ""; ForceQuery := false; RawQuery := ""; Fragment := "" |}
  else
    sr <- getScheme rawurl ;;
    let scheme := to_lower (fst sr) in
    let '(rest, force, query) :=
      if has_suffix (snd sr) "?" && Nat.eqb (count_byte "?" (snd sr)) 1
      then (drop_last (snd sr), true, "")
      else let (r, q) := split (snd sr) "?" true in (r, false, q) in
    if negb (has_prefix rest "/") then
      if negb (is_empty scheme) then
        Ok {| Scheme := scheme; Opaque := rest; User := None; Host := ""; Path := "";
              RawPath := ""; ForceQuery := force; RawQuery := query; Fragment := "" |}
      else Err InvalidURIForRequest
    else
      uhr <-
        (if negb (is_empty scheme) && has_prefix rest "//" then
           let (authority, rest') := split (from 2 rest) "/" false in
           uh <- parseAuthority authority ;;
           Ok (fst uh, snd uh, rest')
         else Ok (None, "", rest)) ;;
      let '(user, host, rest) := uhr in
      path <- unescape rest encodePath ;;
      Ok {| Scheme := scheme; Opaque := ""; User := user; Host := host; Path := path;
            RawPath := if String.eqb rest (escape path encodePath) then "" else rest;
            ForceQuery := force; RawQuery := query; Fragment := "" |}.

(** The method [String] of a user-info. *)
Definition Userinfo_String (u : Userinfo) : string :=
  escape (username u) encodeUserPassword
  ++ (if passwordSet u then ":" ++ escape (password u) encodeUserPassword else "").

(** The method [EscapedPath]. *)
Definition EscapedPath (u : URL) : string :=
  if negb (is_empty (RawPath u)) && validEncoded (RawPath u) encodePath
     && match unescape (RawPath u) encodePath with
        | Ok p => String.eqb p (Path u)
        | Err _ => false
        end
  then RawPath u
  else if String.eqb (Path u) "*" then "*"
  else escape (Path u) encodePath.

(** The method [String]: the URL reassembled as text. *)
Definition URL_String (u : URL) : string :=
  let buf := if is_empty (Scheme u) then "" else Scheme u ++ ":" in
  let buf :=
    if negb (is_empty (Opaque u)) then buf ++ Opaque u
    else
      let hasUser := match User u with Some _ => true | None => false end in
      let buf :=
        if negb (is_empty (Scheme u)) || negb (is_empty (Host u)) || hasUser then
          let buf :=
            if negb (is_empty (Host u)) || negb (is_empty (Path u)) || hasUser
            then buf ++ "//" else buf in
          let buf :=
            match User u with
            | Some ui => buf ++ Userinfo_String ui ++ "@"
            | None => buf
            end in
          if negb (is_empty (Host u)) then buf ++ escape (Host u) encodeHost else buf
        else buf in
      let path := EscapedPath u in
      let buf :=
        if negb (is_empty path) && negb (has_prefix path "/") && negb (is_empty (Host u))
        then buf ++ "/" else buf in
      let buf :=
        if is_empty buf then
          match cut ":" path with
          | Some (segment, _) =>
              if any_byte (Ascii.eqb "/") segment then buf else buf ++ "./"
          | None => buf
          end
        else buf in
      buf ++ path in
  let buf :=
    if ForceQuery u || negb (is_empty (RawQuery u)) then buf ++ "?" ++ RawQuery u else buf in
  if negb (is_empty (Fragment u)) then buf ++ "#" ++ escape (Fragment u) encodeFragment
  else buf.

End NetURL.

(** ** Values held by the configuration source

    A Go [interface{}] as the source hands it out or is handed it: the JSON
    shapes of a loaded document (numbers are the integral ones), and the Go
    values that a type switch of config.go tests for or that a caller hands to
    [Set]. *)

Inductive Value : Type :=
| VNil
| VBool (b : bool)
| VNumber (n : Z)
| VString (s : string)
| VStrings (l : list string)
| VURLPtr (u : NetURL.URL)
| VURL (u : NetURL.URL)
| VSlice (l : list Value)
| VMap (m : list (string * Value)).

(** ** The structs of config.go *)

(** [time.Duration]: nanoseconds. [bytesize.ByteSize]: bytes. *)
Definition Duration : Type := Z.
Definition ByteSize : Type := Z.

Definition Millisecond : Duration := 1000000.
Definition MB : ByteSize := 2 ^ 20.
Definition GB : ByteSize := 2 ^ 30.

Record Argon2 : Type := {
  Memory : ByteSize;
  Iterations : Z;
  Parallelism : Z;
  SaltLength : Z;
  KeyLength : Z;
  ExpectedDuration : Duration;
  ExpectedDeviation : Duration;
  DedicatedMemory : ByteSize
}.

(** [Config] fields are [json.RawMessage]: the bytes of a JSON text. *)
Record SelfServiceHook : Type := {
  hook_Name : string;
  hook_Config : string
}.

Record SelfServiceStrategy : Type := {
  strategy_Enabled : bool;
  strategy_Config : string
}.

Record Schema : Type := {
  schema_ID : string;
  schema_URL : string
}.

Definition Schemas : Type := list Schema.

(** [http.SameSite]. *)
Inductive SameSite : Type :=
| SameSiteDefaultMode
| SameSiteLaxMode
| SameSiteStrictMode
| SameSiteNoneMode.

(** ** The configuration source: configx.Provider

    The methods of the provider that config.go calls. The provider is a
    mutable object; a state [p : P] is its content at one moment, and [p_Set]
    returns the content after the write, or the error. *)

Class Provider (P : Type) : Type := {
  p_Exists : P -> string -> bool;
  p_Get : P -> string -> Value;
  p_String : P -> string -> string;
  p_StringF : P -> string -> string -> string;
  p_Strings : P -> string -> list string;
  p_IntF : P -> string -> Z -> Z;
  p_Bool : P -> string -> bool;
  p_DurationF : P -> string -> Duration -> Duration;
  p_ByteSizeF : P -> string -> ByteSize -> ByteSize;
  p_Set : P -> string -> Value -> result string P;
  p_Marshal : P -> result string string
}.

(** What the accessors rely on from the provider.
    - A key that does not exist reads as the zero value: [Get] answers nil for
      a path outside the key map, and the typed getters turn nil into the
      empty string and into false.
    - The getters with a fallback return the fallback when [Exists] is false
      ([StringF] reads the key otherwise).
    - A list of strings that [Set] has stored is the list [Strings] reads
      back. *)
Class ProviderLaws (P : Type) {prov : Provider P} : Prop := {
  Get_absent : forall p key, p_Exists p key = false -> p_Get p key = VNil;
  String_absent : forall p key, p_Exists p key = false -> p_String p key = "";
  Bool_absent : forall p key, p_Exists p key = false -> p_Bool p key = false;
  StringF_fallback : forall p key fb,
    p_StringF p key fb = if p_Exists p key then p_String p key else fb;
  IntF_absent : forall p key fb, p_Exists p key = false -> p_IntF p key fb = fb;
  DurationF_absent : forall p key fb,
    p_Exists p key = false -> p_DurationF p key fb = fb;
  ByteSizeF_absent : forall p key fb,
    p_Exists p key = false -> p_ByteSizeF p key fb = fb;
  Strings_Set : forall p key l p',
    p_Set p key (VStrings l) = Ok p' -> p_Strings p' key = l
}.

(** ** JSON helpers: gjson and the decoders of encoding/json *)

Class Codec : Type := {
  (** [gjson.GetBytes(out, path).Raw]: the text of the value at [path], empty
      when there is none. *)
  gjson_Raw : string -> string -> string;
  (** [json.NewDecoder(...).Decode(&ss)] for [ss] of type [Schemas]. *)
  json_Decode_Schemas : string -> result string Schemas;
  (** [jsonx.NewStrictDecoder(...).Decode(&hooks)]. *)
  jsonx_Decode_Hooks : string -> result string (list SelfServiceHook)
}.

(** ** The process environment *)

Record Env : Type := {
  (** [os.Hostname()]. *)
  os_Hostname : result string string;
  (** [runtime.NumCPU()]. *)
  runtime_NumCPU : Z
}.

(** ** config.go *)

Module Config.
Import GoString GoInt.

Definition DefaultIdentityTraitsSchemaID : string := "default".
Definition DefaultSQLiteMemoryDSN : string := "sqlite://:memory:?_fk=true".
Definition ViperKeyDSN : string := "dsn".
Definition ViperKeySecretsDefault : string := "secrets.default".
Definition ViperKeySecretsCookie : string := "secrets.cookie".
Definition ViperKeyPublicBaseURL : string := "serve.public.base_url".
Definition ViperKeyPublicPort : string := "serve.public.port".
Definition ViperKeyPublicHost : string := "serve.public.host".
Definition ViperKeyAdminBaseURL : string := "serve.admin.base_url".
Definition ViperKeyAdminPort : string := "serve.admin.port".
Definition ViperKeyAdminHost : string := "serve.admin.host".
Definition ViperKeySessionSameSite : string := "session.cookie.same_site".
Definition ViperKeySelfServiceStrategyConfig : string := "selfservice.methods".
Definition ViperKeySelfServiceRegistrationAfter : string := "selfservice.flows.registration.after".
Definition ViperKeySelfServiceRegistrationBeforeHooks : string :=
  "selfservice.flows.registration.before.hooks".
Definition ViperKeySelfServiceLoginAfter : string := "selfservice.flows.login.after".
Definition ViperKeySelfServiceLoginBeforeHooks : string := "selfservice.flows.login.before.hooks".
Definition ViperKeySelfServiceSettingsAfter : string := "selfservice.flows.settings.after".
Definition ViperKeyDefaultIdentitySchemaURL : string := "identity.default_schema_url".
Definition ViperKeyIdentitySchemas : string := "identity.schemas".
Definition ViperKeyHasherArgon2ConfigMemory : string := "hashers.argon2.memory".
Definition ViperKeyHasherArgon2ConfigIterations : string := "hashers.argon2.iterations".
Definition ViperKeyHasherArgon2ConfigParallelism : string := "hashers.argon2.parallelism".
Definition ViperKeyHasherArgon2ConfigSaltLength : string := "hashers.argon2.salt_length".
Definition ViperKeyHasherArgon2ConfigKeyLength : string := "hashers.argon2.key_length".
Definition ViperKeyHasherArgon2ConfigExpectedDuration : string :=
  "hashers.argon2.expected_duration".
Definition ViperKeyHasherArgon2ConfigExpectedDeviation : string :=
  "hashers.argon2.expected_deviation".
Definition ViperKeyHasherArgon2ConfigDedicatedMemory : string :=
  "hashers.argon2.dedicated_memory".
Definition Argon2DefaultMemory : ByteSize := 128 * MB.
Definition Argon2DefaultIterations : Z := 1.
Definition Argon2DefaultSaltLength : Z := 16.
Definition Argon2DefaultKeyLength : Z := 32.
Definition Argon2DefaultDuration : Duration := 500 * Millisecond.
Definition Argon2DefaultDeviation : Duration := 500 * Millisecond.
Definition Argon2DefaultDedicatedMemory : ByteSize := 1 * GB.

(** [var Argon2DefaultParallelism = uint8(runtime.NumCPU() * 2)]: a package
    variable, set when the process starts. The product is an [int]; the
    conversion keeps its low eight bits. *)
Definition Argon2DefaultParallelism (env : Env) : Z :=
  to_uint8 (to_int (runtime_NumCPU env * 2)).

(** [fmt.Sprintf("%s.%s.hooks", key, strategy)]. *)
Definition HookStrategyKey (key strategy : string) : string :=
  key ++ "." ++ strategy ++ ".hooks".

(** What a call that writes to the source leaves behind: its value, the
    source after the call, and the calls of [Set] it made, in order. *)
Record Written (P A : Type) : Type := {
  value : A;
  source : P;
  sets : list (string * Value)
}.
Arguments value {P A} _.
Arguments source {P A} _.
Arguments sets {P A} _.

Section Accessors.

Context {P : Type} {prov : Provider P} {codec : Codec}.
Variable env : Env.

(** [MustSet]: the write, fatal when the source refuses it. *)
Definition MustSet (p : P) (key : string) (v : Value) : Outcome (Written P unit) :=
  match p_Set p key v with
  | Err _ => Fatal "Unable to set"
  | Ok p' => Returns {| value := tt; source := p'; sets := [(key, v)] |}
  end.

Definition HasherArgon2 (p : P) : Argon2 :=
  {| Memory := p_ByteSizeF p ViperKeyHasherArgon2ConfigMemory Argon2DefaultMemory;
     Iterations :=
       to_uint32 (p_IntF p ViperKeyHasherArgon2ConfigIterations Argon2DefaultIterations);
     Parallelism :=
       to_uint8 (p_IntF p ViperKeyHasherArgon2ConfigParallelism (Argon2DefaultParallelism env));
     SaltLength :=
       to_uint32 (p_IntF p ViperKeyHasherArgon2ConfigSaltLength Argon2DefaultSaltLength);
     KeyLength :=
       to_uint32 (p_IntF p ViperKeyHasherArgon2ConfigKeyLength Argon2DefaultKeyLength);
     ExpectedDuration :=
       p_DurationF p ViperKeyHasherArgon2ConfigExpectedDuration Argon2DefaultDuration;
     ExpectedDeviation :=
       p_DurationF p ViperKeyHasherArgon2ConfigExpectedDeviation Argon2DefaultDeviation;
     DedicatedMemory :=
       p_ByteSizeF p ViperKeyHasherArgon2ConfigDedicatedMemory Argon2DefaultDedicatedMemory |}.

Definition listenOn (p : P) (key : string) : Outcome string :=
  let fb := if String.eqb key "admin" then 4434 else 4433 in
  let port := p_IntF p ("serve." ++ key ++ ".port") fb in
  if port <? 1 then Fatal "serve.%s.port can not be zero or negative"
  else Returns (host_port (p_String p ("serve." ++ key ++ ".host")) port).

Definition AdminListenOn (p : P) : Outcome string := listenOn p "admin".

Definition PublicListenOn (p : P) : Outcome string := listenOn p "public".

Definition parseURIOrFail (p : P) (key : string) : Outcome NetURL.URL :=
  match NetURL.ParseRequestURI (p_String p key) with
  | Err _ => Fatal "Configuration value from key %s is not a valid URL: %s"
  | Ok u => Returns u
  end.

Definition DefaultIdentityTraitsSchemaURL (p : P) : Outcome NetURL.URL :=
  parseURIOrFail p ViperKeyDefaultIdentitySchemaURL.

Definition IdentityTraitsSchemas (p : P) : Outcome Schemas :=
  match DefaultIdentityTraitsSchemaURL p with
  | Fatal m => Fatal m
  | Returns u =>
      let ds := {| schema_ID := DefaultIdentityTraitsSchemaID;
                   schema_URL := NetURL.URL_String u |} in
      if negb (p_Exists p ViperKeyIdentitySchemas) then Returns [ds]
      else
        match p_Marshal p with
        | Err _ => Fatal "Unable to dencode values from %s."
        | Ok out =>
            let config := gjson_Raw out ViperKeyIdentitySchemas in
            if Nat.eqb (String.length config) 0 then Returns [ds]
            else
              match json_Decode_Schemas config with
              | Err _ => Fatal "Unable to encode values from %s."
              | Ok ss => Returns (ss ++ [ds])%list
              end
        end
  end.

Definition DSN (p : P) : Outcome string :=
  let dsn := p_String p ViperKeyDSN in
  if String.eqb dsn "memory" then Returns DefaultSQLiteMemoryDSN
  else if Nat.ltb 0 (String.length dsn) then Returns dsn
  else Fatal "dsn must be set".

Definition selfServiceHooks (p : P) (key : string) : Outcome (list SelfServiceHook) :=
  if negb (p_Exists p key) then Returns []
  else
    match p_Marshal p with
    | Err _ => Fatal "Unable to decode values from configuration key: %s"
    | Ok out =>
        let config := gjson_Raw out key in
        if Nat.eqb (String.length config) 0 then Returns []
        else
          match jsonx_Decode_Hooks config with
          | Err _ => Fatal "Unable to encode value from configuration key: %s"
          | Ok hooks =>
              Returns
                (map (fun h =>
                        if Nat.eqb (String.length (hook_Config h)) 0
                        then {| hook_Name := hook_Name h; hook_Config := "{}" |}
                        else h)
                     hooks)
          end
    end.

Definition SelfServiceFlowLoginBeforeHooks (p : P) : Outcome (list SelfServiceHook) :=
  selfServiceHooks p ViperKeySelfServiceLoginBeforeHooks.

Definition SelfServiceFlowRegistrationBeforeHooks (p : P) : Outcome (list SelfServiceHook) :=
  selfServiceHooks p ViperKeySelfServiceRegistrationBeforeHooks.

Definition SelfServiceFlowLoginAfterHooks (p : P) (strategy : string)
  : Outcome (list SelfServiceHook) :=
  selfServiceHooks p (HookStrategyKey ViperKeySelfServiceLoginAfter strategy).

Definition SelfServiceFlowSettingsAfterHooks (p : P) (strategy : string)
  : Outcome (list SelfServiceHook) :=
  selfServiceHooks p (HookStrategyKey ViperKeySelfServiceSettingsAfter strategy).

Definition SelfServiceFlowRegistrationAfterHooks (p : P) (strategy : string)
  : Outcome (list SelfServiceHook) :=
  selfServiceHooks p (HookStrategyKey ViperKeySelfServiceRegistrationAfter strategy).

Definition SelfServiceStrategy (p : P) (strategy : string) : SelfServiceStrategy :=
  let config :=
    match p_Marshal p with
    | Err _ => "{}"
    | Ok out =>
        let c :=
          gjson_Raw out (ViperKeySelfServiceStrategyConfig ++ "." ++ strategy ++ ".config") in
        if Nat.ltb 0 (String.length c) then c else "{}"
    end in
  let enabledKey := ViperKeySelfServiceStrategyConfig ++ "." ++ strategy ++ ".enabled" in
  let s := {| strategy_Enabled := p_Bool p enabledKey; strategy_Config := config |} in
  let s :=
    if negb (p_Exists p enabledKey) then
      if String.eqb strategy "password" || String.eqb strategy "profile"
         || String.eqb strategy "link"
      then {| strategy_Enabled := true; strategy_Config := strategy_Config s |}
      else s
    else s in
  if Nat.eqb (String.length (strategy_Config s)) 0
  then {| strategy_Enabled := strategy_Enabled s; strategy_Config := "{}" |}
  else s.

(** [fresh] is the text of the identifier that [uuid.New()] draws when the
    call needs one. *)
Definition SecretsDefault (fresh : string) (p : P)
  : Outcome (Written P (list (list Byte.byte))) :=
  let secrets := p_Strings p ViperKeySecretsDefault in
  if Nat.eqb (List.length secrets) 0 then
    let secrets := [fresh] in
    match MustSet p ViperKeySecretsDefault (VStrings secrets) with
    | Fatal m => Fatal m
    | Returns w =>
        Returns {| value := map list_byte_of_string secrets;
                   source := source w;
                   sets := sets w |}
    end
  else
    Returns {| value := map list_byte_of_string secrets; source := p; sets := [] |}.

Definition SecretsSession (fresh : string) (p : P)
  : Outcome (Written P (list (list Byte.byte))) :=
  let secrets := p_Strings p ViperKeySecretsCookie in
  if Nat.eqb (List.length secrets) 0 then SecretsDefault fresh p
  else
    Returns {| value := map list_byte_of_string secrets; source := p; sets := [] |}.

Definition IsInsecureDevMode (p : P) : bool := p_Bool p "dev".

Definition guessBaseURL (p : P) (keyHost keyPort : string) (defaultPort : Z) : NetURL.URL :=
  let port := p_IntF p keyPort defaultPort in
  let host := p_String p keyHost in
  let host :=
    if String.eqb host "0.0.0.0" || Nat.eqb (String.length host) 0 then
      match os_Hostname env with
      | Err _ => "127.0.0.1"
      | Ok h => h
      end
    else host in
  {| NetURL.Scheme := if IsInsecureDevMode p then "http" else "https";
     NetURL.Opaque := "";
     NetURL.User := None;
     NetURL.Host := host_port host port;
     NetURL.Path := "/";
     NetURL.RawPath := "";
     NetURL.ForceQuery := false;
     NetURL.RawQuery := "";
     NetURL.Fragment := "" |}.

Definition baseURL (p : P) (keyURL keyHost keyPort : string) (defaultPort : Z) : NetURL.URL :=
  match p_Get p keyURL with
  | VURLPtr t => t
  | VURL t => t
  | VString t =>
      match NetURL.ParseRequestURI t with
      | Err _ => guessBaseURL p keyHost keyPort defaultPort
      | Ok parsed => parsed
      end
  | _ => guessBaseURL p keyHost keyPort defaultPort
  end.

Definition SelfPublicURL (p : P) : NetURL.URL :=
  baseURL p ViperKeyPublicBaseURL ViperKeyPublicHost ViperKeyPublicPort 4433.

Definition SelfAdminURL (p : P) : NetURL.URL :=
  baseURL p ViperKeyAdminBaseURL ViperKeyAdminHost ViperKeyAdminPort 4434.

Definition SessionSameSiteMode (p : P) : SameSite :=
  let v := p_StringF p ViperKeySessionSameSite "Lax" in
  if String.eqb v "Lax" then SameSiteLaxMode
  else if String.eqb v "Strict" then SameSiteStrictMode
  else if String.eqb v "None" then SameSiteNoneMode
  else SameSiteDefaultMode.

End Accessors.

End Config.

(** ** config.go: the remaining accessors

    The accessors below read the source through three more methods of
    [configx.Provider]. *)

Class ProviderMore (P : Type) : Type := {
  p_Int : P -> string -> Z;
  p_BoolF : P -> string -> bool -> bool;
  p_RequestURIF : P -> string -> NetURL.URL -> NetURL.URL
}.

(** What the accessors rely on from these methods: [Int] answers a Go [int];
    [BoolF] returns the fallback for a key that does not exist; [RequestURIF]
    returns a stored URL as it is, a stored string parsed as a request URI,
    and the fallback in every other case. *)
Class ProviderMoreLaws (P : Type) {prov : Provider P} {more : ProviderMore P} : Prop := {
  Int_is_int : forall p key, - 2 ^ 63 <= p_Int p key < 2 ^ 63;
  BoolF_absent : forall p key fb, p_Exists p key = false -> p_BoolF p key fb = fb;
  RequestURIF_switch : forall p key fb,
    p_RequestURIF p key fb
    = match p_Get p key with
      | VURLPtr t => t
      | VURL t => t
      | VString t =>
          match NetURL.ParseRequestURI t with
          | Ok parsed => parsed
          | Err _ => fb
          end
      | _ => fb
      end
}.

Module ConfigAccessors.
Import GoString GoInt.

Definition DefaultBrowserReturnURL : string := "default_browser_return_url".
Definition UnknownVersion : string := "unknown version".
Definition ViperKeyCourierSMTPURL : string := "courier.smtp.connection_uri".
Definition ViperKeyCourierTemplatesPath : string := "courier.template_override_path".
Definition ViperKeyCourierSMTPFrom : string := "courier.smtp.from_address".
Definition ViperKeySessionLifespan : string := "session.lifespan".
Definition ViperKeySessionDomain : string := "session.cookie.domain".
Definition ViperKeySessionPath : string := "session.cookie.path".
Definition ViperKeySessionPersistentCookie : string := "session.cookie.persistent".
Definition ViperKeySelfServiceBrowserDefaultReturnTo : string :=
  "selfservice." ++ DefaultBrowserReturnURL.
Definition ViperKeyURLsWhitelistedReturnToDomains : string :=
  "selfservice.whitelisted_return_urls".
Definition ViperKeySelfServiceRegistrationUI : string := "selfservice.flows.registration.ui_url".
Definition ViperKeySelfServiceRegistrationRequestLifespan : string :=
  "selfservice.flows.registration.lifespan".
Definition ViperKeySelfServiceLoginUI : string := "selfservice.flows.login.ui_url".
Definition ViperKeySelfServiceLoginRequestLifespan : string := "selfservice.flows.login.lifespan".
Definition ViperKeySelfServiceErrorUI : string := "selfservice.flows.error.ui_url".
Definition ViperKeySelfServiceLogoutBrowserDefaultReturnTo : string :=
  "selfservice.flows.logout.after." ++ DefaultBrowserReturnURL.
Definition ViperKeySelfServiceSettingsURL : string := "selfservice.flows.settings.ui_url".
Definition ViperKeySelfServiceSettingsRequestLifespan : string :=
  "selfservice.flows.settings.lifespan".
Definition ViperKeySelfServiceSettingsPrivilegedAuthenticationAfter : string :=
  "selfservice.flows.settings.privileged_session_max_age".
Definition ViperKeySelfServiceRecoveryEnabled : string := "selfservice.flows.recovery.enabled".
Definition ViperKeySelfServiceRecoveryUI : string := "selfservice.flows.recovery.ui_url".
Definition ViperKeySelfServiceRecoveryRequestLifespan : string :=
  "selfservice.flows.recovery.lifespan".
Definition ViperKeySelfServiceRecoveryBrowserDefaultReturnTo : string :=
  "selfservice.flows.recovery.after." ++ DefaultBrowserReturnURL.
Definition ViperKeySelfServiceVerificationEnabled : string :=
  "selfservice.flows.verification.enabled".
Definition ViperKeySelfServiceVerificationUI : string := "selfservice.flows.verification.ui_url".
Definition ViperKeySelfServiceVerificationRequestLifespan : string :=
  "selfservice.flows.verification.lifespan".
Definition ViperKeySelfServiceVerificationBrowserDefaultReturnTo : string :=
  "selfservice.flows.verification.after." ++ DefaultBrowserReturnURL.
Definition ViperKeyPasswordMaxBreaches : string :=
  "selfservice.methods.password.config.max_breaches".
Definition ViperKeyIgnoreNetworkErrors : string :=
  "selfservice.methods.password.config.ignore_network_errors".
Definition ViperKeyVersion : string := "version".

(** [time.Hour], in nanoseconds. *)
Definition Hour : Duration := 3600 * 1000 * Millisecond.

(** Conversion to [uint], 64 bits wide: the low bits are kept. *)
Definition to_uint (n : Z) : Z := n mod 2 ^ 64.

Record PasswordPolicy : Type := {
  MaxBreaches : Z;
  IgnoreNetworkErrors : bool
}.

(** [FindSchemaByID]: the first schema of the list with the given ID. *)
Fixpoint FindSchemaByID (s : Schemas) (id : string) : result string Schema :=
  match s with
  | [] => Err "could not find schema with id"
  | sc :: r => if String.eqb (schema_ID sc) id then Ok sc else FindSchemaByID r id
  end.

Section Accessors.

Context {P : Type} {prov : Provider P} {more : ProviderMore P}.

Definition SessionDomain (p : P) : string := p_String p ViperKeySessionDomain.

Definition SessionPath (p : P) : string := p_String p ViperKeySessionPath.

(** [getenv] is [os.Getenv]. *)
Definition DisableAPIFlowEnforcement (getenv : string -> string) (p : P) : bool :=
  Config.IsInsecureDevMode p
  && String.eqb (getenv "DEV_DISABLE_API_FLOW_ENFORCEMENT") "true".

Definition SelfServiceFlowVerificationEnabled (p : P) : bool :=
  p_Bool p ViperKeySelfServiceVerificationEnabled.

Definition SelfServiceFlowRecoveryEnabled (p : P) : bool :=
  p_Bool p ViperKeySelfServiceRecoveryEnabled.

Definition SelfServiceBrowserDefaultReturnTo (p : P) : Outcome NetURL.URL :=
  Config.parseURIOrFail p ViperKeySelfServiceBrowserDefaultReturnTo.

Definition CourierSMTPURL (p : P) : Outcome NetURL.URL :=
  Config.parseURIOrFail p ViperKeyCourierSMTPURL.

Definition SelfServiceFlowLoginUI (p : P) : Outcome NetURL.URL :=
  Config.parseURIOrFail p ViperKeySelfServiceLoginUI.

Definition SelfServiceFlowSettingsUI (p : P) : Outcome NetURL.URL :=
  Config.parseURIOrFail p ViperKeySelfServiceSettingsURL.

Definition SelfServiceFlowErrorURL (p : P) : Outcome NetURL.URL :=
  Config.parseURIOrFail p ViperKeySelfServiceErrorUI.

Definition SelfServiceFlowRegistrationUI (p : P) : Outcome NetURL.URL :=
  Config.parseURIOrFail p ViperKeySelfServiceRegistrationUI.

Definition SelfServiceFlowRecoveryUI (p : P) : Outcome NetURL.URL :=
  Config.parseURIOrFail p ViperKeySelfServiceRecoveryUI.

Definition SelfServiceFlowVerificationUI (p : P) : Outcome NetURL.URL :=
  Config.parseURIOrFail p ViperKeySelfServiceVerificationUI.

Definition SessionLifespan (p : P) : Duration :=
  p_DurationF p ViperKeySessionLifespan (Hour * 24).

Definition SessionPersistentCookie (p : P) : bool :=
  p_Bool p ViperKeySessionPersistentCookie.

(** The loop of SelfServiceBrowserWhitelistedReturnToDomains over the entries
    still to visit, [us] being the URLs appended so far. *)
Fixpoint whitelisted_loop (src : list string) (us : list NetURL.URL) : list NetURL.URL :=
  match src with
  | [] => us
  | u :: r =>
      if Nat.eqb (String.length u) 0 then whitelisted_loop r us
      else
        match NetURL.ParseRequestURI u with
        | Err _ => whitelisted_loop r us
        | Ok parsed => whitelisted_loop r (us ++ [parsed])%list
        end
  end.

Definition SelfServiceBrowserWhitelistedReturnToDomains (p : P) : list NetURL.URL :=
  whitelisted_loop (p_Strings p ViperKeyURLsWhitelistedReturnToDomains) [].

Definition SelfServiceFlowLoginRequestLifespan (p : P) : Duration :=
  p_DurationF p ViperKeySelfServiceLoginRequestLifespan Hour.

Definition SelfServiceFlowSettingsFlowLifespan (p : P) : Duration :=
  p_DurationF p ViperKeySelfServiceSettingsRequestLifespan Hour.

Definition SelfServiceFlowRegistrationRequestLifespan (p : P) : Duration :=
  p_DurationF p ViperKeySelfServiceRegistrationRequestLifespan Hour.

(** The argument of [RequestURIF] is evaluated before the call: a fatal
    default ends the process whatever the key holds. *)
Definition SelfServiceFlowLogoutRedirectURL (p : P) : Outcome NetURL.URL :=
  match SelfServiceBrowserDefaultReturnTo p with
  | Fatal m => Fatal m
  | Returns d =>
      Returns (p_RequestURIF p ViperKeySelfServiceLogoutBrowserDefaultReturnTo d)
  end.

Definition CourierSMTPFrom (p : P) : string :=
  p_StringF p ViperKeyCourierSMTPFrom "noreply@kratos.ory.sh".

Definition CourierTemplatesRoot (p : P) : string :=
  p_StringF p ViperKeyCourierTemplatesPath "/courier/template/templates".

Definition SelfServiceFlowVerificationRequestLifespan (p : P) : Duration :=
  p_DurationF p ViperKeySelfServiceVerificationRequestLifespan Hour.

Definition SelfServiceFlowVerificationReturnTo (p : P) (defaultReturnTo : NetURL.URL)
  : NetURL.URL :=
  p_RequestURIF p ViperKeySelfServiceVerificationBrowserDefaultReturnTo defaultReturnTo.

Definition SelfServiceFlowRecoveryReturnTo (p : P) : Outcome NetURL.URL :=
  match SelfServiceBrowserDefaultReturnTo p with
  | Fatal m => Fatal m
  | Returns d =>
      Returns (p_RequestURIF p ViperKeySelfServiceRecoveryBrowserDefaultReturnTo d)
  end.

Definition SelfServiceFlowRecoveryRequestLifespan (p : P) : Duration :=
  p_DurationF p ViperKeySelfServiceRecoveryRequestLifespan Hour.

Definition SelfServiceFlowSettingsPrivilegedSessionMaxAge (p : P) : Duration :=
  p_DurationF p ViperKeySelfServiceSettingsPrivilegedAuthenticationAfter Hour.

Definition selfServiceReturnTo (p : P) (key strategy : string) : Outcome NetURL.URL :=
  match SelfServiceBrowserDefaultReturnTo p with
  | Fatal m => Fatal m
  | Returns d =>
      Returns
        (p_RequestURIF p (key ++ "." ++ strategy ++ "." ++ DefaultBrowserReturnURL)
           (p_RequestURIF p (key ++ "." ++ DefaultBrowserReturnURL) d))
  end.

Definition SelfServiceFlowLoginReturnTo (p : P) (strategy : string) : Outcome NetURL.URL :=
  selfServiceReturnTo p Config.ViperKeySelfServiceLoginAfter strategy.

Definition SelfServiceFlowRegistrationReturnTo (p : P) (strategy : string)
  : Outcome NetURL.URL :=
  selfServiceReturnTo p Config.ViperKeySelfServiceRegistrationAfter strategy.

Definition SelfServiceFlowSettingsReturnTo (p : P) (strategy : string)
  (defaultReturnTo : NetURL.URL) : NetURL.URL :=
  p_RequestURIF p
    (Config.ViperKeySelfServiceSettingsAfter ++ "." ++ strategy ++ "."
     ++ DefaultBrowserReturnURL)
    (p_RequestURIF p (Config.ViperKeySelfServiceSettingsAfter ++ "." ++ DefaultBrowserReturnURL)
       defaultReturnTo).

Definition ConfigVersion (p : P) : string := p_StringF p ViperKeyVersion UnknownVersion.

Definition PasswordPolicyConfig (p : P) : PasswordPolicy :=
  {| MaxBreaches := to_uint (p_Int p ViperKeyPasswordMaxBreaches);
     IgnoreNetworkErrors := p_BoolF p ViperKeyIgnoreNetworkErrors true |}.

End Accessors.

End ConfigAccessors.

(** ** A reference source held in memory

    [MemSource] implements [Provider] over a document tree, and [Codec] over
    the JSON text of such trees, so that the accessors run on concrete
    documents. Its JSON text is the compact form without insignificant
    white space; numbers are integers, and of the escapes in strings only the
    quote and the backslash are written and read.

    It stands in for the source on the documents used as examples, and is
    not a model of configx. It answers as the source does where a value has
    the type its getter expects: a number for an integer, a size or a
    duration, a boolean, a text, a list of texts. It performs none of the
    conversions of the source: a number given as text reads as zero or as the
    fallback here, and a size or a duration given as text ([128MB], [1h])
    reads as the fallback; numbers are exact integers, whereas the source
    holds them as floats of 53 significant bits. The properties below
    hold of every provider that keeps the laws; [MemSource] supplies the
    concrete documents on which they are run, all within these limits. *)

Module MemSource.
Import GoString.

Record t : Type := {
  (** the document; its root is a [VMap] *)
  doc : Value;
  (** a source that refuses every write *)
  frozen : bool
}.

(** *** Dotted keys *)

Fixpoint split_on (sep : ascii) (s : string) : list string :=
  match s with
  | EmptyString => [EmptyString]
  | String c r =>
      if Ascii.eqb c sep then EmptyString :: split_on sep r
      else match split_on sep r with
           | h :: tl => String c h :: tl
           | [] => [String c EmptyString]
           end
  end.

Fixpoint assoc (k : string) (m : list (string * Value)) : option Value :=
  match m with
  | [] => None
  | (k', v) :: r => if String.eqb k' k then Some v else assoc k r
  end.

Fixpoint assoc_set (k : string) (x : Value) (m : list (string * Value))
  : list (string * Value) :=
  match m with
  | [] => [(k, x)]
  | (k', v) :: r => if String.eqb k' k then (k, x) :: r else (k', v) :: assoc_set k x r
  end.

Fixpoint lookup (keys : list string) (v : Value) : option Value :=
  match keys with
  | [] => Some v
  | k :: ks =>
      match v with
      | VMap m =>
          match assoc k m with
          | Some child => lookup ks child
          | None => None
          end
      | _ => None
      end
  end.

Fixpoint insert (keys : list string) (x : Value) (v : Value) : Value :=
  match keys with
  | [] => x
  | k :: ks =>
      let m := match v with VMap m => m | _ => [] end in
      let child := match assoc k m with Some c => c | None => VNil end in
      VMap (assoc_set k (insert ks x child) m)
  end.

Definition find (m : t) (key : string) : option Value :=
  lookup (split_on "." key) (doc m).

(** *** The provider *)

Definition Exists (m : t) (key : string) : bool :=
  match find m key with Some _ => true | None => false end.

Definition Get (m : t) (key : string) : Value :=
  match find m key with Some v => v | None => VNil end.

(** The text of a scalar; other values have no text here. *)
Definition GetString (m : t) (key : string) : string :=
  match Get m key with
  | VString s => s
  | VNumber n => itoa n
  | VBool true => "true"
  | VBool false => "false"
  | _ => ""
  end.

Definition text_of (v : Value) : option string :=
  match v with VString s => Some s | _ => None end.

Fixpoint texts_of (l : list Value) : option (list string) :=
  match l with
  | [] => Some []
  | v :: r =>
      match text_of v, texts_of r with
      | Some s, Some ss => Some (s :: ss)
      | _, _ => None
      end
  end.

(** A stored list of strings, or a list whose elements are all strings. *)
Definition GetStrings (m : t) (key : string) : list string :=
  match Get m key with
  | VStrings l => l
  | VSlice l => match texts_of l with Some ss => ss | None => [] end
  | _ => []
  end.

Definition GetInt (m : t) (key : string) : Z :=
  match Get m key with VNumber n => GoInt.to_int n | _ => 0 end.

Definition GetBool (m : t) (key : string) : bool :=
  match Get m key with VBool b => b | _ => false end.

(** A duration or a size given as a number; anything else falls back. *)
Definition GetNumberF (m : t) (key : string) (fb : Z) : Z :=
  match find m key with Some (VNumber n) => n | _ => fb end.

(** The source keeps what [Set] is given in the JSON shape of the document:
    a URL handed to [Set] is held, and handed back by [Get], as the map of
    its fields, and no longer as a URL. *)
Definition url_fields (u : NetURL.URL) : Value :=
  VMap [("Scheme", VString (NetURL.Scheme u));
        ("Opaque", VString (NetURL.Opaque u));
        ("User", match NetURL.User u with Some _ => VMap [] | None => VNil end);
        ("Host", VString (NetURL.Host u));
        ("Path", VString (NetURL.Path u));
        ("RawPath", VString (NetURL.RawPath u));
        ("ForceQuery", VBool (NetURL.ForceQuery u));
        ("RawQuery", VString (NetURL.RawQuery u));
        ("Fragment", VString (NetURL.Fragment u))].

Definition stored (x : Value) : Value :=
  match x with
  | VURLPtr u => url_fields u
  | VURL u => url_fields u
  | other => other
  end.

Definition SetKey (m : t) (key : string) (x : Value) : result string t :=
  if frozen m then Err "the source refuses the write"
  else Ok {| doc := insert (split_on "." key) (stored x) (doc m); frozen := frozen m |}.

(** *** JSON text *)

Definition quote : ascii := NetURL.quote.

Fixpoint print_text (s : string) : string :=
  match s with
  | EmptyString => EmptyString
  | String c r =>
      if Ascii.eqb c quote || Ascii.eqb c "\"
      then String "\" (String c (print_text r))
      else String c (print_text r)
  end.

Definition print_string (s : string) : string :=
  String quote (print_text s ++ String quote EmptyString).

Definition print_url (u : NetURL.URL) : string :=
  "{" ++ print_string "Scheme" ++ ":" ++ print_string (NetURL.Scheme u)
  ++ "," ++ print_string "Opaque" ++ ":" ++ print_string (NetURL.Opaque u)
  ++ "," ++ print_string "User" ++ ":"
  ++ (match NetURL.User u with Some _ => "{}" | None => "null" end)
  ++ "," ++ print_string "Host" ++ ":" ++ print_string (NetURL.Host u)
  ++ "," ++ print_string "Path" ++ ":" ++ print_string (NetURL.Path u)
  ++ "," ++ print_string "RawPath" ++ ":" ++ print_string (NetURL.RawPath u)
  ++ "," ++ print_string "ForceQuery" ++ ":"
  ++ (if NetURL.ForceQuery u then "true" else "false")
  ++ "," ++ print_string "RawQuery" ++ ":" ++ print_string (NetURL.RawQuery u)
  ++ "," ++ print_string "Fragment" ++ ":" ++ print_string (NetURL.Fragment u)
  ++ "}".

Fixpoint commas (l : list string) : string :=
  match l with
  | [] => EmptyString
  | [s] => s
  | s :: r => s ++ "," ++ commas r
  end.

Fixpoint print (v : Value) : string :=
  match v with
  | VNil => "null"
  | VBool true => "true"
  | VBool false => "false"
  | VNumber n => itoa n
  | VString s => print_string s
  | VStrings l => "[" ++ commas (map print_string l) ++ "]"
  | VURLPtr u => print_url u
  | VURL u => print_url u
  | VSlice l => "[" ++ commas (map print l) ++ "]"
  | VMap m =>
      "{" ++ commas (map (fun kv => print_string (fst kv) ++ ":" ++ print (snd kv)) m) ++ "}"
  end.

Definition Marshal (m : t) : result string string := Ok (print (doc m)).

(** The text of a string, after its opening quote. *)
Fixpoint parse_text (s : string) : option (string * string) :=
  match s with
  | EmptyString => None
  | String c r =>
      if Ascii.eqb c quote then Some (EmptyString, r)
      else if Ascii.eqb c "\" then
        match r with
        | String e r' =>
            if Ascii.eqb e quote || Ascii.eqb e "\" then
              match parse_text r' with
              | Some (txt, rest) => Some (String e txt, rest)
              | None => None
              end
            else None
        | EmptyString => None
        end
      else
        match parse_text r with
        | Some (txt, rest) => Some (String c txt, rest)
        | None => None
        end
  end.

Fixpoint parse_digits (acc : Z) (s : string) : Z * string :=
  match s with
  | String c r =>
      if is_digit c then parse_digits (acc * 10 + (Z.of_N (N_of_ascii c) - 48)) r
      else (acc, s)
  | EmptyString => (acc, s)
  end.

Definition starts_with_digit (s : string) : bool :=
  match s with String c _ => is_digit c | EmptyString => false end.

Definition parse_number (s : string) : option (Value * string) :=
  match s with
  | String "-" r =>
      if starts_with_digit r
      then let (n, rest) := parse_digits 0 r in Some (VNumber (- n), rest)
      else None
  | _ =>
      if starts_with_digit s
      then let (n, rest) := parse_digits 0 s in Some (VNumber n, rest)
      else None
  end.

Definition strip (pre s : string) : option string :=
  if has_prefix s pre then Some (from (String.length pre) s) else None.

(** A JSON value at the head of [s], and the text after it. *)
Fixpoint parse_value (fuel : nat) (s : string) : option (Value * string) :=
  match fuel with
  | O => None
  | S fuel' =>
      match s with
      | String "[" (String "]" rest) => Some (VSlice [], rest)
      | String "[" r =>
          match parse_elements fuel' r with
          | Some (l, rest) => Some (VSlice l, rest)
          | None => None
          end
      | String "{" (String "}" rest) => Some (VMap [], rest)
      | String "{" r =>
          match parse_members fuel' r with
          | Some (m, rest) => Some (VMap m, rest)
          | None => None
          end
      | String c r =>
          if Ascii.eqb c quote then
            match parse_text r with
            | Some (txt, rest) => Some (VString txt, rest)
            | None => None
            end
          else
            match strip "null" s, strip "true" s, strip "false" s with
            | Some rest, _, _ => Some (VNil, rest)
            | _, Some rest, _ => Some (VBool true, rest)
            | _, _, Some rest => Some (VBool false, rest)
            | _, _, _ => parse_number s
            end
      | EmptyString => None
      end
  end
with parse_elements (fuel : nat) (s : string) : option (list Value * string) :=
  match fuel with
  | O => None
  | S fuel' =>
      match parse_value fuel' s with
      | Some (v, String "," rest) =>
          match parse_elements fuel' rest with
          | Some (l, rest') => Some (v :: l, rest')
          | None => None
          end
      | Some (v, String "]" rest) => Some ([v], rest)
      | _ => None
      end
  end
with parse_members (fuel : nat) (s : string) : option (list (string * Value) * string) :=
  match fuel with
  | O => None
  | S fuel' =>
      match s with
      | String c r =>
          if Ascii.eqb c quote then
            match parse_text r with
            | Some (k, String ":" rest) =>
                match parse_value fuel' rest with
                | Some (v, String "," rest') =>
                    match parse_members fuel' rest' with
                    | Some (m, rest'') => Some ((k, v) :: m, rest'')
                    | None => None
                    end
                | Some (v, String "}" rest') => Some ([(k, v)], rest')
                | _ => None
                end
            | _ => None
            end
          else None
      | EmptyString => None
      end
  end.

(** The value a whole text denotes. *)
Definition parse (s : string) : option Value :=
  match parse_value (S (String.length s)) s with
  | Some (v, EmptyString) => Some v
  | _ => None
  end.

(** *** The JSON helpers *)

Definition Raw (out path : string) : string :=
  match parse out with
  | Some v =>
      match lookup (split_on "." path) v with
      | Some x => print x
      | None => ""
      end
  | None => ""
  end.

Fixpoint decode_hook_fields (fields : list (string * Value)) (h : SelfServiceHook)
  : result string SelfServiceHook :=
  match fields with
  | [] => Ok h
  | (k, x) :: r =>
      if String.eqb k "hook" then
        match x with
        | VString s =>
            decode_hook_fields r {| hook_Name := s; hook_Config := hook_Config h |}
        | VNil => decode_hook_fields r h
        | _ => Err "json: cannot unmarshal into Go struct field SelfServiceHook.hook"
        end
      else if String.eqb k "config" then
        decode_hook_fields r {| hook_Name := hook_Name h; hook_Config := print x |}
      else Err "json: unknown field"
  end.

Definition decode_hook (v : Value) : result string SelfServiceHook :=
  match v with
  | VMap fields => decode_hook_fields fields {| hook_Name := ""; hook_Config := "" |}
  | VNil => Ok {| hook_Name := ""; hook_Config := "" |}
  | _ => Err "json: cannot unmarshal into Go value of type config.SelfServiceHook"
  end.

Fixpoint decode_schema_fields (fields : list (string * Value)) (s : Schema)
  : result string Schema :=
  match fields with
  | [] => Ok s
  | (k, x) :: r =>
      if String.eqb k "id" then
        match x with
        | VString i => decode_schema_fields r {| schema_ID := i; schema_URL := schema_URL s |}
        | VNil => decode_schema_fields r s
        | _ => Err "json: cannot unmarshal into Go struct field Schema.id"
        end
      else if String.eqb k "url" then
        match x with
        | VString u => decode_schema_fields r {| schema_ID := schema_ID s; schema_URL := u |}
        | VNil => decode_schema_fields r s
        | _ => Err "json: cannot unmarshal into Go struct field Schema.url"
        end
      else decode_schema_fields r s
  end.

Definition decode_schema (v : Value) : result string Schema :=
  match v with
  | VMap fields => decode_schema_fields fields {| schema_ID := ""; schema_URL := "" |}
  | VNil => Ok {| schema_ID := ""; schema_URL := "" |}
  | _ => Err "json: cannot unmarshal into Go value of type config.Schema"
  end.

Fixpoint decode_all {A : Type} (f : Value -> result string A) (l : list Value)
  : result string (list A) :=
  match l with
  | [] => Ok []
  | v :: r =>
      match f v, decode_all f r with
      | Ok a, Ok r' => Ok (a :: r')
      | Err e, _ => Err e
      | _, Err e => Err e
      end
  end.

Definition decode_list {A : Type} (f : Value -> result string A) (raw : string)
  : result string (list A) :=
  match parse raw with
  | Some VNil => Ok []
  | Some (VSlice l) => decode_all f l
  | Some _ => Err "json: cannot unmarshal into Go value of a slice type"
  | None => Err "invalid character"
  end.

#[global] Instance provider : Provider t := {|
  p_Exists := Exists;
  p_Get := Get;
  p_String := GetString;
  p_StringF := fun m key fb => if Exists m key then GetString m key else fb;
  p_Strings := GetStrings;
  p_IntF := fun m key fb => if Exists m key then GetInt m key else fb;
  p_Bool := GetBool;
  p_DurationF := GetNumberF;
  p_ByteSizeF := GetNumberF;
  p_Set := SetKey;
  p_Marshal := Marshal
|}.

#[global] Instance codec : Codec := {|
  gjson_Raw := Raw;
  json_Decode_Schemas := decode_list decode_schema;
  jsonx_Decode_Hooks := decode_list decode_hook
|}.

(** The source holding the document [d]. *)
Definition of_doc (d : Value) : t := {| doc := d; frozen := false |}.

End MemSource.

(** The remaining methods of the provider, on the in-memory source. *)
Module MemSourceMore.

Definition GetBoolF (m : MemSource.t) (key : string) (fb : bool) : bool :=
  if MemSource.Exists m key then MemSource.GetBool m key else fb.

Definition GetRequestURIF (m : MemSource.t) (key : string) (fb : NetURL.URL) : NetURL.URL :=
  match MemSource.Get m key with
  | VURLPtr t => t
  | VURL t => t
  | VString t =>
      match NetURL.ParseRequestURI t with
      | Ok parsed => parsed
      | Err _ => fb
      end
  | _ => fb
  end.

#[global] Instance more : ProviderMore MemSource.t := {|
  p_Int := MemSource.GetInt;
  p_BoolF := GetBoolF;
  p_RequestURIF := GetRequestURIF
|}.

End MemSourceMore.

(** ** Documents and environments used as examples *)

Module Examples.

Definition host_env : Env :=
  {| os_Hostname := Ok "kratos-host"; runtime_NumCPU := 4 |}.

(** A host with 128 logical processors. *)
Definition big_env : Env :=
  {| os_Hostname := Ok "kratos-host"; runtime_NumCPU := 128 |}.

Definition obj (m : list (string * Value)) : MemSource.t := MemSource.of_doc (VMap m).

(** The empty document. *)
Definition empty : MemSource.t := obj [].

(** The empty document in a source that refuses writes. *)
Definition empty_frozen : MemSource.t :=
  {| MemSource.doc := VMap []; MemSource.frozen := true |}.

(** The document with port 4455 on the public interface, in dev mode. *)
Definition dev_4455 : MemSource.t :=
  obj [("serve", VMap [("public", VMap [("port", VNumber 4455)])]); ("dev", VBool true)].

Definition public_host (h : string) : MemSource.t :=
  obj [("serve", VMap [("public", VMap [("host", VString h)])])].

Definition public_base_url (v : Value) : MemSource.t :=
  obj [("serve", VMap [("public", VMap [("base_url", v)])])].

(** A source in which the public base URL was stored, as a URL, with [Set]. *)
Definition stored_public_base_url (u : NetURL.URL) : MemSource.t :=
  match MemSource.SetKey empty "serve.public.base_url" (VURLPtr u) with
  | Ok p => p
  | Err _ => empty
  end.

Definition login_after_password_hook : MemSource.t :=
  obj [("selfservice",
        VMap [("flows",
          VMap [("login",
            VMap [("after",
              VMap [("password",
                VMap [("hooks",
                  VSlice [VMap [("hook", VString "revoke_active_sessions")]])])])])])])].

Definition schema_url : string := "file://stub/identity.schema.json".

(** An explicit schema that is itself called default. *)
Definition explicit_default_schema : MemSource.t :=
  obj [("identity",
        VMap [("default_schema_url", VString schema_url);
              ("schemas",
               VSlice [VMap [("id", VString "default");
                             ("url", VString "file://stub/other.schema.json")]])])].

Definition two_schemas : MemSource.t :=
  obj [("identity",
        VMap [("default_schema_url", VString schema_url);
              ("schemas",
               VSlice [VMap [("id", VString "customer");
                             ("url", VString "file://stub/customer.schema.json")];
                       VMap [("id", VString "employee");
                             ("url", VString "file://stub/employee.schema.json")]])])].

Definition argon2_iterations_3 : MemSource.t :=
  obj [("hashers", VMap [("argon2", VMap [("iterations", VNumber 3)])])].

Definition same_site (v : string) : MemSource.t :=
  obj [("session", VMap [("cookie", VMap [("same_site", VString v)])])].

Definition dsn (v : string) : MemSource.t := obj [("dsn", VString v)].

End Examples.

(** ** Vocabulary of the statements *)

(** The five accessors that read a list of hooks, and the key each reads. *)
Inductive HooksAccessor : Type :=
| LoginBeforeHooks
| RegistrationBeforeHooks
| LoginAfterHooks (strategy : string)
| SettingsAfterHooks (strategy : string)
| RegistrationAfterHooks (strategy : string).

Definition hooks_key (a : HooksAccessor) : string :=
  match a with
  | LoginBeforeHooks => "selfservice.flows.login.before.hooks"
  | RegistrationBeforeHooks => "selfservice.flows.registration.before.hooks"
  | LoginAfterHooks s => "selfservice.flows.login.after." ++ s ++ ".hooks"
  | SettingsAfterHooks s => "selfservice.flows.settings.after." ++ s ++ ".hooks"
  | RegistrationAfterHooks s => "selfservice.flows.registration.after." ++ s ++ ".hooks"
  end.

Definition hooks_of {P : Type} {prov : Provider P} {codec : Codec}
  (a : HooksAccessor) (p : P) : Outcome (list SelfServiceHook) :=
  match a with
  | LoginBeforeHooks => Config.SelfServiceFlowLoginBeforeHooks p
  | RegistrationBeforeHooks => Config.SelfServiceFlowRegistrationBeforeHooks p
  | LoginAfterHooks s => Config.SelfServiceFlowLoginAfterHooks p s
  | SettingsAfterHooks s => Config.SelfServiceFlowSettingsAfterHooks p s
  | RegistrationAfterHooks s => Config.SelfServiceFlowRegistrationAfterHooks p s
  end.

(** The number of entries of [ss] whose ID is [id]. *)
Definition count_ID (id : string) (ss : Schemas) : nat :=
  List.length (filter (fun s => String.eqb (schema_ID s) id) ss).

(** The schemas a document configures under [identity.schemas], as
    IdentityTraitsSchemas() reads them: none when the key is absent or its raw
    value is empty; [None] when they cannot be read. *)
Definition explicit_schemas {P : Type} {prov : Provider P} {codec : Codec}
  (p : P) : option Schemas :=
  if negb (p_Exists p "identity.schemas") then Some []
  else
    match p_Marshal p with
    | Err _ => None
    | Ok out =>
        if Nat.eqb (String.length (gjson_Raw out "identity.schemas")) 0 then Some []
        else
          match json_Decode_Schemas (gjson_Raw out "identity.schemas") with
          | Ok ss => Some ss
          | Err _ => None
          end
    end.

(** Modelled from the spec: the JSON schema of the configuration,
    [config.schema.json], which New opens and hands to the source, and
    against which the source validates a document, is not under [src/]. The
    spec gives the ID [default] to the process-wide default schema, an entry
    apart from the explicitly configured schemas and appended after them, of
    which a valid document has exactly one. What the validation grants for
    the identity schemas is therefore taken to be: the schemas configured
    under [identity.schemas] can be read, and none of them has the ID
    [default]. *)
Definition valid_identity_schemas {P : Type} {prov : Provider P} {codec : Codec}
  (p : P) : bool :=
  match explicit_schemas p with
  | Some explicit =>
      forallb (fun s => negb (String.eqb (schema_ID s) "default")) explicit
  | None => false
  end.

(** The entry of the default schema, for the default schema URL [u]. *)
Definition default_schema (u : NetURL.URL) : Schema :=
  {| schema_ID := "default"; schema_URL := NetURL.URL_String u |}.

(** The host a guess falls back to. *)
Definition fallback_host (env : Env) : string :=
  match os_Hostname env with
  | Ok h => h
  | Err _ => "127.0.0.1"
  end.

Definition guess_url (dev : bool) (host : string) (port : Z) : NetURL.URL :=
  {| NetURL.Scheme := if dev then "http" else "https";
     NetURL.Opaque := "";
     NetURL.User := None;
     NetURL.Host := GoString.host_port host port;
     NetURL.Path := "/";
     NetURL.RawPath := "";
     NetURL.ForceQuery := false;
     NetURL.RawQuery := "";
     NetURL.Fragment := "" |}.

(** The guess in the words of the claim: the host falls back when the
    configured host is empty. *)
Definition claimed_guess (env : Env) (dev : bool) (host : string) (port : Z) : NetURL.URL :=
  guess_url dev (if String.eqb host "" then fallback_host env else host) port.

(** The guess as amended: the host falls back when the configured host is
    empty or is [0.0.0.0]. *)
Definition amended_guess (env : Env) (dev : bool) (host : string) (port : Z) : NetURL.URL :=
  guess_url dev
    (if String.eqb host "" || String.eqb host "0.0.0.0" then fallback_host env else host)
    port.

(** What the resolution of a base URL promises about its [result], for the
    keys of one interface. The tiers leave no case open: a stored value that
    is neither a URL nor a string (nothing, a boolean, a number, a list, a
    map) gives the guess, as an absent key does. *)
Definition three_tiers {P : Type} {prov : Provider P} (env : Env) (p : P)
  (keyURL keyHost keyPort : string) (defaultPort : Z) (result : NetURL.URL) : Prop :=
  let guess :=
    amended_guess env (p_Bool p "dev") (p_String p keyHost) (p_IntF p keyPort defaultPort) in
  (forall u, p_Get p keyURL = VURLPtr u \/ p_Get p keyURL = VURL u -> result = u)
  /\ (forall s u,
         p_Get p keyURL = VString s -> NetURL.ParseRequestURI s = Ok u -> result = u)
  /\ (forall s e,
         p_Get p keyURL = VString s -> NetURL.ParseRequestURI s = Err e -> result = guess)
  /\ (p_Exists p keyURL = false -> result = guess)
  /\ (p_Exists p keyPort = false -> p_IntF p keyPort defaultPort = defaultPort)
  /\ match p_Get p keyURL with
     | VURLPtr _ | VURL _ | VString _ => True
     | _ => result = guess
     end.

(** The text [%XY] that [escape] writes for the byte [c]. *)
Definition hex_escape (c : ascii) : string :=
  String "%"
    (String (NetURL.upperhex (N.shiftr (N_of_ascii c) 4))
       (String (NetURL.upperhex (N.land (N_of_ascii c) 15)) "")).

(** The bytes of a host that the text of a URL carries through
    [ParseRequestURI]: the bytes written as they are, and, among the bytes
    written as an escape, the percent sign and the bytes from 128 on. *)
Definition host_byte_reparses (c : ascii) : bool :=
  NetURL.unescaped_in_host c || Ascii.eqb c "%" || GoString.byte_le "128" c.

(** The same in the zone of a bracketed host, which starts at its first
    percent sign: among the bytes written as an escape, the percent sign and
    the space. *)
Definition zone_byte_reparses (c : ascii) : bool :=
  NetURL.unescaped_in_host c || Ascii.eqb c "%" || Ascii.eqb c " ".

(** The hosts that the text of a guessed URL carries through
    [ParseRequestURI]. A host that starts with a bracket has to end with the
    closing bracket, and its zone, if it has one, follows the rule of zones. *)
Definition host_reparses (host : string) : bool :=
  if GoString.has_prefix host "[" then
    match GoString.cut_last "]" host with
    | Some (literal, after) =>
        GoString.is_empty after
        && match GoString.cut "%" literal with
           | Some (address, zone) =>
               GoString.all_bytes host_byte_reparses address
               && GoString.all_bytes zone_byte_reparses zone
           | None => GoString.all_bytes host_byte_reparses literal
           end
    | None => false
    end
  else GoString.all_bytes host_byte_reparses host.

(** The accessors that must find a URL under their key. *)
Inductive URLAccessor : Type :=
| DefaultIdentityTraitsSchemaURL
| SelfServiceBrowserDefaultReturnTo
| CourierSMTPURL
| SelfServiceFlowLoginUI
| SelfServiceFlowSettingsUI
| SelfServiceFlowErrorURL
| SelfServiceFlowRegistrationUI
| SelfServiceFlowRecoveryUI
| SelfServiceFlowVerificationUI.

Definition url_key (a : URLAccessor) : string :=
  match a with
  | DefaultIdentityTraitsSchemaURL => "identity.default_schema_url"
  | SelfServiceBrowserDefaultReturnTo => "selfservice.default_browser_return_url"
  | CourierSMTPURL => "courier.smtp.connection_uri"
  | SelfServiceFlowLoginUI => "selfservice.flows.login.ui_url"
  | SelfServiceFlowSettingsUI => "selfservice.flows.settings.ui_url"
  | SelfServiceFlowErrorURL => "selfservice.flows.error.ui_url"
  | SelfServiceFlowRegistrationUI => "selfservice.flows.registration.ui_url"
  | SelfServiceFlowRecoveryUI => "selfservice.flows.recovery.ui_url"
  | SelfServiceFlowVerificationUI => "selfservice.flows.verification.ui_url"
  end.

Definition url_of {P : Type} {prov : Provider P} (a : URLAccessor) (p : P)
  : Outcome NetURL.URL :=
  match a with
  | DefaultIdentityTraitsSchemaURL => Config.DefaultIdentityTraitsSchemaURL p
  | SelfServiceBrowserDefaultReturnTo => ConfigAccessors.SelfServiceBrowserDefaultReturnTo p
  | CourierSMTPURL => ConfigAccessors.CourierSMTPURL p
  | SelfServiceFlowLoginUI => ConfigAccessors.SelfServiceFlowLoginUI p
  | SelfServiceFlowSettingsUI => ConfigAccessors.SelfServiceFlowSettingsUI p
  | SelfServiceFlowErrorURL => ConfigAccessors.SelfServiceFlowErrorURL p
  | SelfServiceFlowRegistrationUI => ConfigAccessors.SelfServiceFlowRegistrationUI p
  | SelfServiceFlowRecoveryUI => ConfigAccessors.SelfServiceFlowRecoveryUI p
  | SelfServiceFlowVerificationUI => ConfigAccessors.SelfServiceFlowVerificationUI p
  end.

(** A request URI is absolute: it has a scheme, or its path starts at the
    root, or it is the asterisk form. *)
Definition absolute (u : NetURL.URL) : Prop :=
  GoString.is_empty (NetURL.Scheme u) = false
  \/ GoString.has_prefix (NetURL.Path u) "/" = true
  \/ NetURL.Path u = "*".

(** What an entry of the return-to whitelist contributes. *)
Definition whitelisted_entry (s : string) : list NetURL.URL :=
  if String.eqb s "" then []
  else match NetURL.ParseRequestURI s with
       | Ok u => [u]
       | Err _ => []
       end.

(** The return-to URL read in two levels: the key of the strategy, then the
    key of the flow, then the default. *)
Definition return_to {P : Type} {more : ProviderMore P}
  (p : P) (flow strategy : string) (d : NetURL.URL) : NetURL.URL :=
  p_RequestURIF p (flow ++ "." ++ strategy ++ ".default_browser_return_url")
    (p_RequestURIF p (flow ++ ".default_browser_return_url") d).

(** What one level of the return-to chain reads under [key]. *)
Inductive Override {P : Type} {prov : Provider P} (p : P) (key : string)
  : option NetURL.URL -> Prop :=
| override_url (u : NetURL.URL) :
    p_Get p key = VURLPtr u \/ p_Get p key = VURL u -> Override p key (Some u)
| override_text (s : string) (u : NetURL.URL) :
    p_Get p key = VString s -> NetURL.ParseRequestURI s = Ok u -> Override p key (Some u)
| override_invalid (s : string) (e : NetURL.Error) :
    p_Get p key = VString s -> NetURL.ParseRequestURI s = Err e -> Override p key None
| override_absent :
    p_Exists p key = false -> Override p key None.

Module MoreExamples.

Definition selfservice (m : list (string * Value)) : MemSource.t :=
  Examples.obj [("selfservice", VMap m)].

Definition return_url : string := "https://www.example.org/dashboard".

(** A default return URL, an override for the login flow, and one for the
    password strategy of the registration flow. *)
Definition return_to_overrides : MemSource.t :=
  selfservice
    [("default_browser_return_url", VString return_url);
     ("flows",
      VMap [("login",
             VMap [("after",
                    VMap [("default_browser_return_url",
                           VString "https://www.example.org/login_done")])]);
            ("registration",
             VMap [("after",
                    VMap [("default_browser_return_url", VString "not a url");
                          ("password",
                           VMap [("default_browser_return_url",
                                  VString "/welcome")])])])])].

(** An override for the login flow, and a default that is not a URL. *)
Definition return_to_bad_default : MemSource.t :=
  selfservice
    [("default_browser_return_url", VString "dashboard");
     ("flows",
      VMap [("login",
             VMap [("after",
                    VMap [("default_browser_return_url",
                           VString "https://www.example.org/login_done")])])])].

Definition whitelist (l : list string) : MemSource.t :=
  selfservice [("whitelisted_return_urls", VStrings l)].

Definition max_breaches (n : Z) : MemSource.t :=
  selfservice
    [("methods", VMap [("password", VMap [("config", VMap [("max_breaches", VNumber n)])])])].

Definition public_host_port (h : string) (port : Z) : MemSource.t :=
  Examples.obj [("serve", VMap [("public", VMap [("host", VString h); ("port", VNumber port)])])].

Definition secrets (default cookie : list string) : MemSource.t :=
  Examples.obj [("secrets", VMap [("default", VStrings default); ("cookie", VStrings cookie)])].

End MoreExamples.

(** * Properties *)

(** ** The in-memory source keeps the provider's laws *)

Module MemSourceLaws.
Import MemSource.

Lemma assoc_assoc_set (k : string) (x : Value) (m : list (string * Value)) :
  assoc k (assoc_set k x m) = Some x.
Proof.
  induction m as [| [k' v] r IH]; simpl.
  - now rewrite String.eqb_refl.
  - destruct (String.eqb k' k) eqn:E; simpl.
    + now rewrite String.eqb_refl.
    + now rewrite E.
Qed.

Lemma lookup_insert (keys : list string) (x v : Value) :
  lookup keys (insert keys x v) = Some x.
Proof.
  revert v. induction keys as [| k ks IH]; intros v; simpl.
  - reflexivity.
  - rewrite assoc_assoc_set. apply IH.
Qed.

Lemma find_absent (m : t) (key : string) :
  Exists m key = false -> find m key = None.
Proof.
  unfold Exists. now destruct (find m key).
Qed.

#[global] Instance laws : ProviderLaws t.
Proof.
  constructor; simpl.
  - intros p key H. unfold Get. now rewrite (find_absent _ _ H).
  - intros p key H. unfold GetString, Get. now rewrite (find_absent _ _ H).
  - intros p key H. unfold GetBool, Get. now rewrite (find_absent _ _ H).
  - reflexivity.
  - intros p key fb H. now rewrite H.
  - intros p key fb H. unfold GetNumberF. now rewrite (find_absent _ _ H).
  - intros p key fb H. unfold GetNumberF. now rewrite (find_absent _ _ H).
  - intros p key l p' H. unfold SetKey in H.
    destruct (frozen p); [discriminate |].
    injection H as <-. unfold GetStrings, Get, find. simpl.
    now rewrite lookup_insert.
Qed.

End MemSourceLaws.

(** ** The database connection string *)

(** C10: DSN() rewrites the configured value [memory] to the literal
    [sqlite://:memory:?_fk=true]; every other non-empty configured value is
    returned verbatim; the empty value (which is also what an absent key
    reads as) is the fatal path. *)
Theorem DSN_memory_rewritten_else_verbatim {P : Type} {prov : Provider P} (p : P) :
  let dsn := p_String p Config.ViperKeyDSN in
  (dsn = "memory" -> Config.DSN p = Returns "sqlite://:memory:?_fk=true")
  /\ (dsn <> "memory" -> dsn <> "" -> Config.DSN p = Returns dsn)
  /\ (dsn = "" -> exists msg, Config.DSN p = Fatal msg).
Proof.
  unfold Config.DSN. cbv zeta.
  destruct (String.eqb_spec (p_String p Config.ViperKeyDSN) "memory") as [E | NE].
  - split; [| split].
    + reflexivity.
    + intros H. now elim H.
    + intros H. rewrite H in E. discriminate E.
  - split; [| split].
    + intros H. now elim NE.
    + intros _ H. destruct (p_String p Config.ViperKeyDSN); [now elim H | reflexivity].
    + intros H. rewrite H. simpl. now eexists.
Qed.

Lemma DSN_memory_rewritten_else_verbatim_witness :
  Config.DSN (Examples.dsn "memory") = Returns "sqlite://:memory:?_fk=true"
  /\ Config.DSN (Examples.dsn "postgres://kratos@db:5432/kratos")
     = Returns "postgres://kratos@db:5432/kratos"
  /\ exists msg, Config.DSN Examples.empty = Fatal msg.
Proof.
  split; [| split].
  - apply (proj1 (DSN_memory_rewritten_else_verbatim (Examples.dsn "memory"))).
    reflexivity.
  - change (Config.DSN (Examples.dsn "postgres://kratos@db:5432/kratos")
            = Returns (p_String (Examples.dsn "postgres://kratos@db:5432/kratos")
                         Config.ViperKeyDSN)).
    apply (proj1 (proj2 (DSN_memory_rewritten_else_verbatim
                           (Examples.dsn "postgres://kratos@db:5432/kratos")))).
    + intros H. discriminate H.
    + intros H. discriminate H.
  - apply (proj2 (proj2 (DSN_memory_rewritten_else_verbatim Examples.empty))).
    reflexivity.
Defined.

(** ** The same-site mode of the session cookie *)

(** The claim read literally fails: with the key absent the accessor reads the
    fallback [Lax], and answers the Lax mode, not the default mode. *)
Lemma SessionSameSiteMode_absent_is_not_default :
  ~ (forall p : MemSource.t,
        p_Exists p Config.ViperKeySessionSameSite = false ->
        Config.SessionSameSiteMode p = SameSiteDefaultMode).
Proof.
  intros H. specialize (H Examples.empty eq_refl). discriminate H.
Qed.

(** C8 (amended): SessionSameSiteMode() maps the configured text [Lax] to the
    Lax mode, [Strict] to Strict, [None] to None, and any other configured
    text to the default mode; when the key is absent the fallback [Lax]
    applies and the result is the Lax mode. *)
Theorem SessionSameSiteMode_mapping {P : Type} {prov : Provider P} {laws : ProviderLaws P}
  (p : P) :
  let v := p_String p Config.ViperKeySessionSameSite in
  (p_Exists p Config.ViperKeySessionSameSite = false ->
   Config.SessionSameSiteMode p = SameSiteLaxMode)
  /\ (p_Exists p Config.ViperKeySessionSameSite = true ->
      (v = "Lax" -> Config.SessionSameSiteMode p = SameSiteLaxMode)
      /\ (v = "Strict" -> Config.SessionSameSiteMode p = SameSiteStrictMode)
      /\ (v = "None" -> Config.SessionSameSiteMode p = SameSiteNoneMode)
      /\ (v <> "Lax" -> v <> "Strict" -> v <> "None" ->
          Config.SessionSameSiteMode p = SameSiteDefaultMode)).
Proof.
  cbv zeta. unfold Config.SessionSameSiteMode. rewrite StringF_fallback.
  split; intros E; rewrite E.
  - reflexivity.
  - split; [| split; [| split]].
    + intros ->. reflexivity.
    + intros ->. reflexivity.
    + intros ->. reflexivity.
    + intros H1 H2 H3.
      destruct (String.eqb_spec (p_String p Config.ViperKeySessionSameSite) "Lax");
        [contradiction |].
      destruct (String.eqb_spec (p_String p Config.ViperKeySessionSameSite) "Strict");
        [contradiction |].
      destruct (String.eqb_spec (p_String p Config.ViperKeySessionSameSite) "None");
        [contradiction |].
      reflexivity.
Qed.

Lemma SessionSameSiteMode_mapping_witness :
  Config.SessionSameSiteMode Examples.empty = SameSiteLaxMode
  /\ Config.SessionSameSiteMode (Examples.same_site "Strict") = SameSiteStrictMode
  /\ Config.SessionSameSiteMode (Examples.same_site "lax") = SameSiteDefaultMode.
Proof.
  split; [| split].
  - apply (proj1 (SessionSameSiteMode_mapping Examples.empty)). reflexivity.
  - apply (proj2 (SessionSameSiteMode_mapping (Examples.same_site "Strict")));
      reflexivity.
  - apply (proj2 (SessionSameSiteMode_mapping (Examples.same_site "lax")));
      [reflexivity | | |]; intros H; discriminate H.
Defined.

(** ** Self-service strategies *)

(** C2: with the key [selfservice.methods.<name>.enabled] absent from the
    document, the strategies password, profile and link are enabled, and a
    strategy of any other name is not. *)
Theorem SelfServiceStrategy_enabled_when_key_absent
  {P : Type} {prov : Provider P} {codec : Codec} {laws : ProviderLaws P}
  (p : P) (name : string) :
  p_Exists p ("selfservice.methods." ++ name ++ ".enabled") = false ->
  (In name ["password"; "profile"; "link"] ->
   strategy_Enabled (Config.SelfServiceStrategy p name) = true)
  /\ (~ In name ["password"; "profile"; "link"] ->
      strategy_Enabled (Config.SelfServiceStrategy p name) = false).
Proof.
  intros Habs. unfold Config.SelfServiceStrategy.
  change (Config.ViperKeySelfServiceStrategyConfig ++ "." ++ name ++ ".enabled")
    with ("selfservice.methods." ++ name ++ ".enabled").
  rewrite Habs, (Bool_absent _ _ Habs). cbn [negb].
  split.
  - intros Hin.
    assert (E : String.eqb name "password" || String.eqb name "profile"
                || String.eqb name "link" = true).
    { simpl in Hin. destruct Hin as [<- | [<- | [<- | []]]]; reflexivity. }
    rewrite E. now destruct (Nat.eqb _ 0).
  - intros Hnot.
    assert (E : String.eqb name "password" || String.eqb name "profile"
                || String.eqb name "link" = false).
    { simpl in Hnot.
      destruct (String.eqb_spec name "password") as [-> | _]; [elim Hnot; auto |].
      destruct (String.eqb_spec name "profile") as [-> | _]; [elim Hnot; auto |].
      destruct (String.eqb_spec name "link") as [-> | _]; [elim Hnot; auto |].
      reflexivity. }
    rewrite E. now destruct (Nat.eqb _ 0).
Qed.

Lemma SelfServiceStrategy_enabled_when_key_absent_witness :
  strategy_Enabled (Config.SelfServiceStrategy Examples.empty "link") = true
  /\ strategy_Enabled (Config.SelfServiceStrategy Examples.empty "oidc") = false.
Proof.
  split.
  - assert (H : p_Exists Examples.empty ("selfservice.methods." ++ "link" ++ ".enabled")
                = false) by reflexivity.
    apply (proj1 (SelfServiceStrategy_enabled_when_key_absent Examples.empty "link" H)).
    simpl. auto.
  - assert (H : p_Exists Examples.empty ("selfservice.methods." ++ "oidc" ++ ".enabled")
                = false) by reflexivity.
    apply (proj2 (SelfServiceStrategy_enabled_when_key_absent Examples.empty "oidc" H)).
    simpl. intros [E | [E | [E | []]]]; discriminate E.
Defined.

(** ** Provisioning of the default secret *)

(** C1: on a document whose [secrets.default] reads as the empty list, two
    calls of SecretsDefault() in sequence return the same one-element list,
    and the source is written exactly once (a Set on [secrets.default]), by
    the first call; this supposes that the source accepts the write. On every
    document the list returned is non-empty; the only other outcome is the
    fatal one of MustSet, when the list read was empty and the source refused
    the write. *)
Theorem SecretsDefault_provisions_once
  {P : Type} {prov : Provider P} {laws : ProviderLaws P} :
  (forall (p p' : P) (fresh1 fresh2 : string),
      p_Strings p Config.ViperKeySecretsDefault = [] ->
      p_Set p Config.ViperKeySecretsDefault (VStrings [fresh1]) = Ok p' ->
      Config.SecretsDefault fresh1 p
      = Returns {| Config.value := [list_byte_of_string fresh1];
                   Config.source := p';
                   Config.sets := [(Config.ViperKeySecretsDefault, VStrings [fresh1])] |}
      /\ Config.SecretsDefault fresh2 p'
         = Returns {| Config.value := [list_byte_of_string fresh1];
                      Config.source := p';
                      Config.sets := [] |})
  /\ (forall (p : P) (fresh : string),
         match Config.SecretsDefault fresh p with
         | Returns w => Config.value w <> []
         | Fatal _ =>
             p_Strings p Config.ViperKeySecretsDefault = []
             /\ exists e, p_Set p Config.ViperKeySecretsDefault (VStrings [fresh]) = Err e
         end).
Proof.
  split.
  - intros p p' fresh1 fresh2 Hempty Hset.
    unfold Config.SecretsDefault, Config.MustSet.
    rewrite Hempty, Hset, (Strings_Set _ _ _ _ Hset). simpl. split; reflexivity.
  - intros p fresh. unfold Config.SecretsDefault, Config.MustSet.
    destruct (p_Strings p Config.ViperKeySecretsDefault) as [| s l] eqn:E; simpl.
    + destruct (p_Set p Config.ViperKeySecretsDefault (VStrings [fresh])) as [p' | e];
        simpl.
      * discriminate.
      * split; [reflexivity | now exists e].
    + discriminate.
Qed.

Lemma SecretsDefault_provisions_once_witness :
  let fresh1 := "0f3a7c52-9b1e-4d6a-8c2f-5e7d1a9b3c40" in
  let fresh2 := "b8e417d6-2c3f-4a59-9e10-7f6a5d4c3b21" in
  exists p',
    Config.SecretsDefault fresh1 Examples.empty
    = Returns {| Config.value := [list_byte_of_string fresh1];
                 Config.source := p';
                 Config.sets := [(Config.ViperKeySecretsDefault, VStrings [fresh1])] |}
    /\ Config.SecretsDefault fresh2 p'
       = Returns {| Config.value := [list_byte_of_string fresh1];
                    Config.source := p';
                    Config.sets := [] |}.
Proof.
  intros fresh1 fresh2.
  exists (Examples.obj [("secrets", VMap [("default", VStrings [fresh1])])]).
  apply (proj1 (@SecretsDefault_provisions_once MemSource.t _ _)); reflexivity.
Defined.

(** The fatal outcome does occur: a source that refuses the write. *)
Example SecretsDefault_refused_write :
  exists msg, Config.SecretsDefault "0f3a7c52-9b1e-4d6a-8c2f-5e7d1a9b3c40"
                Examples.empty_frozen = Fatal msg.
Proof.
  now eexists.
Qed.

(** ** Hooks *)

Lemma hooks_of_key {P : Type} {prov : Provider P} {codec : Codec}
  (a : HooksAccessor) (p : P) :
  hooks_of a p = Config.selfServiceHooks p (hooks_key a).
Proof.
  destruct a; reflexivity.
Qed.

(** C6: for each of the hooks keys, when the key is absent, or the raw value
    found under it in the marshalled document is empty, the accessor returns
    the empty list and not an error; and in the list it returns for a
    decoded value, an entry decoded with an empty [config] carries the
    configuration [{}], the other entries are unchanged. *)
Theorem selfServiceHooks_absent_empty_and_config_default
  {P : Type} {prov : Provider P} {codec : Codec} (p : P) (a : HooksAccessor) :
  let key := hooks_key a in
  (p_Exists p key = false -> hooks_of a p = Returns [])
  /\ (forall out,
         p_Marshal p = Ok out -> gjson_Raw out key = "" -> hooks_of a p = Returns [])
  /\ (forall out decoded,
         p_Exists p key = true ->
         p_Marshal p = Ok out ->
         gjson_Raw out key <> "" ->
         jsonx_Decode_Hooks (gjson_Raw out key) = Ok decoded ->
         exists hooks,
           hooks_of a p = Returns hooks
           /\ List.length hooks = List.length decoded
           /\ forall i h,
               nth_error decoded i = Some h ->
               exists h',
                 nth_error hooks i = Some h'
                 /\ hook_Name h' = hook_Name h
                 /\ (hook_Config h = "" -> hook_Config h' = "{}")
                 /\ (hook_Config h <> "" -> hook_Config h' = hook_Config h)).
Proof.
  cbv zeta. rewrite hooks_of_key. unfold Config.selfServiceHooks.
  split; [| split].
  - intros ->. reflexivity.
  - intros out -> ->. now destruct (p_Exists p (hooks_key a)).
  - intros out decoded -> -> Hraw ->. cbn [negb].
    destruct (gjson_Raw out (hooks_key a)) as [| c r]; [now elim Hraw |].
    cbn [String.length Nat.eqb].
    eexists. split; [reflexivity |]. split; [apply length_map |].
    intros i h Hi. rewrite nth_error_map, Hi. cbn [option_map].
    eexists. split; [reflexivity |].
    destruct h as [n [| c' r']]; simpl.
    + split; [reflexivity |]. split; [reflexivity |]. intros H. now elim H.
    + split; [reflexivity |]. split; [discriminate | reflexivity].
Qed.

Lemma selfServiceHooks_absent_empty_and_config_default_witness :
  hooks_of RegistrationBeforeHooks Examples.empty = Returns []
  /\ exists hooks,
       hooks_of (LoginAfterHooks "password") Examples.login_after_password_hook
       = Returns hooks
       /\ List.length hooks = 1%nat
       /\ forall i h,
           nth_error [{| hook_Name := "revoke_active_sessions"; hook_Config := "" |}] i
           = Some h ->
           exists h',
             nth_error hooks i = Some h'
             /\ hook_Name h' = hook_Name h
             /\ (hook_Config h = "" -> hook_Config h' = "{}")
             /\ (hook_Config h <> "" -> hook_Config h' = hook_Config h).
Proof.
  split.
  - apply (proj1 (selfServiceHooks_absent_empty_and_config_default
                    Examples.empty RegistrationBeforeHooks)).
    reflexivity.
  - apply (proj2 (proj2 (selfServiceHooks_absent_empty_and_config_default
                           Examples.login_after_password_hook (LoginAfterHooks "password")))
             (MemSource.print (MemSource.doc Examples.login_after_password_hook))
             [{| hook_Name := "revoke_active_sessions"; hook_Config := "" |}]).
    + reflexivity.
    + reflexivity.
    + vm_compute. intros H. discriminate H.
    + reflexivity.
Defined.

(** The scenario of the specification, run on the in-memory source. *)
Example login_after_password_hooks :
  Config.SelfServiceFlowLoginAfterHooks Examples.login_after_password_hook "password"
  = Returns [{| hook_Name := "revoke_active_sessions"; hook_Config := "{}" |}].
Proof.
  reflexivity.
Qed.

(** ** Identity schemas *)

Lemma count_ID_app (id : string) (a b : Schemas) :
  count_ID id (a ++ b)%list = (count_ID id a + count_ID id b)%nat.
Proof.
  unfold count_ID. now rewrite filter_app, length_app.
Qed.

Lemma count_ID_zero (id : string) (ss : Schemas) :
  count_ID id ss = 0%nat <-> forall s, In s ss -> schema_ID s <> id.
Proof.
  unfold count_ID. induction ss as [| x r IH]; simpl.
  - split; [intros _ s [] | reflexivity].
  - destruct (String.eqb_spec (schema_ID x) id) as [E | NE]; simpl.
    + split; [discriminate |]. intros H. now elim (H x (or_introl eq_refl)).
    + rewrite IH. split.
      * intros H s [<- | Hin]; [assumption | now apply H].
      * intros H s Hin. apply H. now right.
Qed.

(** IdentityTraitsSchemas() puts the default schema after the explicitly
    configured ones, and is fatal when the default schema URL does not parse
    or the explicit schemas cannot be read. *)
Lemma IdentityTraitsSchemas_explicit_schemas
  {P : Type} {prov : Provider P} {codec : Codec} (p : P) :
  match NetURL.ParseRequestURI (p_String p "identity.default_schema_url"),
        explicit_schemas p with
  | Ok u, Some explicit =>
      Config.IdentityTraitsSchemas p = Returns (explicit ++ [default_schema u])%list
  | _, _ => exists msg, Config.IdentityTraitsSchemas p = Fatal msg
  end.
Proof.
  unfold Config.IdentityTraitsSchemas, Config.DefaultIdentityTraitsSchemaURL,
    Config.parseURIOrFail, explicit_schemas, default_schema.
  change Config.ViperKeyDefaultIdentitySchemaURL with "identity.default_schema_url".
  change Config.ViperKeyIdentitySchemas with "identity.schemas".
  change Config.DefaultIdentityTraitsSchemaID with "default".
  destruct (NetURL.ParseRequestURI (p_String p "identity.default_schema_url"))
    as [u | e]; [| now eexists].
  destruct (negb (p_Exists p "identity.schemas")); [reflexivity |].
  destruct (p_Marshal p) as [out | e]; [| now eexists].
  destruct (Nat.eqb (String.length (gjson_Raw out "identity.schemas")) 0);
    [reflexivity |].
  destruct (json_Decode_Schemas (gjson_Raw out "identity.schemas")) as [ss | e];
    [reflexivity | now eexists].
Qed.

Lemma count_ID_forallb (id : string) (ss : Schemas) :
  forallb (fun s => negb (String.eqb (schema_ID s) id)) ss = true ->
  count_ID id ss = 0%nat.
Proof.
  intros H. apply count_ID_zero. intros s Hin.
  rewrite forallb_forall in H. specialize (H s Hin).
  apply negb_true_iff in H. now apply String.eqb_neq.
Qed.

(** The accessor itself does not look at the IDs of the explicitly configured
    schemas: on a document that is not valid, because one of them carries the
    ID [default], the list holds two such entries. *)
Example IdentityTraitsSchemas_two_default_entries :
  valid_identity_schemas Examples.explicit_default_schema = false
  /\ exists ss,
       Config.IdentityTraitsSchemas Examples.explicit_default_schema = Returns ss
       /\ count_ID "default" ss = 2%nat.
Proof.
  split; [reflexivity |]. eexists. split; reflexivity.
Qed.

(** C3: for every valid document, the list returned by IdentityTraitsSchemas()
    contains exactly one entry whose ID is [default]: the default schema,
    whose URL is the default identity schema URL. That entry is the last
    element of the list, after the explicitly configured schemas, however
    many there are. On a valid document the accessor returns such a list
    whenever the default identity schema URL parses. A document is valid for
    the identity schemas in the sense of [valid_identity_schemas]. *)
Theorem IdentityTraitsSchemas_default_appended_last
  {P : Type} {prov : Provider P} {codec : Codec} (p : P) :
  valid_identity_schemas p = true ->
  (forall ss,
      Config.IdentityTraitsSchemas p = Returns ss ->
      count_ID "default" ss = 1%nat
      /\ exists explicit u,
           explicit_schemas p = Some explicit
           /\ NetURL.ParseRequestURI (p_String p "identity.default_schema_url") = Ok u
           /\ ss = (explicit ++ [default_schema u])%list
           /\ List.last ss {| schema_ID := ""; schema_URL := "" |} = default_schema u
           /\ count_ID "default" explicit = 0%nat)
  /\ (forall u,
         NetURL.ParseRequestURI (p_String p "identity.default_schema_url") = Ok u ->
         exists explicit,
           Config.IdentityTraitsSchemas p = Returns (explicit ++ [default_schema u])%list).
Proof.
  unfold valid_identity_schemas. intros Hvalid.
  pose proof (IdentityTraitsSchemas_explicit_schemas p) as Hshape.
  destruct (explicit_schemas p) as [explicit |]; [| discriminate Hvalid].
  apply count_ID_forallb in Hvalid.
  split.
  - intros ss Hss.
    destruct (NetURL.ParseRequestURI (p_String p "identity.default_schema_url"))
      as [u | e].
    + rewrite Hshape in Hss. injection Hss as <-.
      assert (Hc : count_ID "default" (explicit ++ [default_schema u])%list = 1%nat).
      { rewrite count_ID_app, Hvalid. reflexivity. }
      split; [exact Hc |]. exists explicit, u.
      repeat split; [apply last_last | exact Hvalid].
    + destruct Hshape as [msg Hmsg]. rewrite Hmsg in Hss. discriminate Hss.
  - intros u Hu. rewrite Hu in Hshape. now exists explicit.
Qed.

Lemma IdentityTraitsSchemas_default_appended_last_witness :
  Config.IdentityTraitsSchemas Examples.two_schemas
  = Returns [{| schema_ID := "customer";
                schema_URL := "file://stub/customer.schema.json" |};
             {| schema_ID := "employee";
                schema_URL := "file://stub/employee.schema.json" |};
             {| schema_ID := "default"; schema_URL := Examples.schema_url |}]
  /\ count_ID "default"
       [{| schema_ID := "customer";
           schema_URL := "file://stub/customer.schema.json" |};
        {| schema_ID := "employee";
           schema_URL := "file://stub/employee.schema.json" |};
        {| schema_ID := "default"; schema_URL := Examples.schema_url |}]
     = 1%nat.
Proof.
  assert (Hvalid : valid_identity_schemas Examples.two_schemas = true) by reflexivity.
  assert (Hss : Config.IdentityTraitsSchemas Examples.two_schemas
                = Returns [{| schema_ID := "customer";
                              schema_URL := "file://stub/customer.schema.json" |};
                           {| schema_ID := "employee";
                              schema_URL := "file://stub/employee.schema.json" |};
                           {| schema_ID := "default";
                              schema_URL := Examples.schema_url |}])
    by reflexivity.
  split; [exact Hss |].
  exact (proj1 (proj1 (IdentityTraitsSchemas_default_appended_last
                         Examples.two_schemas Hvalid) _ Hss)).
Defined.

(** ** Argon2 parameters *)

(** X1: each field of HasherArgon2() falls back to its literal default when its
    key is absent, whatever the other keys hold; the parallelism falls back to
    the package variable, which is twice the processor count on a host with
    fewer than 128 processors. *)
Theorem HasherArgon2_fields_fall_back
  {P : Type} {prov : Provider P} {laws : ProviderLaws P} (env : Env) (p : P) :
  (p_Exists p "hashers.argon2.memory" = false ->
   Memory (Config.HasherArgon2 env p) = 128 * 2 ^ 20)
  /\ (p_Exists p "hashers.argon2.iterations" = false ->
      Iterations (Config.HasherArgon2 env p) = 1)
  /\ (p_Exists p "hashers.argon2.parallelism" = false ->
      Parallelism (Config.HasherArgon2 env p) = Config.Argon2DefaultParallelism env
      /\ (0 <= runtime_NumCPU env < 128 ->
          Parallelism (Config.HasherArgon2 env p) = 2 * runtime_NumCPU env))
  /\ (p_Exists p "hashers.argon2.salt_length" = false ->
      SaltLength (Config.HasherArgon2 env p) = 16)
  /\ (p_Exists p "hashers.argon2.key_length" = false ->
      KeyLength (Config.HasherArgon2 env p) = 32)
  /\ (p_Exists p "hashers.argon2.expected_duration" = false ->
      ExpectedDuration (Config.HasherArgon2 env p) = 500 * 1000000)
  /\ (p_Exists p "hashers.argon2.expected_deviation" = false ->
      ExpectedDeviation (Config.HasherArgon2 env p) = 500 * 1000000)
  /\ (p_Exists p "hashers.argon2.dedicated_memory" = false ->
      DedicatedMemory (Config.HasherArgon2 env p) = 2 ^ 30).
Proof.
  unfold Config.HasherArgon2. cbn [Memory Iterations Parallelism SaltLength KeyLength
    ExpectedDuration ExpectedDeviation DedicatedMemory].
  repeat match goal with |- _ /\ _ => split end; intros H.
  - now rewrite (ByteSizeF_absent _ _ _ H).
  - now rewrite (IntF_absent _ _ _ H).
  - rewrite (IntF_absent _ _ _ H).
    assert (E : GoInt.to_uint8 (Config.Argon2DefaultParallelism env)
                = Config.Argon2DefaultParallelism env).
    { unfold Config.Argon2DefaultParallelism, GoInt.to_uint8.
      apply Z.mod_mod. discriminate. }
    split; [exact E |].
    intros Hcpu. rewrite E.
    unfold Config.Argon2DefaultParallelism, GoInt.to_uint8, GoInt.to_int.
    rewrite (Z.mod_small (runtime_NumCPU env * 2 + 2 ^ 63) (2 ^ 64)) by lia.
    rewrite Z.mod_small; lia.
  - now rewrite (IntF_absent _ _ _ H).
  - now rewrite (IntF_absent _ _ _ H).
  - now rewrite (DurationF_absent _ _ _ H).
  - now rewrite (DurationF_absent _ _ _ H).
  - now rewrite (ByteSizeF_absent _ _ _ H).
Qed.

Lemma HasherArgon2_fields_fall_back_witness :
  Memory (Config.HasherArgon2 Examples.host_env Examples.argon2_iterations_3)
  = 128 * 2 ^ 20
  /\ Parallelism (Config.HasherArgon2 Examples.host_env Examples.argon2_iterations_3)
     = 2 * 4.
Proof.
  split.
  - apply (proj1 (HasherArgon2_fields_fall_back
                    Examples.host_env Examples.argon2_iterations_3)).
    reflexivity.
  - apply (proj1 (proj2 (proj2 (HasherArgon2_fields_fall_back
                                  Examples.host_env Examples.argon2_iterations_3)))).
    + reflexivity.
    + simpl. lia.
Defined.

(** The scenario of the specification, on a host with four processors. *)
Example argon2_iterations_3_scenario :
  Config.HasherArgon2 Examples.host_env Examples.argon2_iterations_3
  = {| Memory := 134217728; Iterations := 3; Parallelism := 8; SaltLength := 16;
       KeyLength := 32; ExpectedDuration := 500000000; ExpectedDeviation := 500000000;
       DedicatedMemory := 1073741824 |}.
Proof.
  reflexivity.
Qed.

(** C7, at a host with 128 processors: twice the processor count is 256, which
    the conversion to [uint8] turns into 0, so that the parallelism returned
    when the key is absent is 0 and not 256. *)
Theorem HasherArgon2_parallelism_default_wraps :
  2 * runtime_NumCPU Examples.big_env = 256
  /\ p_Exists Examples.argon2_iterations_3 "hashers.argon2.parallelism" = false
  /\ Config.Argon2DefaultParallelism Examples.big_env = 0
  /\ Parallelism (Config.HasherArgon2 Examples.big_env Examples.argon2_iterations_3) = 0.
Proof.
  repeat split.
Qed.

(** ** Base URLs and listen addresses *)

Lemma guessBaseURL_amended_guess {P : Type} {prov : Provider P}
  (env : Env) (p : P) (keyHost keyPort : string) (defaultPort : Z) :
  Config.guessBaseURL env p keyHost keyPort defaultPort
  = amended_guess env (p_Bool p "dev") (p_String p keyHost) (p_IntF p keyPort defaultPort).
Proof.
  unfold Config.guessBaseURL, amended_guess, guess_url, fallback_host,
    Config.IsInsecureDevMode.
  destruct (p_String p keyHost) as [| c r] eqn:E.
  - simpl. now destruct (os_Hostname env).
  - cbn [String.length Nat.eqb orb]. rewrite orb_false_r.
    replace (String.eqb (String c r) "") with false by reflexivity.
    cbn [orb].
    destruct (String.eqb (String c r) "0.0.0.0"); [now destruct (os_Hostname env) | reflexivity].
Qed.

(** The claim read literally fails: a configured host [0.0.0.0] is not empty,
    and yet the guess carries the hostname of the process. *)
Lemma SelfPublicURL_guess_replaces_wildcard_host :
  ~ (forall (env : Env) (p : MemSource.t),
        p_Exists p "serve.public.base_url" = false ->
        Config.SelfPublicURL env p
        = claimed_guess env (p_Bool p "dev") (p_String p "serve.public.host")
            (p_IntF p "serve.public.port" 4433)).
Proof.
  intros H.
  specialize (H Examples.host_env (Examples.public_host "0.0.0.0") eq_refl).
  vm_compute in H. discriminate H.
Qed.

Lemma baseURL_three_tiers {P : Type} {prov : Provider P} {laws : ProviderLaws P}
  (env : Env) (p : P) (keyURL keyHost keyPort : string) (defaultPort : Z) :
  three_tiers env p keyURL keyHost keyPort defaultPort
    (Config.baseURL env p keyURL keyHost keyPort defaultPort).
Proof.
  unfold three_tiers, Config.baseURL. cbv zeta.
  rewrite guessBaseURL_amended_guess.
  repeat match goal with |- _ /\ _ => split end.
  - intros u [-> | ->]; reflexivity.
  - intros s u -> ->. reflexivity.
  - intros s e -> ->. reflexivity.
  - intros H. now rewrite (Get_absent _ _ H).
  - intros H. apply (IntF_absent _ _ _ H).
  - now destruct (p_Get p keyURL).
Qed.

(** C4 (amended): SelfPublicURL() and SelfAdminURL() resolve in exactly three
    tiers: a stored URL value is returned as it is; a stored string is parsed
    as a request URI and the parsed URL is returned; when the parse fails, or
    the key is absent, the result is the guess, with scheme [https] ([http] in
    insecure dev mode), path [/], and host [<host>:<port>], where the port
    defaults to 4433 (public) or 4434 (admin) and the host is the hostname of
    the process (or [127.0.0.1] when its lookup fails) when the configured
    host is empty or is [0.0.0.0]. No case is left open: every other stored
    value gives the guess too. *)
Theorem SelfPublicURL_SelfAdminURL_three_tiers
  {P : Type} {prov : Provider P} {laws : ProviderLaws P} (env : Env) (p : P) :
  three_tiers env p "serve.public.base_url" "serve.public.host" "serve.public.port" 4433
    (Config.SelfPublicURL env p)
  /\ three_tiers env p "serve.admin.base_url" "serve.admin.host" "serve.admin.port" 4434
       (Config.SelfAdminURL env p).
Proof.
  split; apply baseURL_three_tiers.
Qed.

Lemma SelfPublicURL_SelfAdminURL_three_tiers_witness :
  Config.SelfPublicURL Examples.host_env
    (Examples.public_base_url (VString "https://id.example.org/kratos"))
  = {| NetURL.Scheme := "https"; NetURL.Opaque := ""; NetURL.User := None;
       NetURL.Host := "id.example.org"; NetURL.Path := "/kratos";
       NetURL.RawPath := ""; NetURL.ForceQuery := false;
       NetURL.RawQuery := ""; NetURL.Fragment := "" |}
  /\ Config.SelfPublicURL Examples.host_env (Examples.public_base_url (VString "kratos"))
     = guess_url false "kratos-host" 4433
  /\ Config.SelfAdminURL Examples.host_env Examples.dev_4455
     = guess_url true "kratos-host" 4434
  /\ Config.SelfPublicURL Examples.host_env
       (Examples.stored_public_base_url (guess_url false "id.example.org" 443))
     = guess_url false "kratos-host" 4433.
Proof.
  split; [| split; [| split]].
  - apply (proj1 (proj2 (proj1 (SelfPublicURL_SelfAdminURL_three_tiers Examples.host_env
             (Examples.public_base_url (VString "https://id.example.org/kratos")))))
             "https://id.example.org/kratos");
      reflexivity.
  - refine (proj1 (proj2 (proj2 (proj1 (SelfPublicURL_SelfAdminURL_three_tiers
              Examples.host_env (Examples.public_base_url (VString "kratos"))))))
              "kratos" NetURL.InvalidURIForRequest _ _);
      reflexivity.
  - refine (proj1 (proj2 (proj2 (proj2 (proj2 (SelfPublicURL_SelfAdminURL_three_tiers
              Examples.host_env Examples.dev_4455))))) _).
    reflexivity.
  - exact (proj2 (proj2 (proj2 (proj2 (proj2 (proj1
             (SelfPublicURL_SelfAdminURL_three_tiers Examples.host_env
                (Examples.stored_public_base_url
                   (guess_url false "id.example.org" 443))))))))).
Defined.

(** The claim read literally fails: the listen address is built from the
    configured host alone, and never carries the hostname of the process. *)
Lemma PublicListenOn_does_not_use_hostname :
  ~ (forall (env : Env) (h : string),
        os_Hostname env = Ok h ->
        Config.PublicListenOn Examples.dev_4455 = Returns (GoString.host_port h 4455)).
Proof.
  intros H. specialize (H Examples.host_env "kratos-host" eq_refl).
  vm_compute in H. discriminate H.
Qed.

(** C5 (amended): on the document with [serve.public.port] 4455 and [dev]
    true, with the public host empty or absent and no base URL configured,
    PublicListenOn() returns [:4455], the empty host followed by the port;
    SelfPublicURL() has scheme [http], and it is its host that reads
    [<hostname>:4455]. *)
Theorem dev_4455_listen_address_and_public_url
  {P : Type} {prov : Provider P} {laws : ProviderLaws P} (env : Env) (p : P) :
  p_IntF p "serve.public.port" 4433 = 4455 ->
  p_Exists p "serve.public.host" = false \/ p_String p "serve.public.host" = "" ->
  p_Bool p "dev" = true ->
  p_Exists p "serve.public.base_url" = false ->
  Config.PublicListenOn p = Returns ":4455"
  /\ NetURL.Scheme (Config.SelfPublicURL env p) = "http"
  /\ NetURL.Host (Config.SelfPublicURL env p) = fallback_host env ++ ":4455".
Proof.
  intros Hport Hhost Hdev Hurl.
  assert (Hh : p_String p "serve.public.host" = "").
  { destruct Hhost as [H | H]; [now apply String_absent | exact H]. }
  split.
  - unfold Config.PublicListenOn, Config.listenOn.
    change ("serve." ++ "public" ++ ".port") with "serve.public.port".
    change ("serve." ++ "public" ++ ".host") with "serve.public.host".
    cbn [String.eqb Ascii.eqb Bool.eqb].
    rewrite Hport, Hh. reflexivity.
  - unfold Config.SelfPublicURL.
    change Config.ViperKeyPublicBaseURL with "serve.public.base_url".
    change Config.ViperKeyPublicHost with "serve.public.host".
    change Config.ViperKeyPublicPort with "serve.public.port".
    rewrite (proj1 (proj2 (proj2 (proj2 (baseURL_three_tiers env p
               "serve.public.base_url" "serve.public.host" "serve.public.port" 4433))))
               Hurl).
    rewrite Hport, Hh, Hdev. split; reflexivity.
Qed.

Lemma dev_4455_listen_address_and_public_url_witness :
  Config.PublicListenOn Examples.dev_4455 = Returns ":4455"
  /\ NetURL.Scheme (Config.SelfPublicURL Examples.host_env Examples.dev_4455) = "http"
  /\ NetURL.Host (Config.SelfPublicURL Examples.host_env Examples.dev_4455)
     = "kratos-host:4455".
Proof.
  refine (dev_4455_listen_address_and_public_url
            Examples.host_env Examples.dev_4455 _ _ _ _).
  - reflexivity.
  - left. reflexivity.
  - reflexivity.
  - reflexivity.
Defined.

(** ** Reparsing a guessed base URL *)

Module Reparse.
Import GoString NetURL.

Lemma all_bytes_app (P : ascii -> bool) (a b : string) :
  all_bytes P (a ++ b) = all_bytes P a && all_bytes P b.
Proof.
  induction a as [| c a IH]; simpl; [reflexivity |].
  now rewrite IH, andb_assoc.
Qed.

Lemma all_bytes_impl (P Q : ascii -> bool) (s : string) :
  (forall c, P c = true -> Q c = true) ->
  all_bytes P s = true -> all_bytes Q s = true.
Proof.
  intros H. induction s as [| c s IH]; simpl; [reflexivity |].
  intros E. apply andb_true_iff in E as [E1 E2].
  now rewrite (H _ E1), (IH E2).
Qed.

Lemma cut_none (sep : ascii) (s : string) :
  all_bytes (is_not sep) s = true -> cut sep s = None.
Proof.
  induction s as [| c s IH]; simpl; [reflexivity |].
  intros E. apply andb_true_iff in E as [E1 E2]. unfold is_not in E1.
  apply negb_true_iff in E1. now rewrite E1, (IH E2).
Qed.

Lemma cut_app (sep : ascii) (a b : string) :
  all_bytes (is_not sep) a = true -> cut sep (a ++ String sep b) = Some (a, b).
Proof.
  induction a as [| c a IH]; simpl.
  - intros _. now rewrite Ascii.eqb_refl.
  - intros E. apply andb_true_iff in E as [E1 E2]. unfold is_not in E1.
    apply negb_true_iff in E1. now rewrite E1, (IH E2).
Qed.

Lemma cut_last_none (sep : ascii) (s : string) :
  all_bytes (is_not sep) s = true -> cut_last sep s = None.
Proof.
  induction s as [| c s IH]; simpl; [reflexivity |].
  intros E. apply andb_true_iff in E as [E1 E2]. unfold is_not in E1.
  apply negb_true_iff in E1. now rewrite (IH E2), E1.
Qed.

Lemma cut_last_app (sep : ascii) (a b : string) :
  all_bytes (is_not sep) b = true -> cut_last sep (a ++ String sep b) = Some (a, b).
Proof.
  intros E. induction a as [| c a IH]; simpl.
  - now rewrite (cut_last_none _ _ E), Ascii.eqb_refl.
  - now rewrite IH.
Qed.

Lemma count_byte_none (sep : ascii) (s : string) :
  all_bytes (is_not sep) s = true -> count_byte sep s = 0%nat.
Proof.
  induction s as [| c s IH]; simpl; [reflexivity |].
  intros E. apply andb_true_iff in E as [E1 E2]. unfold is_not in E1.
  apply negb_true_iff in E1. now rewrite E1, (IH E2).
Qed.

Lemma any_byte_none (P : ascii -> bool) (s : string) :
  all_bytes (fun c => negb (P c)) s = true -> any_byte P s = false.
Proof.
  induction s as [| c s IH]; simpl; [reflexivity |].
  intros E. apply andb_true_iff in E as [E1 E2].
  apply negb_true_iff in E1. now rewrite E1, (IH E2).
Qed.

Lemma unescaped_in_host_facts (c : ascii) :
  unescaped_in_host c = true ->
  is_not "/" c = true /\ is_not "?" c = true /\ is_not "@" c = true
  /\ Ascii.eqb c "%" = false
  /\ negb (negb (byte_le " " c) || Ascii.eqb c "127") = true.
Proof.
  destruct c as [[] [] [] [] [] [] [] []]; vm_compute; intros H;
    try discriminate H; repeat split.
Qed.

Lemma is_digit_facts (c : ascii) :
  is_digit c = true -> unescaped_in_host c = true /\ is_not ":" c = true.
Proof.
  destruct c as [[] [] [] [] [] [] [] []]; vm_compute; intros H;
    try discriminate H; repeat split.
Qed.

Lemma unescaped_in_host_bytes (c : ascii) :
  unescaped_in_host c
  = is_alnum c
    || one_of ["-"; "_"; "."; "~"; "!"; "$"; "&"; "'"; "("; ")"; "*"; "+"; ","; ";";
               "="; ":"; "["; "]"; "<"; ">"; quote]%char c.
Proof.
  destruct c as [[] [] [] [] [] [] [] []]; reflexivity.
Qed.

Lemma string_of_uint_digits (d : Decimal.uint) :
  all_bytes is_digit (NilEmpty.string_of_uint d) = true.
Proof.
  induction d; simpl; try reflexivity; exact IHd.
Qed.

Lemma itoa_digits (n : Z) : 0 <= n -> all_bytes is_digit (itoa n) = true.
Proof.
  intros H. unfold itoa. destruct n as [| q | q]; simpl.
  - reflexivity.
  - apply string_of_uint_digits.
  - lia.
Qed.

Lemma escape_unescaped (s : string) :
  all_bytes unescaped_in_host s = true -> escape s encodeHost = s.
Proof.
  induction s as [| c s IH]; simpl; [reflexivity |].
  intros E. apply andb_true_iff in E as [E1 E2].
  unfold unescaped_in_host in E1. apply negb_true_iff in E1.
  now rewrite andb_false_r, E1, (IH E2).
Qed.

Lemma unescape_unescaped (s : string) :
  all_bytes unescaped_in_host s = true -> unescape s encodeHost = Ok s.
Proof.
  intros H. unfold unescape.
  assert (C : unescape_check s encodeHost = None /\ unescape_decode s encodeHost = s).
  { induction s as [| c s IH]; [split; reflexivity |].
    simpl in H. apply andb_true_iff in H as [E1 E2].
    destruct (IH E2) as [IH1 IH2].
    destruct (unescaped_in_host_facts c E1) as (_ & _ & _ & Hpct & _).
    unfold unescaped_in_host in E1. apply negb_true_iff in E1.
    cbn [unescape_check unescape_decode]. rewrite Hpct, E1, andb_false_r, IH1, IH2.
    destruct (Ascii.eqb_spec c "+") as [-> | _]; split; reflexivity. }
  destruct C as [-> ->]. reflexivity.
Qed.

Lemma is_empty_app_cons (a : string) (c : ascii) (b : string) :
  is_empty (a ++ String c b) = false.
Proof.
  now destruct a.
Qed.

Lemma substring_all (s : string) : substring 0 (String.length s) s = s.
Proof.
  induction s as [| c s IH]; simpl; [reflexivity | now rewrite IH].
Qed.

Lemma from_2 (a b : ascii) (s : string) : from 2 (String a (String b s)) = s.
Proof.
  unfold from. simpl. rewrite Nat.sub_0_r. apply substring_all.
Qed.

Lemma host_port_cons (h : string) (port : Z) :
  host_port h port = h ++ String ":" (itoa port).
Proof.
  reflexivity.
Qed.

Lemma any_byte_app (P : ascii -> bool) (a b : string) :
  any_byte P (a ++ b) = any_byte P a || any_byte P b.
Proof.
  induction a as [| c a IH]; simpl; [reflexivity |].
  now rewrite IH, orb_assoc.
Qed.

(** *** Bytes written as an escape *)

Lemma hex_escape_facts (c : ascii) :
  let a := upperhex (N.shiftr (N_of_ascii c) 4) in
  let b := upperhex (N.land (N_of_ascii c) 15) in
  ishex a = true /\ ishex b = true
  /\ unescaped_in_host a = true /\ unescaped_in_host b = true
  /\ Ascii.eqb a "%" = false /\ Ascii.eqb b "%" = false
  /\ Ascii.eqb a "]" = false /\ Ascii.eqb b "]" = false
  /\ unhex2 a b = c
  /\ (unhex a <? 8)%N = negb (byte_le "128" c)
  /\ String.eqb (hex_escape c) "%25" = Ascii.eqb c "%"
  /\ has_prefix (hex_escape c) "%25" = Ascii.eqb c "%".
Proof.
  destruct c as [[] [] [] [] [] [] [] []]; vm_compute; repeat split.
Qed.

Lemma escaped_byte_facts (c : ascii) :
  shouldEscape c encodeHost = true ->
  Ascii.eqb c "]" = false /\ Ascii.eqb c ":" = false /\ Ascii.eqb c "[" = false
  /\ is_digit c = false.
Proof.
  destruct c as [[] [] [] [] [] [] [] []]; vm_compute; intros H;
    try discriminate H; repeat split.
Qed.

Lemma percent_or_unescaped_facts (c : ascii) :
  unescaped_in_host c || Ascii.eqb c "%" = true ->
  is_not "/" c = true /\ is_not "?" c = true /\ is_not "@" c = true
  /\ negb (negb (byte_le " " c) || Ascii.eqb c "127") = true.
Proof.
  destruct c as [[] [] [] [] [] [] [] []]; vm_compute; intros H;
    try discriminate H; repeat split.
Qed.


(** *** Escaping and unescaping a host *)

Lemma escape_app (a b : string) (mode : encoding) :
  escape (a ++ b) mode = escape a mode ++ escape b mode.
Proof.
  induction a as [| c a IH]; [reflexivity |].
  cbn [append escape]. rewrite IH.
  destruct (Ascii.eqb c " " && _); [reflexivity |].
  destruct (shouldEscape c mode); reflexivity.
Qed.

Lemma escape_cons_escaped (c : ascii) (r : string) :
  shouldEscape c encodeHost = true ->
  escape (String c r) encodeHost = hex_escape c ++ escape r encodeHost.
Proof.
  intros H. cbn [escape]. now rewrite H, andb_false_r.
Qed.

Lemma escape_cons_unescaped (c : ascii) (r : string) :
  shouldEscape c encodeHost = false ->
  escape (String c r) encodeHost = String c (escape r encodeHost).
Proof.
  intros H. cbn [escape]. now rewrite H, andb_false_r.
Qed.

Lemma unescape_check_hex_escape_host (c : ascii) (r : string) :
  shouldEscape c encodeHost = true ->
  unescape_check (hex_escape c ++ r) encodeHost
  = if host_byte_reparses c then unescape_check r encodeHost
    else Some (EscapeError (hex_escape c)).
Proof.
  intros H.
  destruct (hex_escape_facts c) as (Ha & Hb & _ & _ & _ & _ & _ & _ & _ & Hlt & Heq & _).
  unfold hex_escape in *. cbn [append unescape_check].
  change (Ascii.eqb "%" "%") with true. cbv iota.
  rewrite Ha, Hb, Hlt, Heq. cbn [andb negb].
  unfold host_byte_reparses, unescaped_in_host. rewrite H. cbn [negb orb].
  destruct (Ascii.eqb c "%"), (byte_le "128" c); reflexivity.
Qed.

Lemma unescape_check_hex_escape_zone (c : ascii) (r : string) :
  shouldEscape c encodeHost = true ->
  unescape_check (hex_escape c ++ r) encodeZone
  = if zone_byte_reparses c then unescape_check r encodeZone
    else Some (EscapeError (hex_escape c)).
Proof.
  intros H.
  destruct (hex_escape_facts c) as (Ha & Hb & _ & _ & _ & _ & _ & _ & Hc & _ & Heq & _).
  unfold hex_escape in *. cbn [append unescape_check].
  change (Ascii.eqb "%" "%") with true. cbv iota.
  rewrite Ha, Hb, Hc, Heq, H. cbn [andb negb].
  unfold zone_byte_reparses, unescaped_in_host. rewrite H. cbn [negb orb].
  destruct (Ascii.eqb c "%"), (Ascii.eqb c " "); reflexivity.
Qed.

Lemma unescape_check_unescaped (c : ascii) (r : string) (mode : encoding) :
  is_host_or_zone mode = true ->
  shouldEscape c encodeHost = false ->
  unescape_check (String c r) mode = unescape_check r mode.
Proof.
  intros Hm H.
  assert (Hu : unescaped_in_host c = true) by (unfold unescaped_in_host; now rewrite H).
  destruct (unescaped_in_host_facts c Hu) as (_ & _ & _ & Hpct & _).
  cbn [unescape_check]. rewrite Hpct, H, andb_false_r.
  now destruct (Ascii.eqb c "+").
Qed.

Lemma unescape_decode_hex_escape (c : ascii) (r : string) (mode : encoding) :
  unescape_decode (hex_escape c ++ r) mode = String c (unescape_decode r mode).
Proof.
  destruct (hex_escape_facts c) as (_ & _ & _ & _ & _ & _ & _ & _ & Hc & _).
  unfold hex_escape. cbn [append unescape_decode].
  change (Ascii.eqb "%" "%") with true. cbv iota. now rewrite Hc.
Qed.

Lemma unescape_decode_unescaped (c : ascii) (r : string) (mode : encoding) :
  is_host_or_zone mode = true ->
  shouldEscape c encodeHost = false ->
  unescape_decode (String c r) mode = String c (unescape_decode r mode).
Proof.
  intros Hm H.
  assert (Hu : unescaped_in_host c = true) by (unfold unescaped_in_host; now rewrite H).
  destruct (unescaped_in_host_facts c Hu) as (_ & _ & _ & Hpct & _).
  cbn [unescape_decode]. rewrite Hpct.
  destruct (Ascii.eqb_spec c "+") as [-> | _]; [| reflexivity].
  now destruct mode.
Qed.

Lemma unescape_decode_escape (s : string) (mode : encoding) :
  is_host_or_zone mode = true ->
  unescape_decode (escape s encodeHost) mode = s.
Proof.
  intros Hm. induction s as [| c s IH]; [reflexivity |].
  destruct (shouldEscape c encodeHost) eqn:H.
  - now rewrite (escape_cons_escaped _ _ H), unescape_decode_hex_escape, IH.
  - now rewrite (escape_cons_unescaped _ _ H), (unescape_decode_unescaped _ _ _ Hm H), IH.
Qed.

Section Unescape.

Variables (mode : encoding) (reparses : ascii -> bool).
Hypothesis Hmode : is_host_or_zone mode = true.
Hypothesis Hescaped : forall c r,
  shouldEscape c encodeHost = true ->
  unescape_check (hex_escape c ++ r) mode
  = if reparses c then unescape_check r mode else Some (EscapeError (hex_escape c)).
Hypothesis Hunescaped : forall c, shouldEscape c encodeHost = false -> reparses c = true.

Lemma unescape_check_escape (s : string) :
  match unescape_check (escape s encodeHost) mode with
  | None => all_bytes reparses s = true
  | Some _ => all_bytes reparses s = false
  end.
Proof.
  induction s as [| c s IH]; [reflexivity |].
  cbn [all_bytes]. destruct (shouldEscape c encodeHost) eqn:H.
  - rewrite (escape_cons_escaped _ _ H), (Hescaped _ _ H).
    destruct (reparses c); [exact IH | reflexivity].
  - rewrite (escape_cons_unescaped _ _ H), (unescape_check_unescaped _ _ _ Hmode H).
    rewrite (Hunescaped _ H). exact IH.
Qed.

Lemma unescape_escape (s : string) :
  if all_bytes reparses s then unescape (escape s encodeHost) mode = Ok s
  else exists e, unescape (escape s encodeHost) mode = Err e.
Proof.
  unfold unescape. pose proof (unescape_check_escape s) as H.
  destruct (unescape_check (escape s encodeHost) mode) as [e |]; rewrite H.
  - now exists e.
  - now rewrite (unescape_decode_escape _ _ Hmode).
Qed.

End Unescape.

Lemma unescaped_host_byte_reparses (c : ascii) :
  shouldEscape c encodeHost = false -> host_byte_reparses c = true.
Proof.
  intros H. unfold host_byte_reparses, unescaped_in_host. now rewrite H.
Qed.

Lemma unescaped_zone_byte_reparses (c : ascii) :
  shouldEscape c encodeHost = false -> zone_byte_reparses c = true.
Proof.
  intros H. unfold zone_byte_reparses, unescaped_in_host. now rewrite H.
Qed.

Lemma unescape_escape_host (s : string) :
  if all_bytes host_byte_reparses s then unescape (escape s encodeHost) encodeHost = Ok s
  else exists e, unescape (escape s encodeHost) encodeHost = Err e.
Proof.
  apply unescape_escape;
    [reflexivity | apply unescape_check_hex_escape_host | apply unescaped_host_byte_reparses].
Qed.

Lemma unescape_escape_zone (s : string) :
  if all_bytes zone_byte_reparses s then unescape (escape s encodeHost) encodeZone = Ok s
  else exists e, unescape (escape s encodeHost) encodeZone = Err e.
Proof.
  apply unescape_escape;
    [reflexivity | apply unescape_check_hex_escape_zone | apply unescaped_zone_byte_reparses].
Qed.

(** *** Searching the escaped text *)

Lemma prefix_has_prefix (p s : string) : String.prefix p s = has_prefix s p.
Proof.
  revert s. induction p as [| a p IH]; intros [| b s]; try reflexivity.
  cbn [String.prefix has_prefix].
  destruct (ascii_dec a b) as [-> | NE].
  - now rewrite Ascii.eqb_refl, IH.
  - apply Ascii.eqb_neq in NE. now rewrite NE.
Qed.

Lemma index_cons (p : string) (c : ascii) (r : string) :
  String.index 0 p (String c r)
  = if has_prefix (String c r) p then Some 0%nat
    else option_map S (String.index 0 p r).
Proof.
  cbn [String.index]. rewrite prefix_has_prefix.
  destruct (has_prefix (String c r) p); [reflexivity |].
  now destruct (String.index 0 p r).
Qed.

Lemma hex_escape_percent (c : ascii) :
  Ascii.eqb "2" (upperhex (N.shiftr (N_of_ascii c) 4))
  && (Ascii.eqb "5" (upperhex (N.land (N_of_ascii c) 15)) && true)
  = Ascii.eqb c "%"
  /\ Ascii.eqb "%" (upperhex (N.shiftr (N_of_ascii c) 4)) = false
  /\ Ascii.eqb "%" (upperhex (N.land (N_of_ascii c) 15)) = false.
Proof.
  destruct c as [[] [] [] [] [] [] [] []]; vm_compute; repeat split.
Qed.

Lemma append_assoc (a b c : string) : (a ++ b) ++ c = a ++ (b ++ c).
Proof.
  induction a as [| x a IH]; cbn [append]; [reflexivity | now rewrite IH].
Qed.

Lemma string_length_app (a b : string) :
  String.length (a ++ b) = (String.length a + String.length b)%nat.
Proof.
  induction a as [| c a IH]; simpl; [reflexivity | now rewrite IH].
Qed.

Lemma index_percent_escape (s : string) :
  String.index 0 "%25" (escape s encodeHost)
  = match cut "%" s with
    | Some (a, _) => Some (String.length (escape a encodeHost))
    | None => None
    end.
Proof.
  induction s as [| c s IH]; [reflexivity |].
  destruct (hex_escape_percent c) as (Hpct & Ha & Hb).
  cbn [cut]. destruct (shouldEscape c encodeHost) eqn:H.
  - rewrite (escape_cons_escaped _ _ H). unfold hex_escape. cbn [append].
    rewrite index_cons. cbn [has_prefix]. change (Ascii.eqb "%" "%") with true.
    cbn [andb]. rewrite Hpct.
    destruct (Ascii.eqb c "%"); [reflexivity |].
    rewrite index_cons. cbn [has_prefix]. rewrite Ha. cbn [andb].
    rewrite index_cons. cbn [has_prefix]. rewrite Hb. cbn [andb].
    rewrite IH. destruct (cut "%" s) as [[a b] |]; [| reflexivity].
    rewrite (escape_cons_escaped _ _ H). reflexivity.
  - assert (Hu : unescaped_in_host c = true) by (unfold unescaped_in_host; now rewrite H).
    destruct (unescaped_in_host_facts c Hu) as (_ & _ & _ & Hc & _).
    rewrite (escape_cons_unescaped _ _ H), index_cons. cbn [has_prefix].
    rewrite (Ascii.eqb_sym "%" c), Hc. cbn [andb]. rewrite IH.
    destruct (cut "%" s) as [[a b] |]; [| reflexivity].
    rewrite (escape_cons_unescaped _ _ H). reflexivity.
Qed.

Lemma cut_spec (sep : ascii) (s a b : string) :
  cut sep s = Some (a, b) -> s = a ++ String sep b.
Proof.
  revert a. induction s as [| c s IH]; intros a; [discriminate |].
  cbn [cut]. destruct (Ascii.eqb_spec c sep) as [-> | _].
  - now intros [= <- <-].
  - destruct (cut sep s) as [[a' b'] |]; [| discriminate].
    intros [= <- <-]. cbn [append]. now rewrite <- (IH a' eq_refl).
Qed.

Lemma cut_last_spec (sep : ascii) (s a b : string) :
  cut_last sep s = Some (a, b) -> s = a ++ String sep b.
Proof.
  revert a. induction s as [| c s IH]; intros a; [discriminate |].
  cbn [cut_last]. destruct (cut_last sep s) as [[a' b'] |].
  - intros [= <- <-]. cbn [append]. now rewrite <- (IH a' eq_refl).
  - destruct (Ascii.eqb_spec c sep) as [-> | _]; [| discriminate].
    now intros [= <- <-].
Qed.

Lemma cut_last_escape (s : string) :
  cut_last "]" (escape s encodeHost)
  = match cut_last "]" s with
    | Some (a, b) => Some (escape a encodeHost, escape b encodeHost)
    | None => None
    end.
Proof.
  induction s as [| c s IH]; [reflexivity |].
  cbn [cut_last]. destruct (shouldEscape c encodeHost) eqn:H.
  - destruct (hex_escape_facts c) as (_ & _ & _ & _ & _ & _ & Ha & Hb & _).
    destruct (escaped_byte_facts c H) as (Hc & _).
    rewrite (escape_cons_escaped _ _ H). unfold hex_escape. cbn [append cut_last].
    rewrite IH. destruct (cut_last "]" s) as [[a b] |].
    + rewrite (escape_cons_escaped _ _ H). reflexivity.
    + rewrite Ha, Hb, Hc. reflexivity.
  - rewrite (escape_cons_unescaped _ _ H). cbn [cut_last].
    rewrite IH. destruct (cut_last "]" s) as [[a b] |].
    + rewrite (escape_cons_unescaped _ _ H). reflexivity.
    + now destruct (Ascii.eqb c "]").
Qed.

Lemma cut_last_app_r (sep : ascii) (a b : string) :
  all_bytes (is_not sep) b = true ->
  cut_last sep (a ++ b)
  = match cut_last sep a with
    | Some (x, y) => Some (x, y ++ b)
    | None => None
    end.
Proof.
  intros Hb. induction a as [| c a IH]; cbn [append cut_last].
  - now apply cut_last_none.
  - rewrite IH. destruct (cut_last sep a) as [[x y] |]; [reflexivity |].
    now destruct (Ascii.eqb c sep).
Qed.

Lemma substring_app_l (a b : string) : substring 0 (String.length a) (a ++ b) = a.
Proof.
  induction a as [| c a IH]; cbn [String.length append substring].
  - now destruct b.
  - now rewrite IH.
Qed.

Lemma substring_app_r (a b : string) :
  substring (String.length a) (String.length b) (a ++ b) = b.
Proof.
  induction a as [| c a IH]; cbn [String.length append substring].
  - apply substring_all.
  - exact IH.
Qed.

Lemma from_app (a b : string) : from (String.length a) (a ++ b) = b.
Proof.
  unfold from. rewrite string_length_app.
  replace (String.length a + String.length b - String.length a)%nat
    with (String.length b) by lia.
  apply substring_app_r.
Qed.

(** *** The port *)

Lemma string_of_uint_unescaped (d : Decimal.uint) :
  all_bytes unescaped_in_host (NilEmpty.string_of_uint d) = true.
Proof.
  apply (all_bytes_impl is_digit); [apply is_digit_facts | apply string_of_uint_digits].
Qed.

Lemma itoa_unescaped (n : Z) : all_bytes unescaped_in_host (itoa n) = true.
Proof.
  unfold itoa. destruct n as [| q | q]; cbn [Z.to_int NilEmpty.string_of_int].
  - reflexivity.
  - apply string_of_uint_unescaped.
  - cbn [all_bytes]. now rewrite string_of_uint_unescaped.
Qed.

Lemma itoa_is_digit (n : Z) : all_bytes is_digit (itoa n) = (0 <=? n).
Proof.
  destruct (Z.leb_spec 0 n) as [H | H]; [now apply itoa_digits |].
  unfold itoa. destruct n as [| q | q]; [lia | lia | reflexivity].
Qed.

Lemma digit_or_minus_facts (c : ascii) :
  is_digit c || Ascii.eqb c "-" = true ->
  is_not ":" c = true /\ is_not "]" c = true.
Proof.
  destruct c as [[] [] [] [] [] [] [] []]; vm_compute; intros H;
    try discriminate H; split; reflexivity.
Qed.

Lemma itoa_bytes (n : Z) :
  all_bytes (fun c => is_digit c || Ascii.eqb c "-") (itoa n) = true.
Proof.
  unfold itoa. destruct n as [| q | q]; cbn [Z.to_int NilEmpty.string_of_int].
  - reflexivity.
  - apply (all_bytes_impl is_digit); [| apply string_of_uint_digits].
    intros c ->. reflexivity.
  - cbn [all_bytes]. change (is_digit "-" || Ascii.eqb "-" "-") with true. cbn [andb].
    apply (all_bytes_impl is_digit); [| apply string_of_uint_digits].
    intros c ->. reflexivity.
Qed.

Lemma itoa_without_colon (n : Z) : all_bytes (is_not ":") (itoa n) = true.
Proof.
  apply (all_bytes_impl (fun c => is_digit c || Ascii.eqb c "-")); [| apply itoa_bytes].
  intros c Hc. apply (digit_or_minus_facts c Hc).
Qed.

Lemma itoa_without_bracket (n : Z) : all_bytes (is_not "]") (itoa n) = true.
Proof.
  apply (all_bytes_impl (fun c => is_digit c || Ascii.eqb c "-")); [| apply itoa_bytes].
  intros c Hc. apply (digit_or_minus_facts c Hc).
Qed.

Lemma escape_host_port (h : string) (port : Z) :
  escape (host_port h port) encodeHost = escape h encodeHost ++ String ":" (itoa port).
Proof.
  rewrite host_port_cons, escape_app. f_equal.
  apply escape_unescaped. cbn [all_bytes].
  now rewrite itoa_unescaped.
Qed.

Lemma all_bytes_host_port (h : string) (port : Z) :
  all_bytes host_byte_reparses (host_port h port) = all_bytes host_byte_reparses h.
Proof.
  rewrite host_port_cons, all_bytes_app. cbn [all_bytes].
  change (host_byte_reparses ":") with true. cbn [andb].
  rewrite (all_bytes_impl unescaped_in_host host_byte_reparses (itoa port)).
  - apply andb_true_r.
  - intros c Hc. unfold host_byte_reparses. now rewrite Hc.
  - apply itoa_unescaped.
Qed.

(** *** Parsing the escaped host *)

Lemma has_prefix_bracket_escape (h t : string) :
  has_prefix (escape h encodeHost ++ String ":" t) "[" = has_prefix h "[".
Proof.
  destruct h as [| c h]; [reflexivity |].
  destruct (shouldEscape c encodeHost) eqn:H.
  - destruct (escaped_byte_facts c H) as (_ & _ & Hc & _).
    rewrite (escape_cons_escaped _ _ H). unfold hex_escape. cbn [append has_prefix].
    now rewrite (Ascii.eqb_sym "[" c), Hc.
  - rewrite (escape_cons_unescaped _ _ H). reflexivity.
Qed.

Lemma validOptionalPort_after (after : string) (port : Z) :
  validOptionalPort (escape after encodeHost ++ String ":" (itoa port))
  = is_empty after && (0 <=? port).
Proof.
  destruct after as [| c r].
  - cbn [escape append validOptionalPort is_empty andb].
    change (Ascii.eqb ":" ":") with true. cbn [andb]. apply itoa_is_digit.
  - cbn [is_empty andb]. destruct (shouldEscape c encodeHost) eqn:H.
    + rewrite (escape_cons_escaped _ _ H). reflexivity.
    + rewrite (escape_cons_unescaped _ _ H). cbn [append validOptionalPort].
      rewrite all_bytes_app. cbn [all_bytes].
      change (is_digit ":") with false. cbn [andb].
      now rewrite !andb_false_r.
Qed.

Lemma unescape_bracket_port (port : Z) :
  unescape (String "]" (String ":" (itoa port))) encodeHost
  = Ok (String "]" (String ":" (itoa port))).
Proof.
  apply unescape_unescaped. cbn [all_bytes]. now rewrite itoa_unescaped.
Qed.

Lemma parseHost_escape (h : string) (port : Z) :
  if host_reparses h && (0 <=? port)
  then parseHost (escape (host_port h port) encodeHost) = Ok (host_port h port)
  else exists e, parseHost (escape (host_port h port) encodeHost) = Err e.
Proof.
  pose proof (unescape_escape_host (host_port h port)) as Hwhole.
  rewrite all_bytes_host_port in Hwhole.
  rewrite escape_host_port in *.
  unfold parseHost, host_reparses.
  rewrite has_prefix_bracket_escape.
  destruct (has_prefix h "[").
  - rewrite cut_last_app_r by (cbn [all_bytes]; now rewrite itoa_without_bracket).
    rewrite cut_last_escape.
    destruct (cut_last "]" h) as [[literal after] |] eqn:Ecut; [| now eexists].
    rewrite validOptionalPort_after.
    destruct (is_empty after) eqn:Eafter; [| now eexists].
    destruct after; [| discriminate Eafter]. clear Eafter.
    apply cut_last_spec in Ecut. subst h.
    destruct (Z.leb_spec 0 port) as [Hport | Hport];
      [| rewrite andb_false_r; now eexists].
    cbn [andb negb escape append]. rewrite andb_true_r.
    rewrite index_percent_escape.
    destruct (cut "%" literal) as [[address zone] |] eqn:Ezone.
    + apply cut_spec in Ezone. subst literal.
      rewrite escape_app, substring_app_l, from_app.
      pose proof (unescape_escape_host address) as H1.
      pose proof (unescape_escape_zone (String "%" zone)) as H2.
      cbn [all_bytes] in H2. change (zone_byte_reparses "%") with true in H2.
      cbn [andb] in H2.
      destruct (all_bytes host_byte_reparses address).
      * rewrite H1. cbn [bind].
        destruct (all_bytes zone_byte_reparses zone).
        -- rewrite H2. cbn [bind]. rewrite unescape_bracket_port. cbn [bind andb].
           f_equal. rewrite host_port_cons, !append_assoc. reflexivity.
        -- destruct H2 as [e ->]. now eexists.
      * destruct H1 as [e ->]. now eexists.
    + rewrite all_bytes_app in Hwhole. cbn [all_bytes] in Hwhole.
      change (host_byte_reparses "]") with true in Hwhole.
      cbn [andb] in Hwhole. rewrite andb_true_r in Hwhole.
      exact Hwhole.
  - rewrite cut_last_app by apply itoa_without_colon.
    cbn [validOptionalPort]. change (Ascii.eqb ":" ":") with true. cbn [andb].
    rewrite itoa_is_digit.
    destruct (Z.leb_spec 0 port) as [Hport | Hport];
      [| rewrite andb_false_r; now eexists].
    cbn [negb]. rewrite andb_true_r. exact Hwhole.
Qed.

(** *** The text of a guessed URL, and its parse *)

Lemma escape_bytes (s : string) :
  all_bytes (fun c => unescaped_in_host c || Ascii.eqb c "%") (escape s encodeHost) = true.
Proof.
  induction s as [| c s IH]; [reflexivity |].
  destruct (shouldEscape c encodeHost) eqn:H.
  - destruct (hex_escape_facts c) as (_ & _ & Ha & Hb & _).
    rewrite (escape_cons_escaped _ _ H). unfold hex_escape. cbn [append all_bytes].
    rewrite Ha, Hb, IH. reflexivity.
  - rewrite (escape_cons_unescaped _ _ H). cbn [all_bytes].
    unfold unescaped_in_host at 1. rewrite H, IH. reflexivity.
Qed.

Lemma URL_String_guess_escaped (dev : bool) (h : string) (port : Z) :
  URL_String (guess_url dev h port)
  = (if dev then "http" else "https") ++ "://"
    ++ escape (host_port h port) encodeHost ++ "/".
Proof.
  unfold URL_String, guess_url, EscapedPath.
  cbn [Scheme Opaque User Host Path RawPath ForceQuery RawQuery Fragment].
  rewrite host_port_cons, !is_empty_app_cons.
  destruct dev; reflexivity.
Qed.

(** The text of a guessed URL parses as its host does. *)
Lemma ParseRequestURI_guess_escaped (dev : bool) (e : string) :
  all_bytes (fun c => unescaped_in_host c || Ascii.eqb c "%") e = true ->
  ParseRequestURI ((if dev then "http" else "https") ++ "://" ++ e ++ "/")
  = match parseHost e with
    | Ok host =>
        Ok {| Scheme := if dev then "http" else "https"; Opaque := ""; User := None;
              Host := host; Path := "/"; RawPath := ""; ForceQuery := false;
              RawQuery := ""; Fragment := "" |}
    | Err err => Err err
    end.
Proof.
  intros He.
  assert (Hwithout : forall sep, sep = "/"%char \/ sep = "?"%char \/ sep = "@"%char ->
                                 all_bytes (is_not sep) e = true).
  { intros sep Hsep.
    apply (all_bytes_impl (fun c => unescaped_in_host c || Ascii.eqb c "%")); [| exact He].
    intros c Hc. destruct (percent_or_unescaped_facts c Hc) as (H1 & H2 & H3 & _).
    now destruct Hsep as [-> | [-> | ->]]. }
  assert (Hctl : stringContainsCTLByte (e ++ "/") = false).
  { unfold stringContainsCTLByte. rewrite any_byte_app. cbn [any_byte].
    change (negb (byte_le " " "/") || Ascii.eqb "/" "127") with false.
    cbn [orb]. rewrite orb_false_r. apply any_byte_none.
    apply (all_bytes_impl (fun c => unescaped_in_host c || Ascii.eqb c "%")); [| exact He].
    intros c Hc. now destruct (percent_or_unescaped_facts c Hc) as (_ & _ & _ & H). }
  set (scheme := if dev then "http" else "https").
  assert (Hq : all_bytes (is_not "?") (e ++ "/") = true).
  { rewrite all_bytes_app, Hwithout by (right; now left). reflexivity. }
  assert (Hs : all_bytes (is_not "/") e = true) by (apply Hwithout; now left).
  unfold ParseRequestURI.
  assert (E1 : stringContainsCTLByte (scheme ++ "://" ++ e ++ "/") = false).
  { unfold stringContainsCTLByte in *. subst scheme. destruct dev; simpl; exact Hctl. }
  rewrite E1.
  assert (E2 : is_empty (scheme ++ "://" ++ e ++ "/") = false)
    by (subst scheme; now destruct dev).
  rewrite E2.
  assert (E3 : String.eqb (scheme ++ "://" ++ e ++ "/") "*" = false)
    by (subst scheme; now destruct dev).
  rewrite E3.
  assert (E4 : getScheme (scheme ++ "://" ++ e ++ "/")
               = Ok (scheme, String "/" (String "/" (e ++ "/"))))
    by (subst scheme; now destruct dev).
  rewrite E4. cbn [bind fst snd].
  assert (E5 : count_byte "?" (String "/" (String "/" (e ++ "/"))) = 0%nat)
    by (apply count_byte_none; simpl; exact Hq).
  rewrite E5. cbn [Nat.eqb]. rewrite andb_false_r.
  assert (E6 : split (String "/" (String "/" (e ++ "/"))) "?" true
               = (String "/" (String "/" (e ++ "/")), ""))
    by (unfold split; rewrite cut_none; [reflexivity | simpl; exact Hq]).
  rewrite E6. cbn [has_prefix Ascii.eqb Bool.eqb andb negb].
  assert (E7 : is_empty (to_lower scheme) = false) by (subst scheme; now destruct dev).
  rewrite E7. cbn [negb andb]. rewrite from_2.
  assert (E8 : split (e ++ "/") "/" false = (e, "/"))
    by (unfold split; now rewrite (cut_app "/" e "" Hs)).
  rewrite E8. unfold parseAuthority.
  rewrite (cut_last_none "@") by (apply Hwithout; right; now right).
  destruct (parseHost e) as [host | err]; [| reflexivity].
  cbn [bind fst snd].
  change (unescape "/" encodePath) with (@Ok Error string "/"). cbn [bind].
  subst scheme. destruct dev; reflexivity.
Qed.

(** The text of a guessed URL parses back to the guess for the hosts of
    [host_reparses] and the ports that are not negative, and for no others. *)
Lemma ParseRequestURI_URL_String_guess (dev : bool) (h : string) (port : Z) :
  if host_reparses h && (0 <=? port)
  then ParseRequestURI (URL_String (guess_url dev h port)) = Ok (guess_url dev h port)
  else exists e, ParseRequestURI (URL_String (guess_url dev h port)) = Err e.
Proof.
  rewrite URL_String_guess_escaped, ParseRequestURI_guess_escaped by apply escape_bytes.
  pose proof (parseHost_escape h port) as H.
  destruct (host_reparses h && (0 <=? port)).
  - rewrite H. reflexivity.
  - destruct H as [e ->]. now exists e.
Qed.

(** The bytes that a host may hold, listed. *)
Lemma host_byte_reparses_bytes (c : ascii) :
  host_byte_reparses c
  = negb (negb (byte_le "!" c) || Ascii.eqb c "127"
          || one_of ["#"; "/"; "?"; "@"; "092"; "^"; "`"; "{"; "|"; "}"]%char c).
Proof.
  destruct c as [[] [] [] [] [] [] [] []]; reflexivity.
Qed.

Lemma zone_byte_reparses_bytes (c : ascii) :
  zone_byte_reparses c
  = negb (negb (byte_le " " c) || byte_le "127" c
          || one_of ["#"; "/"; "?"; "@"; "092"; "^"; "`"; "{"; "|"; "}"]%char c).
Proof.
  destruct c as [[] [] [] [] [] [] [] []]; reflexivity.
Qed.

End Reparse.

(** The claim read literally fails: a host with a space is written with an
    escape that the parser refuses in a host. *)
Lemma guessBaseURL_with_space_does_not_reparse :
  ~ (forall (env : Env) (p : MemSource.t) (keyHost keyPort : string) (defaultPort : Z),
        NetURL.ParseRequestURI
          (NetURL.URL_String (Config.guessBaseURL env p keyHost keyPort defaultPort))
        = Ok (Config.guessBaseURL env p keyHost keyPort defaultPort)).
Proof.
  intros H.
  specialize (H Examples.host_env (Examples.public_host "a b")
                "serve.public.host" "serve.public.port" 4433).
  vm_compute in H. discriminate H.
Qed.

(** C9 (amended): for every insecure-dev-mode setting, parsing the string
    form of the URL produced by guessBaseURL as a request URI succeeds and
    yields a URL equal to the one guessBaseURL produced exactly when the port
    is not negative and the host passes [host_reparses]; in every other case
    the parse fails. The host is the one the guess uses: the configured one,
    or the fallback when that is empty or [0.0.0.0]. It passes when it holds
    no space, control byte or DEL and none of [# / ? @ \ ^ ` { | }]
    ([Reparse.host_byte_reparses_bytes]); a host that starts with a bracket
    must end with the closing bracket, and after its first percent sign it
    may hold spaces but no byte from 128 on
    ([Reparse.zone_byte_reparses_bytes]). *)
Theorem guessBaseURL_reparses_to_itself {P : Type} {prov : Provider P}
  (env : Env) (p : P) (keyHost keyPort : string) (defaultPort : Z) :
  let configured := p_String p keyHost in
  let host :=
    if String.eqb configured "" || String.eqb configured "0.0.0.0"
    then fallback_host env else configured in
  let port := p_IntF p keyPort defaultPort in
  let guess := Config.guessBaseURL env p keyHost keyPort defaultPort in
  (host_reparses host = true -> 0 <= port ->
   NetURL.ParseRequestURI (NetURL.URL_String guess) = Ok guess)
  /\ (host_reparses host = false \/ port < 0 ->
      exists e, NetURL.ParseRequestURI (NetURL.URL_String guess) = Err e).
Proof.
  cbv zeta. rewrite guessBaseURL_amended_guess. unfold amended_guess.
  set (host := if String.eqb (p_String p keyHost) ""
                  || String.eqb (p_String p keyHost) "0.0.0.0"
               then fallback_host env else p_String p keyHost).
  pose proof (Reparse.ParseRequestURI_URL_String_guess
                (p_Bool p "dev") host (p_IntF p keyPort defaultPort)) as H.
  split.
  - intros Hhost Hport. rewrite Hhost in H.
    destruct (Z.leb_spec 0 (p_IntF p keyPort defaultPort)); [exact H | lia].
  - intros Hno.
    destruct (Z.leb_spec 0 (p_IntF p keyPort defaultPort)) as [Hport | Hport].
    + destruct Hno as [Hhost | Hneg]; [| lia]. rewrite Hhost in H. exact H.
    + rewrite andb_false_r in H. exact H.
Qed.

Lemma guessBaseURL_reparses_to_itself_witness :
  NetURL.URL_String
    (Config.guessBaseURL Examples.host_env (Examples.public_host "[fe80::1%en0]")
       "serve.public.host" "serve.public.port" 4433)
  = "https://[fe80::1%25en0]:4433/"
  /\ NetURL.ParseRequestURI
       (NetURL.URL_String
          (Config.guessBaseURL Examples.host_env (Examples.public_host "[fe80::1%en0]")
             "serve.public.host" "serve.public.port" 4433))
     = Ok (Config.guessBaseURL Examples.host_env (Examples.public_host "[fe80::1%en0]")
             "serve.public.host" "serve.public.port" 4433)
  /\ exists e,
       NetURL.ParseRequestURI
         (NetURL.URL_String
            (Config.guessBaseURL Examples.host_env (Examples.public_host "a/b")
               "serve.public.host" "serve.public.port" 4433))
       = Err e.
Proof.
  split; [reflexivity |]. split.
  - refine (proj1 (guessBaseURL_reparses_to_itself Examples.host_env
                     (Examples.public_host "[fe80::1%en0]")
                     "serve.public.host" "serve.public.port" 4433) _ _).
    + reflexivity.
    + vm_compute. intros H. discriminate H.
  - refine (proj2 (guessBaseURL_reparses_to_itself Examples.host_env
                     (Examples.public_host "a/b")
                     "serve.public.host" "serve.public.port" 4433) _).
    left. reflexivity.
Defined.

(** ** Further properties of the accessors *)

(** X2, session secrets: a configured [secrets.cookie] list is returned as it is
    and nothing is written; an empty one falls back to SecretsDefault(), so
    that no second secret is generated. *)
Theorem SecretsSession_configured_or_default
  {P : Type} {prov : Provider P} (p : P) (fresh : string) :
  (p_Strings p "secrets.cookie" = [] ->
   Config.SecretsSession fresh p = Config.SecretsDefault fresh p)
  /\ (p_Strings p "secrets.cookie" <> [] ->
      Config.SecretsSession fresh p
      = Returns {| Config.value := map list_byte_of_string (p_Strings p "secrets.cookie");
                   Config.source := p;
                   Config.sets := [] |}).
Proof.
  unfold Config.SecretsSession.
  change Config.ViperKeySecretsCookie with "secrets.cookie".
  destruct (p_Strings p "secrets.cookie") as [| s l]; simpl; split.
  - reflexivity.
  - intros H. now elim H.
  - discriminate.
  - reflexivity.
Qed.

Lemma SecretsSession_configured_or_default_witness :
  Config.SecretsSession "0f3a7c52-9b1e-4d6a-8c2f-5e7d1a9b3c40" Examples.empty
  = Config.SecretsDefault "0f3a7c52-9b1e-4d6a-8c2f-5e7d1a9b3c40" Examples.empty.
Proof.
  apply (proj1 (SecretsSession_configured_or_default Examples.empty
                  "0f3a7c52-9b1e-4d6a-8c2f-5e7d1a9b3c40")).
  reflexivity.
Defined.

(** X3, listen addresses: the configured host followed by the port, where the
    port defaults to 4433 on the public and to 4434 on the admin interface; a
    port below 1 is fatal. *)
Theorem listenOn_host_and_port
  {P : Type} {prov : Provider P} {laws : ProviderLaws P} (p : P) :
  (forall port,
      port = p_IntF p "serve.public.port" 4433 ->
      (1 <= port ->
       Config.PublicListenOn p
       = Returns (p_String p "serve.public.host" ++ ":" ++ GoString.itoa port))
      /\ (port < 1 -> exists msg, Config.PublicListenOn p = Fatal msg))
  /\ (forall port,
         port = p_IntF p "serve.admin.port" 4434 ->
         (1 <= port ->
          Config.AdminListenOn p
          = Returns (p_String p "serve.admin.host" ++ ":" ++ GoString.itoa port))
         /\ (port < 1 -> exists msg, Config.AdminListenOn p = Fatal msg))
  /\ (p_Exists p "serve.public.port" = false ->
      Config.PublicListenOn p = Returns (p_String p "serve.public.host" ++ ":4433"))
  /\ (p_Exists p "serve.admin.port" = false ->
      Config.AdminListenOn p = Returns (p_String p "serve.admin.host" ++ ":4434")).
Proof.
  unfold Config.PublicListenOn, Config.AdminListenOn, Config.listenOn.
  change ("serve." ++ "public" ++ ".port") with "serve.public.port".
  change ("serve." ++ "public" ++ ".host") with "serve.public.host".
  change ("serve." ++ "admin" ++ ".port") with "serve.admin.port".
  change ("serve." ++ "admin" ++ ".host") with "serve.admin.host".
  cbn [String.eqb Ascii.eqb Bool.eqb].
  split; [| split; [| split]].
  - intros port ->. split; intros Hp.
    + destruct (Z.ltb_spec (p_IntF p "serve.public.port" 4433) 1); [lia | reflexivity].
    + destruct (Z.ltb_spec (p_IntF p "serve.public.port" 4433) 1); [now eexists | lia].
  - intros port ->. split; intros Hp.
    + destruct (Z.ltb_spec (p_IntF p "serve.admin.port" 4434) 1); [lia | reflexivity].
    + destruct (Z.ltb_spec (p_IntF p "serve.admin.port" 4434) 1); [now eexists | lia].
  - intros H. rewrite (IntF_absent _ _ _ H). reflexivity.
  - intros H. rewrite (IntF_absent _ _ _ H). reflexivity.
Qed.

Lemma listenOn_host_and_port_witness :
  Config.AdminListenOn Examples.dev_4455 = Returns ":4434".
Proof.
  refine (proj2 (proj2 (proj2 (listenOn_host_and_port Examples.dev_4455))) _).
  reflexivity.
Defined.

(** ** The in-memory source keeps the laws of the remaining methods *)

#[global] Instance MemSourceMore_laws : ProviderMoreLaws MemSource.t.
Proof.
  constructor.
  - intros p key. change (p_Int p key) with (MemSource.GetInt p key).
    unfold MemSource.GetInt.
    destruct (MemSource.Get p key); try lia.
    unfold GoInt.to_int.
    pose proof (Z.mod_pos_bound (n + 2 ^ 63) (2 ^ 64) ltac:(lia)). lia.
  - intros p key fb H. change (p_BoolF p key fb) with (MemSourceMore.GetBoolF p key fb).
    unfold MemSourceMore.GetBoolF.
    change (p_Exists p key) with (MemSource.Exists p key) in H. now rewrite H.
  - reflexivity.
Qed.

(** ** Looking up a schema *)

Lemma FindSchemaByID_app (a b : Schemas) (id : string) :
  ConfigAccessors.FindSchemaByID (a ++ b)%list id
  = match ConfigAccessors.FindSchemaByID a id with
    | Ok s => Ok s
    | Err _ => ConfigAccessors.FindSchemaByID b id
    end.
Proof.
  induction a as [| x a IH]; simpl; [reflexivity |].
  now destruct (String.eqb (schema_ID x) id).
Qed.

Lemma FindSchemaByID_found (ss : Schemas) (id : string) (s : Schema) :
  ConfigAccessors.FindSchemaByID ss id = Ok s -> In s ss /\ schema_ID s = id.
Proof.
  induction ss as [| x r IH]; simpl; [discriminate |].
  destruct (String.eqb_spec (schema_ID x) id) as [E | NE].
  - intros [= <-]. split; [now left | exact E].
  - intros H. destruct (IH H) as [Hin Hid]. split; [now right | exact Hid].
Qed.

(** X4: FindSchemaByID returns the first schema of the list that has the given
    ID, and fails exactly when no schema of the list has it. *)
Theorem FindSchemaByID_first_match (ss : Schemas) (id : string) :
  match ConfigAccessors.FindSchemaByID ss id with
  | Ok s =>
      exists before after,
        ss = (before ++ s :: after)%list
        /\ schema_ID s = id
        /\ forall x, In x before -> schema_ID x <> id
  | Err _ => forall x, In x ss -> schema_ID x <> id
  end.
Proof.
  induction ss as [| x r IH]; simpl.
  - intros x [].
  - destruct (String.eqb_spec (schema_ID x) id) as [E | NE].
    + exists [], r. repeat split; [exact E | intros y []].
    + destruct (ConfigAccessors.FindSchemaByID r id) as [s | e].
      * destruct IH as (before & after & -> & Hid & Hb).
        exists (x :: before), after. repeat split; [exact Hid |].
        intros y [<- | Hy]; [exact NE | now apply Hb].
      * intros y [<- | Hy]; [exact NE | now apply IH].
Qed.

Lemma IdentityTraitsSchemas_shape {P : Type} {prov : Provider P} {codec : Codec}
  (p : P) (ss : Schemas) :
  Config.IdentityTraitsSchemas p = Returns ss ->
  exists explicit u,
    NetURL.ParseRequestURI (p_String p "identity.default_schema_url") = Ok u
    /\ ss = (explicit ++ [{| schema_ID := "default";
                             schema_URL := NetURL.URL_String u |}])%list.
Proof.
  unfold Config.IdentityTraitsSchemas, Config.DefaultIdentityTraitsSchemaURL,
    Config.parseURIOrFail.
  change Config.ViperKeyDefaultIdentitySchemaURL with "identity.default_schema_url".
  destruct (NetURL.ParseRequestURI (p_String p "identity.default_schema_url"))
    as [u | e]; [| discriminate].
  destruct (negb (p_Exists p Config.ViperKeyIdentitySchemas)).
  { intros [= <-]. now exists [], u. }
  destruct (p_Marshal p) as [out | e]; [| discriminate].
  destruct (Nat.eqb _ 0).
  { intros [= <-]. now exists [], u. }
  destruct (json_Decode_Schemas _) as [explicit | e]; [| discriminate].
  intros [= <-]. now exists explicit, u.
Qed.

(** X5: in the list returned by IdentityTraitsSchemas(), the lookup of the ID
    [default] never fails. It finds the default schema appended last, unless
    an explicitly configured schema carries the ID [default]: the lookup then
    finds that one, which shadows the default schema. *)
Theorem IdentityTraitsSchemas_default_found
  {P : Type} {prov : Provider P} {codec : Codec} (p : P) (ss : Schemas) :
  Config.IdentityTraitsSchemas p = Returns ss ->
  exists explicit ds,
    ss = (explicit ++ [ds])%list
    /\ schema_ID ds = "default"
    /\ (exists s, ConfigAccessors.FindSchemaByID ss "default" = Ok s
                  /\ schema_ID s = "default")
    /\ ((forall x, In x explicit -> schema_ID x <> "default") ->
        ConfigAccessors.FindSchemaByID ss "default" = Ok ds)
    /\ (forall s, ConfigAccessors.FindSchemaByID explicit "default" = Ok s ->
                  ConfigAccessors.FindSchemaByID ss "default" = Ok s).
Proof.
  intros H. destruct (IdentityTraitsSchemas_shape p ss H) as (explicit & u & _ & ->).
  eexists explicit, _. split; [reflexivity |]. split; [reflexivity |].
  rewrite FindSchemaByID_app.
  destruct (ConfigAccessors.FindSchemaByID explicit "default") as [s | e] eqn:Hf.
  - destruct (FindSchemaByID_found _ _ _ Hf) as [Hin Hid].
    split; [now exists s |]. split; [| now intros s' [= <-]].
    intros Hnone. now elim (Hnone s Hin).
  - split; [now eexists |]. split; [reflexivity | discriminate].
Qed.

Lemma IdentityTraitsSchemas_default_found_witness :
  exists s,
    ConfigAccessors.FindSchemaByID
      [{| schema_ID := "default"; schema_URL := "file://stub/other.schema.json" |};
       {| schema_ID := "default"; schema_URL := Examples.schema_url |}] "default"
    = Ok s
    /\ schema_ID s = "default".
Proof.
  assert (H : Config.IdentityTraitsSchemas Examples.explicit_default_schema
              = Returns
                  [{| schema_ID := "default";
                      schema_URL := "file://stub/other.schema.json" |};
                   {| schema_ID := "default"; schema_URL := Examples.schema_url |}])
    by reflexivity.
  destruct (IdentityTraitsSchemas_default_found _ _ H) as (explicit & ds & _ & _ & Hs & _).
  exact Hs.
Defined.

(** ** Hooks and strategies never carry an empty configuration *)

(** X6: no hook returned by a hooks accessor has an empty configuration. *)
Theorem hooks_config_never_empty
  {P : Type} {prov : Provider P} {codec : Codec}
  (a : HooksAccessor) (p : P) (hooks : list SelfServiceHook) :
  hooks_of a p = Returns hooks ->
  forall h, In h hooks -> hook_Config h <> "".
Proof.
  rewrite hooks_of_key. unfold Config.selfServiceHooks.
  destruct (negb (p_Exists p (hooks_key a))).
  { intros [= <-] h []. }
  destruct (p_Marshal p) as [out | e]; [| discriminate].
  destruct (Nat.eqb _ 0).
  { intros [= <-] h []. }
  destruct (jsonx_Decode_Hooks _) as [decoded | e]; [| discriminate].
  intros [= <-] h Hin. apply in_map_iff in Hin as ([n c] & <- & _).
  simpl. destruct c; simpl; discriminate.
Qed.

Lemma hooks_config_never_empty_witness :
  hook_Config {| hook_Name := "revoke_active_sessions"; hook_Config := "{}" |} <> "".
Proof.
  assert (H : hooks_of (LoginAfterHooks "password") Examples.login_after_password_hook
              = Returns [{| hook_Name := "revoke_active_sessions"; hook_Config := "{}" |}])
    by reflexivity.
  apply (hooks_config_never_empty _ _ _ H). left. reflexivity.
Defined.

(** X7: the configuration of a strategy is never empty: it is the raw value
    found under the config key of the strategy when there is one, and [{}]
    otherwise, also when the document cannot be marshalled. When the enabled
    key exists, the flag is the one the source reads. *)
Theorem SelfServiceStrategy_config_never_empty
  {P : Type} {prov : Provider P} {codec : Codec} (p : P) (name : string) :
  strategy_Config (Config.SelfServiceStrategy p name) <> ""
  /\ (forall e, p_Marshal p = Err e ->
                strategy_Config (Config.SelfServiceStrategy p name) = "{}")
  /\ (forall out,
         p_Marshal p = Ok out ->
         strategy_Config (Config.SelfServiceStrategy p name)
         = if String.eqb (gjson_Raw out ("selfservice.methods." ++ name ++ ".config")) ""
           then "{}"
           else gjson_Raw out ("selfservice.methods." ++ name ++ ".config"))
  /\ (p_Exists p ("selfservice.methods." ++ name ++ ".enabled") = true ->
      strategy_Enabled (Config.SelfServiceStrategy p name)
      = p_Bool p ("selfservice.methods." ++ name ++ ".enabled")).
Proof.
  unfold Config.SelfServiceStrategy.
  change (Config.ViperKeySelfServiceStrategyConfig ++ "." ++ name ++ ".enabled")
    with ("selfservice.methods." ++ name ++ ".enabled").
  change (Config.ViperKeySelfServiceStrategyConfig ++ "." ++ name ++ ".config")
    with ("selfservice.methods." ++ name ++ ".config").
  set (ck := "selfservice.methods." ++ name ++ ".config").
  set (ek := "selfservice.methods." ++ name ++ ".enabled").
  remember (match p_Marshal p with
            | Ok out =>
                if Nat.ltb 0 (String.length (gjson_Raw out ck)) then gjson_Raw out ck
                else "{}"
            | Err _ => "{}"
            end) as cfg eqn:Ecfg.
  assert (Hcfg : cfg <> "").
  { subst cfg. destruct (p_Marshal p) as [out | e]; [| discriminate].
    destruct (gjson_Raw out ck); simpl; discriminate. }
  destruct cfg as [| c r]; [now elim Hcfg |].
  destruct (p_Exists p ek);
    destruct (String.eqb name "password" || String.eqb name "profile"
              || String.eqb name "link"); simpl.
  all: split; [discriminate |].
  all: split; [intros e He; rewrite He in Ecfg; exact Ecfg |].
  all: split;
    [intros out Hm; rewrite Hm in Ecfg;
     destruct (gjson_Raw out ck); simpl in *; exact Ecfg |].
  all: first [reflexivity | discriminate].
Qed.

(** ** The database connection string is never empty *)

(** X10: a connection string returned by DSN() is never empty, and is never
    the word [memory]. *)
Theorem DSN_never_empty_nor_memory {P : Type} {prov : Provider P} (p : P) (dsn : string) :
  Config.DSN p = Returns dsn -> dsn <> "" /\ dsn <> "memory".
Proof.
  unfold Config.DSN.
  destruct (String.eqb_spec (p_String p Config.ViperKeyDSN) "memory") as [E | NE].
  - intros [= <-]. split; discriminate.
  - destruct (p_String p Config.ViperKeyDSN) as [| c r]; simpl; [discriminate |].
    intros [= <-]. split; [discriminate | exact NE].
Qed.

Lemma DSN_never_empty_nor_memory_witness :
  "sqlite://:memory:?_fk=true" <> "" /\ "sqlite://:memory:?_fk=true" <> "memory".
Proof.
  assert (H : Config.DSN (Examples.dsn "memory") = Returns "sqlite://:memory:?_fk=true")
    by reflexivity.
  exact (DSN_never_empty_nor_memory _ _ H).
Defined.

(** ** Numeric fields *)

(** X8: the integer fields of the Argon2 parameters always lie in the range
    of their Go type, and a configured value inside that range is returned
    unchanged. *)
Theorem HasherArgon2_fields_in_range
  {P : Type} {prov : Provider P} (env : Env) (p : P) :
  let a := Config.HasherArgon2 env p in
  (0 <= Iterations a < 2 ^ 32
   /\ 0 <= Parallelism a < 2 ^ 8
   /\ 0 <= SaltLength a < 2 ^ 32
   /\ 0 <= KeyLength a < 2 ^ 32)
  /\ (forall n, p_IntF p "hashers.argon2.iterations" 1 = n ->
                0 <= n < 2 ^ 32 -> Iterations a = n)
  /\ (forall n, p_IntF p "hashers.argon2.parallelism" (Config.Argon2DefaultParallelism env) = n ->
                0 <= n < 2 ^ 8 -> Parallelism a = n)
  /\ (forall n, p_IntF p "hashers.argon2.salt_length" 16 = n ->
                0 <= n < 2 ^ 32 -> SaltLength a = n)
  /\ (forall n, p_IntF p "hashers.argon2.key_length" 32 = n ->
                0 <= n < 2 ^ 32 -> KeyLength a = n).
Proof.
  cbv zeta. unfold Config.HasherArgon2.
  cbn [Iterations Parallelism SaltLength KeyLength].
  unfold GoInt.to_uint32, GoInt.to_uint8.
  split; [| split; [| split; [| split]]].
  - repeat split; apply Z.mod_pos_bound; lia.
  - intros n <- Hn. now apply Z.mod_small.
  - intros n <- Hn. now apply Z.mod_small.
  - intros n <- Hn. now apply Z.mod_small.
  - intros n <- Hn. now apply Z.mod_small.
Qed.

Lemma HasherArgon2_fields_in_range_witness :
  Iterations (Config.HasherArgon2 Examples.host_env Examples.argon2_iterations_3) = 3.
Proof.
  refine (proj1 (proj2 (HasherArgon2_fields_in_range
                          Examples.host_env Examples.argon2_iterations_3)) 3 _ _).
  - reflexivity.
  - split; [discriminate | reflexivity].
Defined.

(** X9: the breach limit of the password policy is the configured integer
    when that is not negative; a negative integer is converted to [uint] and
    comes out above 2^63. Network errors are ignored when the key is
    absent. *)
Theorem PasswordPolicyConfig_max_breaches
  {P : Type} {prov : Provider P} {more : ProviderMore P} {laws : ProviderMoreLaws P}
  (p : P) :
  let n := p_Int p "selfservice.methods.password.config.max_breaches" in
  let policy := ConfigAccessors.PasswordPolicyConfig p in
  (0 <= n -> ConfigAccessors.MaxBreaches policy = n)
  /\ (n < 0 ->
      ConfigAccessors.MaxBreaches policy = n + 2 ^ 64
      /\ 2 ^ 63 <= ConfigAccessors.MaxBreaches policy)
  /\ (p_Exists p "selfservice.methods.password.config.ignore_network_errors" = false ->
      ConfigAccessors.IgnoreNetworkErrors policy = true).
Proof.
  cbv zeta. unfold ConfigAccessors.PasswordPolicyConfig.
  cbn [ConfigAccessors.MaxBreaches ConfigAccessors.IgnoreNetworkErrors].
  change ConfigAccessors.ViperKeyPasswordMaxBreaches
    with "selfservice.methods.password.config.max_breaches".
  change ConfigAccessors.ViperKeyIgnoreNetworkErrors
    with "selfservice.methods.password.config.ignore_network_errors".
  pose proof (Int_is_int p "selfservice.methods.password.config.max_breaches") as Hr.
  unfold ConfigAccessors.to_uint.
  split; [| split].
  - intros H. apply Z.mod_small. lia.
  - intros H.
    assert (E : p_Int p "selfservice.methods.password.config.max_breaches" mod 2 ^ 64
                = p_Int p "selfservice.methods.password.config.max_breaches" + 2 ^ 64).
    { symmetry. apply (Z.mod_unique _ _ (-1)); lia. }
    rewrite E. lia.
  - intros H. now apply BoolF_absent.
Qed.

Lemma PasswordPolicyConfig_max_breaches_witness :
  ConfigAccessors.MaxBreaches
    (ConfigAccessors.PasswordPolicyConfig (MoreExamples.max_breaches (-1)))
  = -1 + 2 ^ 64.
Proof.
  refine (proj1 (proj1 (proj2 (PasswordPolicyConfig_max_breaches
                                 (MoreExamples.max_breaches (-1)))) _)).
  reflexivity.
Defined.

(** ** Secrets *)

(** X11: when SecretsDefault() returns, the list it returns is the list the
    source holds under [secrets.default] after the call, it has made at most
    one write, and every later call returns the same list without writing. *)
Theorem SecretsDefault_persisted_and_stable
  {P : Type} {prov : Provider P} {laws : ProviderLaws P}
  (p : P) (fresh : string) (w : Config.Written P (list (list Byte.byte))) :
  Config.SecretsDefault fresh p = Returns w ->
  Config.value w
  = map list_byte_of_string (p_Strings (Config.source w) "secrets.default")
  /\ (List.length (Config.sets w) <= 1)%nat
  /\ forall fresh',
      Config.SecretsDefault fresh' (Config.source w)
      = Returns {| Config.value := Config.value w;
                   Config.source := Config.source w;
                   Config.sets := [] |}.
Proof.
  unfold Config.SecretsDefault, Config.MustSet.
  change Config.ViperKeySecretsDefault with "secrets.default".
  destruct (p_Strings p "secrets.default") as [| s l] eqn:E; simpl.
  - destruct (p_Set p "secrets.default" (VStrings [fresh])) as [p' | e] eqn:Hset;
      [| discriminate].
    intros [= <-]. simpl. rewrite (Strings_Set _ _ _ _ Hset). simpl.
    repeat split; lia.
  - intros [= <-]. simpl. rewrite E. simpl. repeat split; lia.
Qed.

Lemma SecretsDefault_persisted_and_stable_witness :
  Config.SecretsDefault "c1d2e3f4" (MoreExamples.secrets ["0f3a7c52"] [])
  = Returns {| Config.value := [list_byte_of_string "0f3a7c52"];
                 Config.source := MoreExamples.secrets ["0f3a7c52"] [];
                 Config.sets := [] |}.
Proof.
  assert (H : Config.SecretsDefault "b8e417d6" (MoreExamples.secrets ["0f3a7c52"] [])
              = Returns {| Config.value := [list_byte_of_string "0f3a7c52"];
                           Config.source := MoreExamples.secrets ["0f3a7c52"] [];
                           Config.sets := [] |})
    by reflexivity.
  exact (proj2 (proj2 (SecretsDefault_persisted_and_stable _ _ _ H)) "c1d2e3f4").
Defined.

(** X12: with no session secret and no default secret configured, the first
    SecretsSession() provisions the default secret with one write and returns
    it; afterwards SecretsSession() and SecretsDefault() both return that same
    secret and write nothing. This supposes that the source accepts the write
    and that the write leaves [secrets.cookie] empty. *)
Theorem SecretsSession_shares_the_default_secret
  {P : Type} {prov : Provider P} {laws : ProviderLaws P}
  (p p' : P) (fresh1 fresh2 fresh3 : string) :
  p_Strings p "secrets.cookie" = [] ->
  p_Strings p "secrets.default" = [] ->
  p_Set p "secrets.default" (VStrings [fresh1]) = Ok p' ->
  p_Strings p' "secrets.cookie" = [] ->
  Config.SecretsSession fresh1 p
  = Returns {| Config.value := [list_byte_of_string fresh1];
               Config.source := p';
               Config.sets := [("secrets.default", VStrings [fresh1])] |}
  /\ Config.SecretsSession fresh2 p'
     = Returns {| Config.value := [list_byte_of_string fresh1];
                  Config.source := p';
                  Config.sets := [] |}
  /\ Config.SecretsDefault fresh3 p'
     = Returns {| Config.value := [list_byte_of_string fresh1];
                  Config.source := p';
                  Config.sets := [] |}.
Proof.
  intros Hc Hd Hset Hc'.
  unfold Config.SecretsSession, Config.SecretsDefault, Config.MustSet.
  change Config.ViperKeySecretsDefault with "secrets.default".
  change Config.ViperKeySecretsCookie with "secrets.cookie".
  rewrite Hc, Hc', Hd, Hset, (Strings_Set _ _ _ _ Hset). simpl.
  repeat split.
Qed.

Lemma SecretsSession_shares_the_default_secret_witness :
  Config.SecretsSession "b8e417d6" (MoreExamples.secrets ["0f3a7c52"] [])
  = Returns {| Config.value := [list_byte_of_string "0f3a7c52"];
               Config.source := MoreExamples.secrets ["0f3a7c52"] [];
               Config.sets := [] |}.
Proof.
  refine (proj1 (proj2 (SecretsSession_shares_the_default_secret
                          (MoreExamples.secrets [] []) (MoreExamples.secrets ["0f3a7c52"] [])
                          "0f3a7c52" "b8e417d6" "c1d2e3f4" _ _ _ _)));
    reflexivity.
Defined.

(** ** The return-to whitelist *)

Lemma whitelisted_loop_flat_map (src : list string) (us : list NetURL.URL) :
  ConfigAccessors.whitelisted_loop src us = (us ++ flat_map whitelisted_entry src)%list.
Proof.
  revert us. induction src as [| s r IH]; intros us; simpl.
  - now rewrite app_nil_r.
  - unfold whitelisted_entry at 1. destruct s as [| c s']; simpl.
    + apply IH.
    + destruct (NetURL.ParseRequestURI (String c s')) as [u | e].
      * rewrite IH, <- app_assoc. reflexivity.
      * apply IH.
Qed.

(** X13: the whitelist of return-to URLs holds exactly the parsed forms of the
    configured entries that are not empty and parse as a request URI, in the
    order of the configuration; an empty or malformed entry is skipped and
    changes nothing for the entries around it. *)
Theorem WhitelistedReturnToDomains_parsed_entries
  {P : Type} {prov : Provider P} (p : P) :
  let src := p_Strings p "selfservice.whitelisted_return_urls" in
  let urls := ConfigAccessors.SelfServiceBrowserWhitelistedReturnToDomains p in
  urls = flat_map whitelisted_entry src
  /\ (forall u, In u urls
                <-> exists s, In s src /\ s <> "" /\ NetURL.ParseRequestURI s = Ok u)
  /\ (List.length urls <= List.length src)%nat
  /\ (forall a b, src = (a ++ b)%list ->
                  urls = (flat_map whitelisted_entry a ++ flat_map whitelisted_entry b)%list).
Proof.
  cbv zeta. unfold ConfigAccessors.SelfServiceBrowserWhitelistedReturnToDomains.
  change ConfigAccessors.ViperKeyURLsWhitelistedReturnToDomains
    with "selfservice.whitelisted_return_urls".
  rewrite whitelisted_loop_flat_map. cbn [app].
  generalize (p_Strings p "selfservice.whitelisted_return_urls"). intros src.
  split; [reflexivity |]. split; [| split].
  - intros u. rewrite in_flat_map. split.
    + intros (s & Hs & Hu). exists s. unfold whitelisted_entry in Hu.
      destruct (String.eqb_spec s "") as [-> | NE]; [now elim Hu |].
      destruct (NetURL.ParseRequestURI s) as [u' | e]; [| now elim Hu].
      destruct Hu as [<- | []]. auto.
    + intros (s & Hs & NE & Hu). exists s. split; [exact Hs |].
      unfold whitelisted_entry.
      destruct (String.eqb_spec s "") as [-> | _]; [now elim NE |].
      rewrite Hu. now left.
  - induction src as [| s r IH]; simpl; [lia |].
    rewrite length_app.
    assert (List.length (whitelisted_entry s) <= 1)%nat.
    { unfold whitelisted_entry. destruct (String.eqb s ""); [simpl; lia |].
      destruct (NetURL.ParseRequestURI s); simpl; lia. }
    lia.
  - intros a b ->. apply flat_map_app.
Qed.

(** ** Accessors that must find a URL *)

Lemma url_of_key {P : Type} {prov : Provider P} (a : URLAccessor) (p : P) :
  url_of a p = Config.parseURIOrFail p (url_key a).
Proof.
  destruct a; reflexivity.
Qed.

Lemma unescape_path_keeps_root (rest path : string) :
  GoString.has_prefix rest "/" = true ->
  NetURL.unescape rest NetURL.encodePath = Ok path ->
  GoString.has_prefix path "/" = true.
Proof.
  unfold NetURL.unescape. destruct rest as [| c r]; [discriminate |].
  cbn [GoString.has_prefix]. rewrite andb_true_r. intros Hc.
  apply Ascii.eqb_eq in Hc. subst c.
  destruct (NetURL.unescape_check _ _); [discriminate |].
  intros [= <-]. reflexivity.
Qed.

Lemma ParseRequestURI_absolute (s : string) (u : NetURL.URL) :
  NetURL.ParseRequestURI s = Ok u -> absolute u.
Proof.
  unfold NetURL.ParseRequestURI, absolute.
  destruct (NetURL.stringContainsCTLByte s); [discriminate |].
  destruct (GoString.is_empty s); [discriminate |].
  destruct (String.eqb s "*").
  { intros [= <-]. right. right. reflexivity. }
  destruct (NetURL.getScheme s) as [[sch rest0] | e]; [| discriminate].
  cbn [NetURL.bind fst snd].
  set (scheme := GoString.to_lower sch).
  assert (Tail : forall rest force query,
    (if negb (GoString.has_prefix rest "/")
     then
       if negb (GoString.is_empty scheme)
       then Ok {| NetURL.Scheme := scheme; NetURL.Opaque := rest; NetURL.User := None;
                  NetURL.Host := ""; NetURL.Path := ""; NetURL.RawPath := "";
                  NetURL.ForceQuery := force; NetURL.RawQuery := query;
                  NetURL.Fragment := "" |}
       else Err NetURL.InvalidURIForRequest
     else
       NetURL.bind
         (if negb (GoString.is_empty scheme) && GoString.has_prefix rest "//"
          then
            let (authority, rest') := NetURL.split (GoString.from 2 rest) "/" false in
            NetURL.bind (NetURL.parseAuthority authority)
              (fun uh => Ok (fst uh, snd uh, rest'))
          else Ok (None, "", rest))
         (fun uhr =>
            let '(user, host, rest1) := uhr in
            NetURL.bind (NetURL.unescape rest1 NetURL.encodePath)
              (fun path =>
                 Ok {| NetURL.Scheme := scheme; NetURL.Opaque := ""; NetURL.User := user;
                       NetURL.Host := host; NetURL.Path := path;
                       NetURL.RawPath :=
                         if String.eqb rest1 (NetURL.escape path NetURL.encodePath)
                         then "" else rest1;
                       NetURL.ForceQuery := force; NetURL.RawQuery := query;
                       NetURL.Fragment := "" |}))) = Ok u ->
    GoString.is_empty (NetURL.Scheme u) = false
    \/ GoString.has_prefix (NetURL.Path u) "/" = true \/ NetURL.Path u = "*").
  { intros rest force query.
    destruct (GoString.has_prefix rest "/") eqn:Hp; cbn [negb].
    - destruct (GoString.is_empty scheme) eqn:Hs; cbn [negb andb].
      + cbn [NetURL.bind].
        destruct (NetURL.unescape rest NetURL.encodePath) as [path | e] eqn:Hu;
          [| discriminate].
        cbn [NetURL.bind]. intros [= <-]. right. left.
        exact (unescape_path_keeps_root _ _ Hp Hu).
      + destruct (GoString.has_prefix rest "//").
        * destruct (NetURL.split (GoString.from 2 rest) "/" false) as [authority rest'].
          destruct (NetURL.parseAuthority authority) as [[user host] | e];
            [| discriminate].
          cbn [NetURL.bind fst snd].
          destruct (NetURL.unescape rest' NetURL.encodePath) as [path | e];
            [| discriminate].
          cbn [NetURL.bind]. intros [= <-]. left. exact Hs.
        * cbn [NetURL.bind].
          destruct (NetURL.unescape rest NetURL.encodePath) as [path | e]; [| discriminate].
          cbn [NetURL.bind]. intros [= <-]. left. exact Hs.
    - destruct (GoString.is_empty scheme) eqn:Hs; cbn [negb]; [discriminate |].
      intros [= <-]. left. exact Hs. }
  destruct (GoString.has_suffix rest0 "?" && Nat.eqb (GoString.count_byte "?" rest0) 1).
  - apply Tail.
  - destruct (NetURL.split rest0 "?" true) as [r q]. apply Tail.
Qed.

(** X14: each accessor that must find a URL under its key is fatal when the
    key is absent, and when the configured text does not parse as a request
    URI; when it returns, the URL is the parsed text and is absolute: it has a
    scheme, or a path starting at the root, or it is the asterisk form, the
    text [*] alone, which parses to the path [*] without a scheme. *)
Theorem URL_accessors_fatal_or_absolute
  {P : Type} {prov : Provider P} {laws : ProviderLaws P} (a : URLAccessor) (p : P) :
  (p_Exists p (url_key a) = false -> exists msg, url_of a p = Fatal msg)
  /\ (forall e, NetURL.ParseRequestURI (p_String p (url_key a)) = Err e ->
                exists msg, url_of a p = Fatal msg)
  /\ (forall u, url_of a p = Returns u ->
                NetURL.ParseRequestURI (p_String p (url_key a)) = Ok u /\ absolute u).
Proof.
  rewrite url_of_key. unfold Config.parseURIOrFail.
  split; [| split].
  - intros H. rewrite (String_absent _ _ H). simpl. now eexists.
  - intros e ->. now eexists.
  - intros u.
    destruct (NetURL.ParseRequestURI (p_String p (url_key a))) as [u' | e] eqn:E;
      [| discriminate].
    intros [= <-]. split; [reflexivity |]. exact (ParseRequestURI_absolute _ _ E).
Qed.

Lemma URL_accessors_fatal_or_absolute_witness :
  (exists msg, url_of SelfServiceFlowLoginUI Examples.empty = Fatal msg)
  /\ exists msg, url_of SelfServiceBrowserDefaultReturnTo MoreExamples.return_to_bad_default
                 = Fatal msg.
Proof.
  split.
  - refine (proj1 (URL_accessors_fatal_or_absolute SelfServiceFlowLoginUI Examples.empty) _).
    reflexivity.
  - refine (proj1 (proj2 (URL_accessors_fatal_or_absolute
                            SelfServiceBrowserDefaultReturnTo
                            MoreExamples.return_to_bad_default))
              NetURL.InvalidURIForRequest _).
    reflexivity.
Defined.

(** ** Return-to URLs *)

Lemma RequestURIF_override
  {P : Type} {prov : Provider P} {more : ProviderMore P}
  {laws : ProviderLaws P} {mlaws : ProviderMoreLaws P}
  (p : P) (key : string) (fb : NetURL.URL) (o : option NetURL.URL) :
  Override p key o ->
  p_RequestURIF p key fb = match o with Some u => u | None => fb end.
Proof.
  intros H. rewrite RequestURIF_switch.
  destruct H as [u [-> | ->] | s u -> -> | s e -> -> | Habs]; try reflexivity.
  now rewrite (Get_absent _ _ Habs).
Qed.

(** X15: the return-to accessors of the login, registration, logout and
    recovery flows evaluate the default return-to URL first, and are fatal
    when its key is absent or its text does not parse, whatever overrides the
    document holds for the flow or the strategy. *)
Theorem return_to_fatal_without_default
  {P : Type} {prov : Provider P} {more : ProviderMore P} {laws : ProviderLaws P}
  (p : P) (strategy : string) :
  p_Exists p "selfservice.default_browser_return_url" = false
  \/ (exists e,
        NetURL.ParseRequestURI (p_String p "selfservice.default_browser_return_url")
        = Err e) ->
  (exists msg, ConfigAccessors.SelfServiceFlowLoginReturnTo p strategy = Fatal msg)
  /\ (exists msg, ConfigAccessors.SelfServiceFlowRegistrationReturnTo p strategy = Fatal msg)
  /\ (exists msg, ConfigAccessors.SelfServiceFlowLogoutRedirectURL p = Fatal msg)
  /\ (exists msg, ConfigAccessors.SelfServiceFlowRecoveryReturnTo p = Fatal msg).
Proof.
  intros H.
  assert (E : exists e,
             NetURL.ParseRequestURI (p_String p "selfservice.default_browser_return_url")
             = Err e).
  { destruct H as [H | H]; [| exact H].
    rewrite (String_absent _ _ H). now eexists. }
  destruct E as [e E].
  unfold ConfigAccessors.SelfServiceFlowLoginReturnTo,
    ConfigAccessors.SelfServiceFlowRegistrationReturnTo,
    ConfigAccessors.selfServiceReturnTo,
    ConfigAccessors.SelfServiceFlowLogoutRedirectURL,
    ConfigAccessors.SelfServiceFlowRecoveryReturnTo,
    ConfigAccessors.SelfServiceBrowserDefaultReturnTo, Config.parseURIOrFail.
  change ConfigAccessors.ViperKeySelfServiceBrowserDefaultReturnTo
    with "selfservice.default_browser_return_url".
  rewrite E. repeat split; now eexists.
Qed.

Lemma return_to_fatal_without_default_witness :
  p_Get MoreExamples.return_to_bad_default
    "selfservice.flows.login.after.default_browser_return_url"
  = VString "https://www.example.org/login_done"
  /\ exists msg,
       ConfigAccessors.SelfServiceFlowLoginReturnTo
         MoreExamples.return_to_bad_default "password" = Fatal msg.
Proof.
  split; [reflexivity |].
  refine (proj1 (return_to_fatal_without_default
                   MoreExamples.return_to_bad_default "password" _)).
  right. exists NetURL.InvalidURIForRequest. reflexivity.
Defined.

(** X16: when the default return-to URL parses, the return-to URL of the
    login, registration and settings flows is resolved in two levels: the
    override of the strategy when it holds a URL or a text that parses, else
    the override of the flow, else the default (for settings, the default the
    caller passes); an override that is absent or does not parse is passed
    over. *)
Theorem return_to_precedence
  {P : Type} {prov : Provider P} {more : ProviderMore P}
  {laws : ProviderLaws P} {mlaws : ProviderMoreLaws P}
  (p : P) (strategy : string) (d : NetURL.URL) :
  (NetURL.ParseRequestURI (p_String p "selfservice.default_browser_return_url") = Ok d ->
   ConfigAccessors.SelfServiceFlowLoginReturnTo p strategy
   = Returns (return_to p "selfservice.flows.login.after" strategy d)
   /\ ConfigAccessors.SelfServiceFlowRegistrationReturnTo p strategy
      = Returns (return_to p "selfservice.flows.registration.after" strategy d))
  /\ ConfigAccessors.SelfServiceFlowSettingsReturnTo p strategy d
     = return_to p "selfservice.flows.settings.after" strategy d
  /\ (forall flow o1 o2,
         Override p (flow ++ "." ++ strategy ++ ".default_browser_return_url") o1 ->
         Override p (flow ++ ".default_browser_return_url") o2 ->
         return_to p flow strategy d
         = match o1, o2 with
           | Some u, _ => u
           | None, Some u => u
           | None, None => d
           end).
Proof.
  split; [| split].
  - intros E.
    unfold ConfigAccessors.SelfServiceFlowLoginReturnTo,
      ConfigAccessors.SelfServiceFlowRegistrationReturnTo,
      ConfigAccessors.selfServiceReturnTo,
      ConfigAccessors.SelfServiceBrowserDefaultReturnTo, Config.parseURIOrFail.
    change ConfigAccessors.ViperKeySelfServiceBrowserDefaultReturnTo
      with "selfservice.default_browser_return_url".
    rewrite E. split; reflexivity.
  - reflexivity.
  - intros flow o1 o2 H1 H2. unfold return_to.
    rewrite (RequestURIF_override _ _ _ _ H1), (RequestURIF_override _ _ _ _ H2).
    now destruct o1, o2.
Qed.

Lemma return_to_precedence_witness :
  let d := guess_url false "www.example.org" 443 in
  return_to MoreExamples.return_to_overrides "selfservice.flows.registration.after" "oidc" d
  = d
  /\ NetURL.Path
       (return_to MoreExamples.return_to_overrides
          "selfservice.flows.registration.after" "password" d)
     = "/welcome"
  /\ NetURL.Path
       (return_to MoreExamples.return_to_overrides "selfservice.flows.login.after" "oidc" d)
     = "/login_done".
Proof.
  intros d. split; [| split].
  - refine (proj2 (proj2 (return_to_precedence MoreExamples.return_to_overrides "oidc" d))
              "selfservice.flows.registration.after" None None _ _).
    + apply override_absent. reflexivity.
    + apply (override_invalid _ _ "not a url" NetURL.InvalidURIForRequest); reflexivity.
  - rewrite (proj2 (proj2 (return_to_precedence MoreExamples.return_to_overrides
                             "password" d))
               "selfservice.flows.registration.after"
               (Some {| NetURL.Scheme := ""; NetURL.Opaque := ""; NetURL.User := None;
                        NetURL.Host := ""; NetURL.Path := "/welcome"; NetURL.RawPath := "";
                        NetURL.ForceQuery := false; NetURL.RawQuery := "";
                        NetURL.Fragment := "" |})
               None).
    + reflexivity.
    + apply (override_text _ _ "/welcome"); reflexivity.
    + apply (override_invalid _ _ "not a url" NetURL.InvalidURIForRequest); reflexivity.
  - rewrite (proj2 (proj2 (return_to_precedence MoreExamples.return_to_overrides "oidc" d))
               "selfservice.flows.login.after" None
               (Some {| NetURL.Scheme := "https"; NetURL.Opaque := ""; NetURL.User := None;
                        NetURL.Host := "www.example.org"; NetURL.Path := "/login_done";
                        NetURL.RawPath := ""; NetURL.ForceQuery := false;
                        NetURL.RawQuery := ""; NetURL.Fragment := "" |})).
    + reflexivity.
    + apply override_absent. reflexivity.
    + apply (override_text _ _ "https://www.example.org/login_done"); reflexivity.
Defined.

(** ** Defaults *)

(** X17: an accessor with a fallback returns its fallback when its key is
    absent: 24 hours for the session, one hour for each flow and for the
    privileged session, the sender and the template root of the courier, and
    the unknown version. *)
Theorem fallbacks_when_absent
  {P : Type} {prov : Provider P} {more : ProviderMore P} {laws : ProviderLaws P} (p : P) :
  (p_Exists p "session.lifespan" = false ->
   ConfigAccessors.SessionLifespan p = 24 * 3600 * 1000000000)
  /\ (p_Exists p "selfservice.flows.login.lifespan" = false ->
      ConfigAccessors.SelfServiceFlowLoginRequestLifespan p = 3600 * 1000000000)
  /\ (p_Exists p "selfservice.flows.registration.lifespan" = false ->
      ConfigAccessors.SelfServiceFlowRegistrationRequestLifespan p = 3600 * 1000000000)
  /\ (p_Exists p "selfservice.flows.settings.lifespan" = false ->
      ConfigAccessors.SelfServiceFlowSettingsFlowLifespan p = 3600 * 1000000000)
  /\ (p_Exists p "selfservice.flows.recovery.lifespan" = false ->
      ConfigAccessors.SelfServiceFlowRecoveryRequestLifespan p = 3600 * 1000000000)
  /\ (p_Exists p "selfservice.flows.verification.lifespan" = false ->
      ConfigAccessors.SelfServiceFlowVerificationRequestLifespan p = 3600 * 1000000000)
  /\ (p_Exists p "selfservice.flows.settings.privileged_session_max_age" = false ->
      ConfigAccessors.SelfServiceFlowSettingsPrivilegedSessionMaxAge p = 3600 * 1000000000)
  /\ (p_Exists p "courier.smtp.from_address" = false ->
      ConfigAccessors.CourierSMTPFrom p = "noreply@kratos.ory.sh")
  /\ (p_Exists p "courier.template_override_path" = false ->
      ConfigAccessors.CourierTemplatesRoot p = "/courier/template/templates")
  /\ (p_Exists p "version" = false -> ConfigAccessors.ConfigVersion p = "unknown version").
Proof.
  repeat match goal with |- _ /\ _ => split end; intros H.
  1-7: (etransitivity; [exact (DurationF_absent _ _ _ H) | reflexivity]).
  - unfold ConfigAccessors.CourierSMTPFrom. rewrite StringF_fallback.
    change ConfigAccessors.ViperKeyCourierSMTPFrom with "courier.smtp.from_address".
    now rewrite H.
  - unfold ConfigAccessors.CourierTemplatesRoot. rewrite StringF_fallback.
    change ConfigAccessors.ViperKeyCourierTemplatesPath with "courier.template_override_path".
    now rewrite H.
  - unfold ConfigAccessors.ConfigVersion. rewrite StringF_fallback.
    change ConfigAccessors.ViperKeyVersion with "version".
    now rewrite H.
Qed.

Lemma fallbacks_when_absent_witness :
  ConfigAccessors.SessionLifespan Examples.empty = 24 * 3600 * 1000000000.
Proof.
  refine (proj1 (fallbacks_when_absent Examples.empty) _). reflexivity.
Defined.

(** ** Keys of the hooks *)

Lemma length_append (a b : string) :
  String.length (a ++ b) = (String.length a + String.length b)%nat.
Proof.
  induction a as [| c a IH]; simpl; [reflexivity | now rewrite IH].
Qed.

Lemma append_same_suffix_inj (a b t : string) : a ++ t = b ++ t -> a = b.
Proof.
  revert b. induction a as [| c a IH]; intros [| d b] H.
  - reflexivity.
  - apply (f_equal String.length) in H. simpl in H. rewrite length_append in H. lia.
  - apply (f_equal String.length) in H. simpl in H. rewrite length_append in H. lia.
  - simpl in H. injection H as -> H. f_equal. now apply IH.
Qed.

(** X18: the hooks accessors read pairwise distinct keys: two accessors that
    read the same key are the same accessor, for the same strategy. *)
Theorem hooks_key_injective (a b : HooksAccessor) : hooks_key a = hooks_key b -> a = b.
Proof.
  destruct a as [| | s | s | s], b as [| | s' | s' | s']; cbn [hooks_key];
    intros H; try reflexivity; try discriminate H.
  all: f_equal; apply (append_same_suffix_inj _ _ ".hooks"); simpl in H.
  all: repeat match type of H with
              | String _ _ = String _ _ => injection H as H
              end; exact H.
Qed.

Lemma hooks_key_injective_witness :
  LoginAfterHooks "password" = LoginAfterHooks "password".
Proof.
  apply (hooks_key_injective (LoginAfterHooks "password") (LoginAfterHooks "password")).
  reflexivity.
Defined.

(** ** The guessed URL and the listen address *)

(** X19: when no base URL is configured and the configured host is neither
    empty nor [0.0.0.0], the host of SelfPublicURL() is the address that
    PublicListenOn() returns, and likewise on the admin interface. With an
    empty host the two differ: the listen address keeps the empty host, the
    URL carries the fallback host. *)
Theorem guessed_url_host_is_listen_address
  {P : Type} {prov : Provider P} {laws : ProviderLaws P} (env : Env) (p : P) :
  (forall addr,
      Config.PublicListenOn p = Returns addr ->
      p_Exists p "serve.public.base_url" = false ->
      (p_String p "serve.public.host" <> "" ->
       p_String p "serve.public.host" <> "0.0.0.0" ->
       NetURL.Host (Config.SelfPublicURL env p) = addr)
      /\ (p_String p "serve.public.host" = "" ->
          NetURL.Host (Config.SelfPublicURL env p) = fallback_host env ++ addr))
  /\ (forall addr,
         Config.AdminListenOn p = Returns addr ->
         p_Exists p "serve.admin.base_url" = false ->
         (p_String p "serve.admin.host" <> "" ->
          p_String p "serve.admin.host" <> "0.0.0.0" ->
          NetURL.Host (Config.SelfAdminURL env p) = addr)
         /\ (p_String p "serve.admin.host" = "" ->
             NetURL.Host (Config.SelfAdminURL env p) = fallback_host env ++ addr)).
Proof.
  unfold Config.PublicListenOn, Config.AdminListenOn, Config.listenOn,
    Config.SelfPublicURL, Config.SelfAdminURL, Config.baseURL.
  change ("serve." ++ "public" ++ ".port") with "serve.public.port".
  change ("serve." ++ "public" ++ ".host") with "serve.public.host".
  change ("serve." ++ "admin" ++ ".port") with "serve.admin.port".
  change ("serve." ++ "admin" ++ ".host") with "serve.admin.host".
  change Config.ViperKeyPublicBaseURL with "serve.public.base_url".
  change Config.ViperKeyPublicHost with "serve.public.host".
  change Config.ViperKeyPublicPort with "serve.public.port".
  change Config.ViperKeyAdminBaseURL with "serve.admin.base_url".
  change Config.ViperKeyAdminHost with "serve.admin.host".
  change Config.ViperKeyAdminPort with "serve.admin.port".
  cbn [String.eqb Ascii.eqb Bool.eqb].
  rewrite !guessBaseURL_amended_guess. unfold amended_guess, guess_url.
  split; intros addr Haddr Habs; rewrite (Get_absent _ _ Habs); cbn [NetURL.Host].
  - destruct (p_IntF p "serve.public.port" 4433 <? 1); [discriminate |].
    injection Haddr as <-. split.
    + intros H1 H2.
      destruct (String.eqb_spec (p_String p "serve.public.host") ""); [contradiction |].
      destruct (String.eqb_spec (p_String p "serve.public.host") "0.0.0.0");
        [contradiction | reflexivity].
    + intros ->. reflexivity.
  - destruct (p_IntF p "serve.admin.port" 4434 <? 1); [discriminate |].
    injection Haddr as <-. split.
    + intros H1 H2.
      destruct (String.eqb_spec (p_String p "serve.admin.host") ""); [contradiction |].
      destruct (String.eqb_spec (p_String p "serve.admin.host") "0.0.0.0");
        [contradiction | reflexivity].
    + intros ->. reflexivity.
Qed.

Lemma guessed_url_host_is_listen_address_witness :
  NetURL.Host
    (Config.SelfPublicURL Examples.host_env
       (MoreExamples.public_host_port "id.example.org" 8443))
  = "id.example.org:8443".
Proof.
  refine (proj1 (proj1 (guessed_url_host_is_listen_address Examples.host_env
                          (MoreExamples.public_host_port "id.example.org" 8443))
                   "id.example.org:8443" _ _) _ _).
  - reflexivity.
  - reflexivity.
  - intros H. discriminate H.
  - intros H. discriminate H.
Defined.

(** ** More on errors and bounds *)

(** X20: a hooks accessor is fatal exactly when its key exists and the
    configuration under it cannot be read: the document cannot be marshalled,
    or the raw value is not empty and the decoder refuses it. An absent key
    is never fatal. *)
Theorem hooks_fatal_iff_present_and_unreadable
  {P : Type} {prov : Provider P} {codec : Codec} (a : HooksAccessor) (p : P) :
  (exists msg, hooks_of a p = Fatal msg)
  <-> p_Exists p (hooks_key a) = true
      /\ ((exists e, p_Marshal p = Err e)
          \/ exists out e,
               p_Marshal p = Ok out
               /\ gjson_Raw out (hooks_key a) <> ""
               /\ jsonx_Decode_Hooks (gjson_Raw out (hooks_key a)) = Err e).
Proof.
  rewrite hooks_of_key. unfold Config.selfServiceHooks.
  destruct (p_Exists p (hooks_key a)); cbn [negb].
  2: { split; [intros [m H]; discriminate H | intros [H _]; discriminate H]. }
  destruct (p_Marshal p) as [out | e].
  2: { split; [intros _; split; [reflexivity | left; now exists e] | now eexists]. }
  destruct (gjson_Raw out (hooks_key a)) as [| c r] eqn:Eraw; cbn [String.length Nat.eqb].
  { split; [intros [m H]; discriminate H |].
    intros [_ [[e H] | (out' & e & [= <-] & Hne & _)]]; [discriminate H |].
    rewrite Eraw in Hne. now elim Hne. }
  destruct (jsonx_Decode_Hooks (String c r)) as [hooks | e] eqn:Edec.
  - split; [intros [m H]; discriminate H |].
    intros [_ [[e H] | (out' & e & [= <-] & _ & Hd)]]; [discriminate H |].
    rewrite Eraw, Edec in Hd. discriminate Hd.
  - split; [| now eexists].
    intros _. split; [reflexivity |]. right. exists out, e.
    rewrite Eraw. repeat split; [discriminate | exact Edec].
Qed.

Lemma getScheme_from_no_colon (first : bool) (s : string) :
  GoString.all_bytes (GoString.is_not ":") s = true ->
  NetURL.getScheme_from first s = Ok None.
Proof.
  revert first. induction s as [| c s IH]; intros first; [reflexivity |].
  cbn [GoString.all_bytes NetURL.getScheme_from].
  intros H. apply andb_true_iff in H as [Hc Hs].
  unfold GoString.is_not in Hc. apply negb_true_iff in Hc.
  rewrite (IH false Hs), Hc.
  destruct (GoString.is_letter c); [reflexivity |].
  destruct (GoString.is_digit c || GoString.one_of ["+"; "-"; "."]%char c);
    [now destruct first | reflexivity].
Qed.

Lemma has_prefix_root_drop_last (s : string) :
  GoString.has_prefix s "/" = false ->
  GoString.has_prefix (GoString.drop_last s) "/" = false.
Proof.
  destruct s as [| c s]; [reflexivity |].
  unfold GoString.drop_last. cbn [String.length Nat.sub GoString.has_prefix].
  rewrite Nat.sub_0_r, andb_true_r. intros Hc.
  destruct (String.length s); cbn [substring GoString.has_prefix]; [reflexivity |].
  now rewrite andb_true_r.
Qed.

Lemma has_prefix_root_cut (sep : ascii) (s pre post : string) :
  GoString.has_prefix s "/" = false ->
  GoString.cut sep s = Some (pre, post) ->
  GoString.has_prefix pre "/" = false.
Proof.
  destruct s as [| c s]; [discriminate |].
  cbn [GoString.cut GoString.has_prefix]. rewrite andb_true_r. intros Hc.
  destruct (Ascii.eqb c sep); [now intros [= <- _] |].
  destruct (GoString.cut sep s) as [[pre' post'] |]; [| discriminate].
  intros [= <- _]. cbn [GoString.has_prefix]. now rewrite andb_true_r.
Qed.

(** A text without a colon has no scheme: it parses as a request URI only
    when it starts at the root or is the asterisk form. *)
Lemma ParseRequestURI_without_colon (s : string) :
  GoString.all_bytes (GoString.is_not ":") s = true ->
  GoString.has_prefix s "/" = false ->
  s <> "*" ->
  exists e, NetURL.ParseRequestURI s = Err e.
Proof.
  intros Hcolon Hroot Hstar. unfold NetURL.ParseRequestURI.
  destruct (NetURL.stringContainsCTLByte s); [now eexists |].
  destruct (GoString.is_empty s); [now eexists |].
  destruct (String.eqb_spec s "*") as [E | _]; [contradiction |].
  unfold NetURL.getScheme. rewrite (getScheme_from_no_colon true s Hcolon).
  cbn [NetURL.bind fst snd GoString.to_lower GoString.is_empty negb andb].
  destruct (GoString.has_suffix s "?" && Nat.eqb (GoString.count_byte "?" s) 1).
  - rewrite (has_prefix_root_drop_last s Hroot). cbn [negb]. now eexists.
  - unfold NetURL.split.
    destruct (GoString.cut "?" s) as [[pre post] |] eqn:Ecut.
    + rewrite (has_prefix_root_cut _ _ _ _ Hroot Ecut). cbn [negb]. now eexists.
    + rewrite Hroot. cbn [negb]. now eexists.
Qed.

(** X21: every URL of the return-to whitelist is absolute: it has a scheme,
    or a path starting at the root, or it is the asterisk form (the path [*]
    without a scheme). It is the parsed form of a configured entry that holds
    a colon, or starts at the root, or is the text [*]: a bare domain name
    without a port is never whitelisted. *)
Theorem WhitelistedReturnToDomains_absolute {P : Type} {prov : Provider P} (p : P) :
  forall u,
    In u (ConfigAccessors.SelfServiceBrowserWhitelistedReturnToDomains p) ->
    absolute u
    /\ exists s,
         In s (p_Strings p "selfservice.whitelisted_return_urls")
         /\ NetURL.ParseRequestURI s = Ok u
         /\ (GoString.any_byte (Ascii.eqb ":") s = true
             \/ GoString.has_prefix s "/" = true
             \/ s = "*").
Proof.
  unfold ConfigAccessors.SelfServiceBrowserWhitelistedReturnToDomains.
  change ConfigAccessors.ViperKeyURLsWhitelistedReturnToDomains
    with "selfservice.whitelisted_return_urls".
  rewrite whitelisted_loop_flat_map. cbn [app].
  intros u Hu. apply in_flat_map in Hu as (s & Hs & Hu).
  unfold whitelisted_entry in Hu. destruct (String.eqb s ""); [now elim Hu |].
  destruct (NetURL.ParseRequestURI s) as [u' | e] eqn:E; [| now elim Hu].
  destruct Hu as [<- | []].
  split; [exact (ParseRequestURI_absolute _ _ E) |].
  exists s. split; [exact Hs |]. split; [exact E |].
  destruct (GoString.any_byte (Ascii.eqb ":") s) eqn:Hcolon; [now left |].
  destruct (GoString.has_prefix s "/") eqn:Hroot; [right; now left |].
  destruct (String.eqb_spec s "*") as [-> | Hstar]; [right; now right |].
  exfalso.
  assert (Hnone : GoString.all_bytes (GoString.is_not ":") s = true).
  { clear - Hcolon. induction s as [| c s IH]; [reflexivity |].
    cbn [GoString.any_byte] in Hcolon. apply orb_false_iff in Hcolon as [Hc Hr].
    cbn [GoString.all_bytes]. unfold GoString.is_not at 1.
    rewrite Ascii.eqb_sym, Hc. now apply IH. }
  destruct (ParseRequestURI_without_colon s Hnone Hroot Hstar) as [e He].
  rewrite He in E. discriminate E.
Qed.

Lemma WhitelistedReturnToDomains_absolute_witness :
  ConfigAccessors.SelfServiceBrowserWhitelistedReturnToDomains
    (MoreExamples.whitelist ["example.org"; "*"; "example.org:8080"; "/app"])
  = [{| NetURL.Scheme := ""; NetURL.Opaque := ""; NetURL.User := None; NetURL.Host := "";
        NetURL.Path := "*"; NetURL.RawPath := ""; NetURL.ForceQuery := false;
        NetURL.RawQuery := ""; NetURL.Fragment := "" |};
     {| NetURL.Scheme := "example.org"; NetURL.Opaque := "8080"; NetURL.User := None;
        NetURL.Host := ""; NetURL.Path := ""; NetURL.RawPath := "";
        NetURL.ForceQuery := false; NetURL.RawQuery := ""; NetURL.Fragment := "" |};
     {| NetURL.Scheme := ""; NetURL.Opaque := ""; NetURL.User := None; NetURL.Host := "";
        NetURL.Path := "/app"; NetURL.RawPath := ""; NetURL.ForceQuery := false;
        NetURL.RawQuery := ""; NetURL.Fragment := "" |}]
  /\ absolute
       {| NetURL.Scheme := "example.org"; NetURL.Opaque := "8080"; NetURL.User := None;
          NetURL.Host := ""; NetURL.Path := ""; NetURL.RawPath := "";
          NetURL.ForceQuery := false; NetURL.RawQuery := ""; NetURL.Fragment := "" |}.
Proof.
  split; [reflexivity |].
  apply (WhitelistedReturnToDomains_absolute
           (MoreExamples.whitelist ["example.org"; "*"; "example.org:8080"; "/app"])).
  right. left. reflexivity.
Defined.

(** X22: the default parallelism is twice the processor count exactly on a
    host with fewer than 128 processors; from 128 processors on it is
    smaller, by a multiple of 256. *)
Theorem Argon2DefaultParallelism_exact_iff (env : Env) :
  0 <= runtime_NumCPU env < 2 ^ 62 ->
  (Config.Argon2DefaultParallelism env = 2 * runtime_NumCPU env
   <-> runtime_NumCPU env < 128)
  /\ Config.Argon2DefaultParallelism env
     = 2 * runtime_NumCPU env - 256 * (runtime_NumCPU env / 128)
  /\ 0 <= Config.Argon2DefaultParallelism env < 256.
Proof.
  intros Hn. unfold Config.Argon2DefaultParallelism, GoInt.to_uint8, GoInt.to_int.
  rewrite (Z.mod_small (runtime_NumCPU env * 2 + 2 ^ 63) (2 ^ 64)) by lia.
  replace (runtime_NumCPU env * 2 + 2 ^ 63 - 2 ^ 63) with (2 * runtime_NumCPU env) by lia.
  change (2 ^ 8) with 256.
  pose proof (Z.mod_pos_bound (2 * runtime_NumCPU env) 256 ltac:(lia)) as Hb.
  pose proof (Z.div_mod (2 * runtime_NumCPU env) 256 ltac:(lia)) as Hd.
  assert (Hq : 2 * runtime_NumCPU env / 256 = runtime_NumCPU env / 128).
  { replace 256 with (2 * 128) by reflexivity.
    rewrite Z.div_mul_cancel_l by lia. reflexivity. }
  rewrite Hq in Hd.
  pose proof (Z.div_mod (runtime_NumCPU env) 128 ltac:(lia)) as Hd'.
  pose proof (Z.mod_pos_bound (runtime_NumCPU env) 128 ltac:(lia)) as Hb'.
  pose proof (Z.div_pos (runtime_NumCPU env) 128 ltac:(lia) ltac:(lia)) as Hp.
  split; [| split; [lia | exact Hb]].
  split; intros H.
  - assert (runtime_NumCPU env / 128 = 0) by lia. lia.
  - rewrite Z.div_small in Hd by lia. lia.
Qed.

Lemma Argon2DefaultParallelism_exact_iff_witness :
  Config.Argon2DefaultParallelism
    {| os_Hostname := Ok "kratos-host"; runtime_NumCPU := 192 |}
  = 2 * 192 - 256 * (192 / 128).
Proof.
  refine (proj1 (proj2 (Argon2DefaultParallelism_exact_iff
                          {| os_Hostname := Ok "kratos-host"; runtime_NumCPU := 192 |} _))).
  simpl. lia.
Defined.

(** ** The enforcement of API flows *)

(** X23: the enforcement of API flows is disabled only in development mode
    and only when the environment variable DEV_DISABLE_API_FLOW_ENFORCEMENT
    holds exactly [true]; when the key [dev] is absent it is never disabled,
    whatever the environment holds. *)
Theorem DisableAPIFlowEnforcement_only_in_dev_mode
  {P : Type} {prov : Provider P} {more : ProviderMore P} {laws : ProviderLaws P}
  (p : P) :
  (forall getenv,
      ConfigAccessors.DisableAPIFlowEnforcement getenv p = true
      <-> p_Bool p "dev" = true /\ getenv "DEV_DISABLE_API_FLOW_ENFORCEMENT" = "true")
  /\ (forall getenv,
         p_Exists p "dev" = false ->
         ConfigAccessors.DisableAPIFlowEnforcement getenv p = false)
  /\ (forall getenv v,
         getenv "DEV_DISABLE_API_FLOW_ENFORCEMENT" = v ->
         In v ["TRUE"; "True"; "1"; "yes"; ""] ->
         ConfigAccessors.DisableAPIFlowEnforcement getenv p = false).
Proof.
  unfold ConfigAccessors.DisableAPIFlowEnforcement, Config.IsInsecureDevMode.
  split; [| split].
  - intros getenv. rewrite andb_true_iff, String.eqb_eq. reflexivity.
  - intros getenv H. now rewrite (Bool_absent _ _ H).
  - intros getenv v -> Hv. apply andb_false_iff. right.
    destruct Hv as [<- | [<- | [<- | [<- | [<- | []]]]]]; reflexivity.
Qed.

Lemma DisableAPIFlowEnforcement_only_in_dev_mode_witness :
  ConfigAccessors.DisableAPIFlowEnforcement (fun _ => "true") Examples.dev_4455 = true
  /\ ConfigAccessors.DisableAPIFlowEnforcement (fun _ => "true") Examples.empty = false.
Proof.
  split.
  - apply (proj1 (DisableAPIFlowEnforcement_only_in_dev_mode Examples.dev_4455)).
    split; reflexivity.
  - apply (proj1 (proj2 (DisableAPIFlowEnforcement_only_in_dev_mode Examples.empty))).
    reflexivity.
Defined.
